(** * gardener-extensions: mutating-webhook ensurers and values providers

    A shallow embedding of the control-plane webhook code (the container
    merge helpers, the checksum annotation, the mutation dispatcher and
    the AWS control-plane backup ensurer) and of the OpenStack values
    provider, with the properties the specification states about them.

    Conventions of the embedding:
    - a Go function returning [(T, error)] or [error] returns [result T];
      an object mutated through a pointer is returned as the new value;
    - a slice is a [list]; where the code tests a slice against [nil]
      the field is an [option (list _)], [None] being the nil slice;
    - a [*string] is an [option string], a [map[string]string] a
      [gmap string string]; a map field that may be nil is an [option];
    - logging has no effect on results and is left out. *)

From Stdlib Require Import ZArith List String Ascii Lia.
From Stdlib.Strings Require Import Byte.
From stdpp Require Import base option list strings gmap pretty.

Local Open Scope string_scope.

(** ** Errors *)

Inductive result (A : Type) : Type :=
| Ok (a : A)
| Err (msg : string).
Arguments Ok {A} a.
Arguments Err {A} msg.

#[global] Instance result_ret : MRet result := fun A a => Ok a.
#[global] Instance result_bind : MBind result := fun A B f m =>
  match m with
  | Ok a => f a
  | Err msg => Err msg
  end.
#[global] Instance result_fmap : FMap result := fun A B f m =>
  match m with
  | Ok a => Ok (f a)
  | Err msg => Err msg
  end.

(** [errors.Wrapf err "..."]: the message is put in front of the cause. *)
Definition Wrapf {A : Type} (msg : string) (m : result A) : result A :=
  match m with
  | Ok a => Ok a
  | Err cause => Err (msg +:+ ": " +:+ cause)
  end.

Definition isOk {A : Type} (m : result A) : bool :=
  match m with Ok _ => true | Err _ => false end.

(** ** Kubernetes objects (the fields the code reads or writes) *)

Record SecretKeySelector := {
  sksName : string;   (* LocalObjectReference.Name *)
  sksKey : string
}.

Record EnvVarSource := {
  SecretKeyRef : option SecretKeySelector
}.

Record EnvVar := {
  evName : string;
  evValue : string;
  evValueFrom : option EnvVarSource
}.

Record VolumeMount := {
  vmName : string;
  vmMountPath : string
}.

Record Container := {
  cName : string;
  cImage : string;
  cCommand : list string;
  cEnv : list EnvVar;
  cVolumeMounts : list VolumeMount
}.

Record Volume := {
  volName : string;
  volSecretName : option string   (* VolumeSource.Secret.SecretName *)
}.

Record PodSpec := {
  Containers : list Container;
  Volumes : list Volume
}.

Record PodTemplateSpec := {
  Annotations : option (gmap string string);
  Spec : PodSpec
}.

Record StatefulSet := {
  ssName : string;
  ssNamespace : string;
  ssTemplate : PodTemplateSpec   (* Spec.Template *)
}.

Record Deployment := {
  depName : string;
  depNamespace : string;
  depTemplate : PodTemplateSpec
}.

Record Service := {
  svcName : string;
  svcNamespace : string
}.

Record Secret := {
  secName : string;
  secNamespace : string;
  secData : option (gmap string (list byte))   (* map[string][]byte, nil-able *)
}.

(** The API client, seen through the one call the ensurers make:
    [Get(ctx, {namespace, name}, &Secret{})]. *)
Definition Client := string -> string -> result Secret.

(** ** Merge helpers of package [webhook] *)

Module extensionswebhook.

(** Modelled from the spec: the merge helpers of [pkg/webhook] are called
    by the ensurers but are not among the sources. The specification
    (4.2) gives them as find-by-key, then replace the found element in
    place, else append. [matches k x] says that element [x] has key [k]:
    a name for containers, environment variables, volumes and mounts, a
    prefix for command-line flags. *)
Section Upsert.
Context {A K : Type} (matches : K -> A -> Prop).
Context `{!forall k x, Decision (matches k x)}.

(** Index of the first element with the key, [None] for the code's -1. *)
Fixpoint indexMatching (items : list A) (k : K) : option nat :=
  match items with
  | [] => None
  | item :: rest =>
      if decide (matches k item) then Some 0%nat
      else S <$> indexMatching rest k
  end.

(** Pointer to the first element with the key, or nil. *)
Definition firstMatching (items : list A) (k : K) : option A :=
  match indexMatching items k with
  | Some i => items !! i
  | None => None
  end.

Definition upsert (items : list A) (k : K) (item : A) : list A :=
  match indexMatching items k with
  | None => items ++ [item]
  | Some i => <[i:=item]> items
  end.

(** Number of elements with the key. *)
Definition countMatching (k : K) (items : list A) : nat :=
  length (filter (matches k) items).
End Upsert.

Definition hasName {A : Type} (name : A -> string) (n : string) (x : A) : Prop :=
  name x = n.

#[global] Instance hasName_dec {A} (name : A -> string) n x :
  Decision (hasName name n x).
Proof. unfold hasName. apply _. Defined.

(** Modelled from the spec: [ContainerWithName] (the spec's
    FindContainerByName), called by the ensurers and the tests. *)
Definition containerWithNameIndex (items : list Container) (name : string) : option nat :=
  indexMatching (hasName cName) items name.

Definition ContainerWithName (items : list Container) (name : string) : option Container :=
  firstMatching (hasName cName) items name.

(** Modelled from the spec: [EnsureContainerWithName] (the spec's
    UpsertContainer): replace-if-present by name else append, keeping
    the index of the existing element. *)
Definition EnsureContainerWithName (items : list Container) (item : Container) : list Container :=
  upsert (hasName cName) items (cName item) item.

(** Modelled from the spec: UpsertEnvVar, keyed by the variable name. *)
Definition UpsertEnvVar (items : list EnvVar) (item : EnvVar) : list EnvVar :=
  upsert (hasName evName) items (evName item) item.

(** Modelled from the spec: UpsertVolume, keyed by the volume name. *)
Definition UpsertVolume (items : list Volume) (item : Volume) : list Volume :=
  upsert (hasName volName) items (volName item) item.

(** Modelled from the spec: UpsertVolumeMount, keyed by the mount name. *)
Definition UpsertVolumeMount (items : list VolumeMount) (item : VolumeMount) : list VolumeMount :=
  upsert (hasName vmName) items (vmName item) item.

Definition hasPrefix (p s : string) : Prop := String.prefix p s = true.

#[global] Instance hasPrefix_dec p s : Decision (hasPrefix p s).
Proof. unfold hasPrefix. apply _. Defined.

(** Which flags hold a comma-joined list of values. The specification
    (4.2) names [--feature-gates=] and [--admission-plugins=] as
    examples of them; which flags they are is left open here. *)
Class MultiValueFlags := {
  isMultiValueFlag : string -> bool
}.

(** The comma lists of [UpsertCommandFlagValue] below. The pieces of a
    string between the separators, as Go's [strings.Split] gives them: *)
Fixpoint split (sep : ascii) (s : string) : list string :=
  match s with
  | EmptyString => [EmptyString]
  | String c rest =>
      if decide (c = sep) then EmptyString :: split sep rest
      else match split sep rest with
           | piece :: pieces => String c piece :: pieces
           | [] => [String c EmptyString]
           end
  end.

(** The tokens of a comma-joined list; the empty list has none. *)
Definition tokens (values : string) : list string :=
  if decide (values = EmptyString) then [] else split "," values.

(** The string without the prefix, if it starts with it (Go's
    [strings.TrimPrefix]). *)
Definition TrimPrefix (s prefix : string) : string :=
  if String.prefix prefix s
  then String.substring (String.length prefix) (String.length s - String.length prefix) s
  else s.

(** The tokens that are not yet in the list are put behind it, one after
    the other; a token is there already when the list holds the same
    token. *)
Definition mergeTokens (existing new : list string) : list string :=
  foldl (fun (merged : list string) (token : string) =>
           if decide (token ∈ merged) then merged else (merged ++ [token])%list)
    existing new.

(** Modelled from the spec: UpsertCommandFlagValue (4.2), a string-prefix
    match on the [--flag=] arguments. The element written for a flag
    with a single value is the prefix followed by the value. For a
    comma-joined multi-value flag that is present, the tokens of the
    value are merged into its comma list, without duplication and
    without reordering the tokens it has. *)
Definition UpsertCommandFlagValue `{!MultiValueFlags}
    (items : list string) (prefix value : string) : list string :=
  match firstMatching hasPrefix items prefix with
  | Some item =>
      if isMultiValueFlag prefix then
        upsert hasPrefix items prefix
          (prefix +:+ String.concat ","
                        (mergeTokens (tokens (TrimPrefix item prefix)) (tokens value)))
      else upsert hasPrefix items prefix (prefix +:+ value)
  | None => upsert hasPrefix items prefix (prefix +:+ value)
  end.

End extensionswebhook.

(** ** SHA-256 (FIPS 180-4), on 32-bit words held in [Z] *)

Module sha256.
Local Open Scope Z_scope.

Definition wrap32 (x : Z) : Z := x mod 2 ^ 32.

Definition add32 (x y : Z) : Z := wrap32 (x + y).

Definition rotr (n x : Z) : Z :=
  Z.lor (Z.shiftr x n) (wrap32 (Z.shiftl x (32 - n))).

Definition Ch (x y z : Z) : Z :=
  Z.lxor (Z.land x y) (Z.land (wrap32 (Z.lnot x)) z).

Definition Maj (x y z : Z) : Z :=
  Z.lxor (Z.lxor (Z.land x y) (Z.land x z)) (Z.land y z).

Definition bigSigma0 (x : Z) : Z :=
  Z.lxor (Z.lxor (rotr 2 x) (rotr 13 x)) (rotr 22 x).

Definition bigSigma1 (x : Z) : Z :=
  Z.lxor (Z.lxor (rotr 6 x) (rotr 11 x)) (rotr 25 x).

Definition smallSigma0 (x : Z) : Z :=
  Z.lxor (Z.lxor (rotr 7 x) (rotr 18 x)) (Z.shiftr x 3).

Definition smallSigma1 (x : Z) : Z :=
  Z.lxor (Z.lxor (rotr 17 x) (rotr 19 x)) (Z.shiftr x 10).

Definition isPrime (n : Z) : bool :=
  forallb (fun d => negb (n mod d =? 0)) (Z.of_nat <$> seq 2 (Z.to_nat n - 2)).

Definition primes (count : nat) : list Z :=
  take count (List.filter isPrime (Z.of_nat <$> seq 2 310)).

(** The largest [r] below [2 ^ bits] with [r ^ k <= n], bit by bit. *)
Fixpoint integerRoot (k : Z) (bits : nat) (n r : Z) : Z :=
  match bits with
  | O => r
  | S bits' =>
      let candidate := r + 2 ^ Z.of_nat bits' in
      integerRoot k bits' n (if candidate ^ k <=? n then candidate else r)
  end.

(** The first 32 bits of the fractional part of the [k]-th root of [p]. *)
Definition fractionalRoot (k p : Z) : Z :=
  wrap32 (integerRoot k 40 (p * 2 ^ (32 * k)) 0).

(** The round constants come from the cube roots of the first 64
    primes, the initial hash value from the square roots of the first 8. *)
Definition K : list Z := fractionalRoot 3 <$> primes 64.

Definition H0 : list Z := fractionalRoot 2 <$> primes 8.

(** Big-endian bytes of [x], [n] of them. *)
Fixpoint bigEndian (n : nat) (x : Z) : list Z :=
  match n with
  | O => []
  | S n' => Z.shiftr x (8 * Z.of_nat n') mod 256 :: bigEndian n' x
  end.

(** The message followed by the bit 1, zeros up to 56 modulo 64 bytes,
    and the length in bits on 64 bits. *)
Definition pad (msg : list Z) : list Z :=
  let len := Z.of_nat (length msg) in
  msg ++ [0x80] ++ repeat 0 (Z.to_nat ((55 - len) mod 64)) ++ bigEndian 8 (8 * len).

Fixpoint chunks (fuel : nat) (size : nat) (l : list Z) : list (list Z) :=
  match fuel with
  | O => []
  | S fuel' =>
      match l with
      | [] => []
      | _ => take size l :: chunks fuel' size (drop size l)
      end
  end.

Definition word (bs : list Z) : Z :=
  fold_left (fun acc b => acc * 256 + b) bs 0.

Definition words (block : list Z) : list Z :=
  word <$> chunks 16 4 block.

(** Message schedule, most recent word first. *)
Fixpoint schedule (n : nat) (w : list Z) : list Z :=
  match n with
  | O => w
  | S n' =>
      let new :=
        add32 (add32 (smallSigma1 (nth 1 w 0)) (nth 6 w 0))
              (add32 (smallSigma0 (nth 14 w 0)) (nth 15 w 0)) in
      schedule n' (new :: w)
  end.

Definition round (s : list Z) (kw : Z * Z) : list Z :=
  match s with
  | [a; b; c; d; e; f; g; h] =>
      let t1 := add32 (add32 (add32 h (bigSigma1 e)) (add32 (Ch e f g) kw.1)) kw.2 in
      let t2 := add32 (bigSigma0 a) (Maj a b c) in
      [add32 t1 t2; a; b; c; add32 d t1; e; f; g]
  | _ => s
  end.

Definition compress (h : list Z) (block : list Z) : list Z :=
  let w := rev (schedule 48 (rev (words block))) in
  zip_with add32 h (fold_left round (zip K w) h).

Definition digest (msg : list Z) : list Z :=
  let padded := pad msg in
  fold_left compress (chunks (length padded) 64 padded) H0.

Definition hexDigit (d : Z) : ascii :=
  nth (Z.to_nat d) (list_ascii_of_string "0123456789abcdef") "0"%char.

Definition hexByte (b : Z) : list ascii :=
  [hexDigit (b / 16); hexDigit (b mod 16)].

Definition hexWord (w : Z) : list ascii :=
  mbind hexByte (bigEndian 4 w).

Definition bytesOfString (s : string) : list Z :=
  (fun b => Z.of_N (Byte.to_N b)) <$> list_byte_of_string s.

(** [hex.EncodeToString(sha256.Sum256(in))] *)
Definition ComputeSHA256Hex (s : string) : string :=
  string_of_list_ascii (mbind hexWord (digest (bytesOfString s))).

End sha256.

(** ** Go's encoding/json on a [map[string][]byte] *)

Module json.
Local Open Scope Z_scope.

Definition base64Alphabet : list ascii :=
  list_ascii_of_string
    "ABCDEFGHIJKLMNOPQRSTUVWXYZabcdefghijklmnopqrstuvwxyz0123456789+/".

Definition base64Char (i : Z) : ascii :=
  nth (Z.to_nat i) base64Alphabet "A"%char.

(** Standard base64 with padding, three bytes at a time. *)
Fixpoint base64 (bs : list Z) {struct bs} : list ascii :=
  match bs with
  | [] => []
  | [a] =>
      [base64Char (a / 4); base64Char (a mod 4 * 16); "="%char; "="%char]
  | [a; b] =>
      [base64Char (a / 4); base64Char (a mod 4 * 16 + b / 16);
       base64Char (b mod 16 * 4); "="%char]
  | a :: b :: c :: rest =>
      base64Char (a / 4) :: base64Char (a mod 4 * 16 + b / 16) ::
      base64Char (b mod 16 * 4 + c / 64) :: base64Char (c mod 64) :: base64 rest
  end.

Definition encodeBytes (bs : list byte) : string :=
  string_of_list_ascii (base64 ((fun b => Z.of_N (Byte.to_N b)) <$> bs)).

Definition doubleQuote : ascii := "034"%char.

Definition backslash : ascii := "092"%char.

(** A string between double quotes, with the quote and the backslash
    escaped. (The keys of a Secret or ConfigMap are made of letters,
    digits, '-', '_' and '.', so no other escape of the encoder arises.) *)
Fixpoint escape (s : string) : string :=
  match s with
  | EmptyString => EmptyString
  | String c rest =>
      if decide (c = doubleQuote) then String backslash (String c (escape rest))
      else if decide (c = backslash) then String backslash (String c (escape rest))
      else String c (escape rest)
  end.

Definition quote (s : string) : string :=
  String doubleQuote (escape s) +:+ String doubleQuote EmptyString.

(** The encoder writes the keys of a map in increasing order. *)
Fixpoint insertSorted {V : Type} (kv : string * V) (l : list (string * V)) : list (string * V) :=
  match l with
  | [] => [kv]
  | kv' :: rest =>
      if String.leb kv.1 kv'.1 then kv :: l else kv' :: insertSorted kv rest
  end.

Definition sortByKey {V : Type} (l : list (string * V)) : list (string * V) :=
  foldr insertSorted [] l.

Fixpoint join (sep : string) (l : list string) : string :=
  match l with
  | [] => EmptyString
  | [s] => s
  | s :: rest => s +:+ sep +:+ join sep rest
  end.

(** [json.Marshal(data)] for [data : map[string][]byte]: [null] for the
    nil map, else an object whose values are base64 strings. (A nil
    byte slice inside the map, which the encoder writes as [null], is
    not told apart from the empty one.) *)
Definition Marshal (data : option (gmap string (list byte))) : string :=
  match data with
  | None => "null"
  | Some m =>
      "{" +:+
      join "," ((fun kv => quote kv.1 +:+ ":" +:+ quote (encodeBytes kv.2))
                  <$> sortByKey (map_to_list m)) +:+
      "}"
  end%string.

End json.

(** ** Package [webhook/controlplane]: checksum annotations *)

Module controlplane.

Definition BackupRestoreContainerName : string := "backup-restore".

(** Modelled from the spec: [ComputeChecksum] is not among the sources.
    The specification (3, 4.3) gives it as the SHA-256 hex digest of the
    referenced object's data payload; the payload is taken in its JSON
    encoding, which is what yields the digest the tests expect. *)
Definition ComputeChecksum (data : option (gmap string (list byte))) : string :=
  sha256.ComputeSHA256Hex (json.Marshal data).

(** [metav1.SetMetaDataAnnotation]: the map is created if absent. *)
Definition SetMetaDataAnnotation (template : PodTemplateSpec) (key value : string) : PodTemplateSpec :=
  {| Annotations := Some (<[key := value]> (default ∅ (Annotations template)));
     Spec := Spec template |}.

(** Modelled from the spec: [EnsureSecretChecksumAnnotation] is called by
    the ensurers but is not among the sources. The specification (4.3):
    fetch the referenced Secret (a failure aborts the mutation), hash its
    data, write [checksum/secret-<name>] into the pod template's
    annotations, creating the map if absent. *)
Definition EnsureSecretChecksumAnnotation
    (template : PodTemplateSpec) (c : Client) (namespace name : string) : result PodTemplateSpec :=
  secret ← Wrapf ("could not get secret '" +:+ namespace +:+ "/" +:+ name +:+ "'") (c namespace name);
  Ok (SetMetaDataAnnotation template ("checksum/secret-" +:+ name) (ComputeChecksum (secData secret))).

End controlplane.

(** ** The cluster bundle of package [controller] *)

(** Legacy [garden/v1beta1] resources, as far as the code reads them.
    The OpenStack parts of the profile and of the shoot are dereferenced
    by the code without a nil check and are fields here. *)
Record OpenStackLoadBalancerClass := {
  oslbName : string;
  oslbFloatingSubnetID : option string;
  oslbFloatingNetworkID : option string;
  oslbSubnetID : option string
}.

Record OpenStackFloatingPool := {
  ofpName : string;
  ofpLoadBalancerClasses : list OpenStackLoadBalancerClass
}.

Record gardenv1beta1_CloudProfile := {
  gcpKeyStoneURL : string;        (* Spec.OpenStack.KeyStoneURL *)
  gcpDHCPDomain : option string;  (* Spec.OpenStack.DHCPDomain *)
  gcpRequestTimeout : option string;
  gcpFloatingPools : list OpenStackFloatingPool  (* Spec.OpenStack.Constraints.FloatingPools *)
}.

Record SeedBackup := {
  sbProvider : string
}.

Record gardenv1beta1_Seed := {
  gseedBackup : option SeedBackup   (* Spec.Backup *)
}.

Record gardenv1beta1_Shoot := {
  gsKubernetesVersion : string;   (* Spec.Kubernetes.Version *)
  gsFloatingPoolName : string;    (* Spec.Cloud.OpenStack.FloatingPoolName *)
  gsTechnicalID : string;         (* Status.TechnicalID *)
  gsUID : string                  (* Status.UID *)
}.

(** [core/v1alpha1] resources. *)
Record gardencorev1alpha1_CloudProfile := {
  ccpProviderConfig : option string   (* Spec.ProviderConfig.Raw *)
}.

Record gardencorev1alpha1_Seed := {
  cseedBackup : option SeedBackup   (* Spec.Backup *)
}.

Record gardencorev1alpha1_Shoot := {
  csKubernetesVersion : string;   (* Spec.Kubernetes.Version *)
  csTechnicalID : string;         (* Status.TechnicalID *)
  csUID : string                  (* Status.UID *)
}.

Record Cluster := {
  CloudProfile : option gardenv1beta1_CloudProfile;
  CoreCloudProfile : option gardencorev1alpha1_CloudProfile;
  Seed : option gardenv1beta1_Seed;
  CoreSeed : option gardencorev1alpha1_Seed;
  Shoot : option gardenv1beta1_Shoot;
  CoreShoot : option gardencorev1alpha1_Shoot
}.

(** The accessors of package [controller] that the sources call and do
    not contain. *)
Class ClusterAccessors := {
  IsSeedBackupNil : Cluster -> bool;
  GetKubernetesVersion : Cluster -> string;
  GetTechnicalID : Cluster -> string;
  GetUID : Cluster -> string
}.

(** ** Package [webhook/controlplane/genericmutator] *)

Module genericmutator.

Record UnitOption := {
  uoSection : string;
  uoName : string;
  uoValue : string
}.

Record Unit := {
  unitName : string;
  unitContent : option string
}.

Record FileContentInline := {
  fciEncoding : string;
  fciData : string
}.

Record File := {
  filePath : string;
  filePermissions : option Z;
  fileInline : option FileContentInline   (* Content.Inline *)
}.

Record OperatingSystemConfig := {
  oscName : string;
  oscNamespace : string;
  oscUnits : list Unit;
  oscFiles : list File
}.

Record KubeletConfiguration := {
  FeatureGates : gmap string bool
}.

(** The objects an admission request carries. *)
Inductive Object : Type :=
| ObjService (svc : Service)
| ObjDeployment (dep : Deployment)
| ObjStatefulSet (ss : StatefulSet)
| ObjOperatingSystemConfig (osc : OperatingSystemConfig)
| ObjOther (kind name : string).

(** The interface provider backends implement, one hook per object. *)
Record Ensurer := {
  EnsureKubeAPIServerService : Service -> result Service;
  EnsureKubeAPIServerDeployment : Deployment -> result Deployment;
  EnsureKubeControllerManagerDeployment : Deployment -> result Deployment;
  EnsureKubeSchedulerDeployment : Deployment -> result Deployment;
  EnsureETCDStatefulSet : StatefulSet -> Cluster -> result StatefulSet;
  EnsureKubeletServiceUnitOptions : list UnitOption -> result (list UnitOption);
  EnsureKubeletConfiguration : KubeletConfiguration -> result KubeletConfiguration;
  EnsureKubernetesGeneralConfiguration : string -> result string;
  ShouldProvisionKubeletCloudProviderConfig : bool;
  EnsureKubeletCloudProviderConfig : string -> string -> result string;
  EnsureAdditionalUnits : list Unit -> result (list Unit);
  EnsureAdditionalFiles : list File -> result (list File)
}.

(** The no-op default that satisfies unhandled hooks. *)
Definition NoopEnsurer : Ensurer := {|
  EnsureKubeAPIServerService := Ok;
  EnsureKubeAPIServerDeployment := Ok;
  EnsureKubeControllerManagerDeployment := Ok;
  EnsureKubeSchedulerDeployment := Ok;
  EnsureETCDStatefulSet := fun ss _ => Ok ss;
  EnsureKubeletServiceUnitOptions := Ok;
  EnsureKubeletConfiguration := Ok;
  EnsureKubernetesGeneralConfiguration := Ok;
  ShouldProvisionKubeletCloudProviderConfig := false;
  EnsureKubeletCloudProviderConfig := fun data _ => Ok data;
  EnsureAdditionalUnits := Ok;
  EnsureAdditionalFiles := Ok
|}.

Record UnitSerializer := {
  Deserialize : string -> result (list UnitOption);
  Serialize : list UnitOption -> result string
}.

Record KubeletConfigCodec := {
  kccDecode : FileContentInline -> result KubeletConfiguration;
  kccEncode : KubeletConfiguration -> string -> result FileContentInline
}.

Record FileContentInlineCodec := {
  fcicDecode : FileContentInline -> result string;
  fcicEncode : string -> string -> result FileContentInline
}.

(** Names the dispatcher routes on; the values are those the
    specification gives for the singleton components. *)
Definition DeploymentNameKubeAPIServer : string := "kube-apiserver".
Definition DeploymentNameKubeControllerManager : string := "kube-controller-manager".
Definition DeploymentNameKubeScheduler : string := "kube-scheduler".
Definition StatefulSetNameETCDMain : string := "etcd-main".
Definition StatefulSetNameETCDEvents : string := "etcd-events".

(** Names of the unit and of the files the operating-system chain
    patches; their values are not in the sources. *)
Class OSCNames := {
  OperatingSystemConfigUnitNameKubeletService : string;
  OperatingSystemConfigFilePathKubeletConfig : string;
  OperatingSystemConfigFilePathKernelSettings : string;
  cloudProviderConfigPath : string
}.

Record mutator := {
  ensurer : Ensurer;
  unitSerializer : UnitSerializer;
  kubeletConfigCodec : KubeletConfigCodec;
  fciCodec : FileContentInlineCodec;
  (** the injected client, seen through the Cluster lookup by namespace *)
  getCluster : string -> result Cluster
}.

(** Patch the first element with the key, if there is one. *)
Definition patchFirst {A : Type} (name : A -> string) (n : string)
    (f : A -> result A) (items : list A) : result (list A) :=
  match extensionswebhook.indexMatching (extensionswebhook.hasName name) items n with
  | None => Ok items
  | Some i =>
      match items !! i with
      | None => Ok items
      | Some x => x' ← f x; Ok (<[i:=x']> items)
      end
  end.

Definition ensureKubeletServiceUnitContent (m : mutator) (u : Unit) : result Unit :=
  match unitContent u with
  | None => Ok u
  | Some content =>
      opts ← Deserialize (unitSerializer m) content;
      opts' ← EnsureKubeletServiceUnitOptions (ensurer m) opts;
      content' ← Serialize (unitSerializer m) opts';
      Ok {| unitName := unitName u; unitContent := Some content' |}
  end.

Definition ensureKubeletConfigFileContent (m : mutator) (f : File) : result File :=
  match fileInline f with
  | None => Ok f
  | Some fci =>
      cfg ← kccDecode (kubeletConfigCodec m) fci;
      cfg' ← EnsureKubeletConfiguration (ensurer m) cfg;
      fci' ← kccEncode (kubeletConfigCodec m) cfg' (fciEncoding fci);
      Ok {| filePath := filePath f; filePermissions := filePermissions f;
            fileInline := Some fci' |}
  end.

Definition ensureKubernetesGeneralConfiguration (m : mutator) (f : File) : result File :=
  match fileInline f with
  | None => Ok f
  | Some fci =>
      data ← fcicDecode (fciCodec m) fci;
      data' ← EnsureKubernetesGeneralConfiguration (ensurer m) data;
      fci' ← fcicEncode (fciCodec m) data' (fciEncoding fci);
      Ok {| filePath := filePath f; filePermissions := filePermissions f;
            fileInline := Some fci' |}
  end.

Definition ensureKubeletCloudProviderConfig `{!OSCNames} (m : mutator)
    (namespace : string) (files : list File) : result (list File) :=
  if ShouldProvisionKubeletCloudProviderConfig (ensurer m) then
    data ← EnsureKubeletCloudProviderConfig (ensurer m) EmptyString namespace;
    fci ← fcicEncode (fciCodec m) data "b64";
    Ok (extensionswebhook.upsert (extensionswebhook.hasName filePath) files
          cloudProviderConfigPath
          {| filePath := cloudProviderConfigPath; filePermissions := Some 420%Z;
             fileInline := Some fci |})
  else Ok files.

(** Modelled from the spec: the operating-system branch of [Mutate],
    whose source is not present. The specification (4.1) gives it as a
    fixed ordered chain of hooks (kubelet service unit options, kubelet
    configuration, general kernel configuration, cloud-provider config
    file when the provider asks for it, additional units, additional
    files); a failure in any hook aborts the chain with that error. *)
Definition mutateOperatingSystemConfig `{!OSCNames} (m : mutator)
    (osc : OperatingSystemConfig) : result OperatingSystemConfig :=
  units1 ← patchFirst unitName OperatingSystemConfigUnitNameKubeletService
             (ensureKubeletServiceUnitContent m) (oscUnits osc);
  files1 ← patchFirst filePath OperatingSystemConfigFilePathKubeletConfig
             (ensureKubeletConfigFileContent m) (oscFiles osc);
  files2 ← patchFirst filePath OperatingSystemConfigFilePathKernelSettings
             (ensureKubernetesGeneralConfiguration m) files1;
  files3 ← ensureKubeletCloudProviderConfig m (oscNamespace osc) files2;
  units2 ← EnsureAdditionalUnits (ensurer m) units1;
  files4 ← EnsureAdditionalFiles (ensurer m) files3;
  Ok {| oscName := oscName osc; oscNamespace := oscNamespace osc;
        oscUnits := units2; oscFiles := files4 |}.

(** Modelled from the spec: [Mutate] of the generic mutator, of which
    only the tests are among the sources. The specification (4.1): the
    routing key is (kind, name) for the singleton components; for a
    StatefulSet the owning Cluster is loaded by namespace before the
    ensurer is invoked, and a failed lookup aborts the mutation; any
    other kind or name passes through unmodified with no error. *)
Definition Mutate `{!OSCNames} (m : mutator) (obj : Object) : result Object :=
  match obj with
  | ObjService svc =>
      if decide (svcName svc = DeploymentNameKubeAPIServer)
      then ObjService <$> EnsureKubeAPIServerService (ensurer m) svc
      else Ok obj
  | ObjDeployment dep =>
      if decide (depName dep = DeploymentNameKubeAPIServer)
      then ObjDeployment <$> EnsureKubeAPIServerDeployment (ensurer m) dep
      else if decide (depName dep = DeploymentNameKubeControllerManager)
      then ObjDeployment <$> EnsureKubeControllerManagerDeployment (ensurer m) dep
      else if decide (depName dep = DeploymentNameKubeScheduler)
      then ObjDeployment <$> EnsureKubeSchedulerDeployment (ensurer m) dep
      else Ok obj
  | ObjStatefulSet ss =>
      if decide (ssName ss = StatefulSetNameETCDMain ∨ ssName ss = StatefulSetNameETCDEvents)
      then
        cluster ← getCluster m (ssNamespace ss);
        ObjStatefulSet <$> EnsureETCDStatefulSet (ensurer m) ss cluster
      else Ok obj
  | ObjOperatingSystemConfig osc =>
      ObjOperatingSystemConfig <$> mutateOperatingSystemConfig m osc
  | ObjOther _ _ => Ok obj
  end.

(** Kind and name of an object, the dispatcher's routing key. *)
Definition kindOf (obj : Object) : string :=
  match obj with
  | ObjService _ => "Service"
  | ObjDeployment _ => "Deployment"
  | ObjStatefulSet _ => "StatefulSet"
  | ObjOperatingSystemConfig _ => "OperatingSystemConfig"
  | ObjOther kind _ => kind
  end.

Definition nameOf (obj : Object) : string :=
  match obj with
  | ObjService svc => svcName svc
  | ObjDeployment dep => depName dep
  | ObjStatefulSet ss => ssName ss
  | ObjOperatingSystemConfig osc => oscName osc
  | ObjOther _ name => name
  end.

(** The routing table of the specification: the (kind, name) pairs that
    have a hook, and the kind that is handled whatever the name. *)
Definition routes : list (string * string) :=
  [ ("Service", "kube-apiserver");
    ("Deployment", "kube-apiserver");
    ("Deployment", "kube-controller-manager");
    ("Deployment", "kube-scheduler");
    ("StatefulSet", "etcd-main");
    ("StatefulSet", "etcd-events") ].

Definition recognized (kind name : string) : bool :=
  bool_decide (kind = "OperatingSystemConfig") || bool_decide ((kind, name) ∈ routes).

End genericmutator.

(** ** The AWS control-plane backup ensurer
    ([controllers/provider-aws/pkg/webhook/controlplanebackup/ensurer.go]) *)

Module controlplanebackup.
Import extensionswebhook controlplane.

Record ETCDBackup := {
  Schedule : option string
}.

(** The image vector, seen through the one use the ensurer makes of it:
    [FindImage(name, TargetVersion(version))] followed by [String()]. *)
Definition ImageVector := string -> string -> result string.

(** Constants of package [aws]; their values are not in the sources. *)
Class AwsNames := {
  ETCDBackupRestoreImageName : string;
  StorageProviderName : string;
  BackupSecretName : string;
  BucketName : string;
  Region : string;
  AccessKeyID : string;
  SecretAccessKey : string
}.

(** What the ensurer calls in package [webhook/controlplane] and does
    not find among the sources: the volume-claim-template constant, the
    default-schedule computation and the constructor of the sidecar. *)
Class BackupHelpers := {
  EtcdMainVolumeClaimTemplateName : string;
  DetermineBackupSchedule : option Container -> Cluster -> result string;
  GetBackupRestoreContainer :
    string (* name *) -> string (* volumeClaimTemplateName *) ->
    string (* schedule *) -> string (* provider *) -> string (* prefix *) ->
    string (* image *) -> option (gmap string string) (* args *) ->
    list EnvVar -> list VolumeMount -> Container
}.

(** [common.GenerateBackupEntryName] of gardener: the technical ID and
    the UID joined by two dashes (the tests expect
    [shoot--test--sample--test-uid] for [shoot--test--sample] and
    [test-uid]). *)
Definition GenerateBackupEntryName (technicalID uid : string) : string :=
  technicalID +:+ "--" +:+ uid.

Definition StatefulSetNameETCDMain : string := genericmutator.StatefulSetNameETCDMain.

(** The ensurer, once its client has been injected. The constructor of
    the code leaves the client nil and a call on a nil client panics;
    that state has no counterpart here, where every ensurer has a
    client. *)
Record ensurer := {
  etcdBackup : option ETCDBackup;
  imageVector : ImageVector;
  client : Client
}.

(** [InjectClient] injects the given client into the ensurer. *)
Definition InjectClient (e : ensurer) (c : Client) : ensurer :=
  {| etcdBackup := etcdBackup e; imageVector := imageVector e; client := c |}.

Section Ensurer.
Context `{!ClusterAccessors, !AwsNames, !BackupHelpers}.

(** The environment of the sidecar when backup is enabled (lines 107-146). *)
Definition backupEnv : list EnvVar :=
  [ {| evName := "STORAGE_CONTAINER"; evValue := EmptyString;
       (* The bucket name is written to the backup secret by Gardener. *)
       evValueFrom :=
         Some {| SecretKeyRef :=
                   Some {| sksName := BackupSecretName; sksKey := BucketName |} |} |};
    {| evName := "AWS_REGION"; evValue := EmptyString;
       evValueFrom :=
         Some {| SecretKeyRef :=
                   Some {| sksName := BackupSecretName; sksKey := Region |} |} |};
    {| evName := "AWS_ACCESS_KEY_ID"; evValue := EmptyString;
       evValueFrom :=
         Some {| SecretKeyRef :=
                   Some {| sksName := BackupSecretName; sksKey := AccessKeyID |} |} |};
    {| evName := "AWS_SECRET_ACCESS_KEY"; evValue := EmptyString;
       evValueFrom :=
         Some {| SecretKeyRef :=
                   Some {| sksName := BackupSecretName; sksKey := SecretAccessKey |} |} |} ].

Definition ensureBackupRestoreContainer (e : ensurer)
    (existingContainer : option Container) (name : string) (cluster : Cluster) : result Container :=
  (* Find etcd-backup-restore image *)
  image ← Wrapf ("could not find image " +:+ ETCDBackupRestoreImageName)
            (imageVector e ETCDBackupRestoreImageName (GetKubernetesVersion cluster));
  (* Determine provider and container env variables *)
  let '(provider, prefix, env, volumeClaimTemplateName) :=
    if decide (name = StatefulSetNameETCDMain) then
      let '(provider, prefix, env) :=
        if IsSeedBackupNil cluster then (EmptyString, EmptyString, [])
        else (StorageProviderName,
              GenerateBackupEntryName (GetTechnicalID cluster) (GetUID cluster),
              backupEnv) in
      (provider, prefix, env, EtcdMainVolumeClaimTemplateName)
    else (EmptyString, EmptyString, [], name) in
  schedule ←
    match etcdBackup e with
    | Some {| Schedule := Some schedule |} => Ok schedule
    | _ => DetermineBackupSchedule existingContainer cluster
    end;
  Ok (GetBackupRestoreContainer name volumeClaimTemplateName schedule provider prefix
        image None env []).

Definition ensureContainers (e : ensurer) (ps : PodSpec) (name : string)
    (cluster : Cluster) : result PodSpec :=
  let backupRestoreContainer := ContainerWithName (Containers ps) BackupRestoreContainerName in
  c ← ensureBackupRestoreContainer e backupRestoreContainer name cluster;
  Ok {| Containers := EnsureContainerWithName (Containers ps) c; Volumes := Volumes ps |}.

Definition ensureChecksumAnnotations (e : ensurer) (template : PodTemplateSpec)
    (namespace name : string) (backupConfigured : bool) : result PodTemplateSpec :=
  if bool_decide (name = StatefulSetNameETCDMain) && backupConfigured
  then EnsureSecretChecksumAnnotation template (client e) namespace BackupSecretName
  else Ok template.

Definition EnsureETCDStatefulSet (e : ensurer) (ss : StatefulSet) (cluster : Cluster) : result StatefulSet :=
  ps ← ensureContainers e (Spec (ssTemplate ss)) (ssName ss) cluster;
  let template := {| Annotations := Annotations (ssTemplate ss); Spec := ps |} in
  template' ← ensureChecksumAnnotations e template (ssNamespace ss) (ssName ss)
                (negb (IsSeedBackupNil cluster));
  Ok {| ssName := ssName ss; ssNamespace := ssNamespace ss; ssTemplate := template' |}.

(** The ensurer as an implementation of the generic interface: the
    embedded no-op ensurer answers every other hook. *)
Definition asEnsurer (e : ensurer) : genericmutator.Ensurer := {|
  genericmutator.EnsureKubeAPIServerService := Ok;
  genericmutator.EnsureKubeAPIServerDeployment := Ok;
  genericmutator.EnsureKubeControllerManagerDeployment := Ok;
  genericmutator.EnsureKubeSchedulerDeployment := Ok;
  genericmutator.EnsureETCDStatefulSet := EnsureETCDStatefulSet e;
  genericmutator.EnsureKubeletServiceUnitOptions := Ok;
  genericmutator.EnsureKubeletConfiguration := Ok;
  genericmutator.EnsureKubernetesGeneralConfiguration := Ok;
  genericmutator.ShouldProvisionKubeletCloudProviderConfig := false;
  genericmutator.EnsureKubeletCloudProviderConfig := fun data _ => Ok data;
  genericmutator.EnsureAdditionalUnits := Ok;
  genericmutator.EnsureAdditionalFiles := Ok
|}.

(** Notions used to state the properties of the ensurer. The schedule
    that lines 151-159 of [ensureBackupRestoreContainer] choose: *)
Definition chosenSchedule (e : ensurer) (existingContainer : option Container)
    (cluster : Cluster) : result string :=
  match etcdBackup e with
  | Some {| Schedule := Some schedule |} => Ok schedule
  | _ => DetermineBackupSchedule existingContainer cluster
  end.

(** Two laws of the helpers that are not among the sources. The sidecar
    is built under the name the ensurer looks it up by (the tests find
    the result of [GetBackupRestoreContainer] under [backup-restore]). *)
Definition sidecarIsNamed : Prop :=
  forall name volumeClaimTemplateName schedule provider prefix image args env volumeMounts,
    cName (GetBackupRestoreContainer name volumeClaimTemplateName schedule provider prefix
             image args env volumeMounts)
    = BackupRestoreContainerName.

(** The default-schedule computation keeps the schedule of a sidecar
    that is already in place. *)
Definition scheduleIsReadBack : Prop :=
  forall name volumeClaimTemplateName schedule provider prefix image args env volumeMounts cluster,
    DetermineBackupSchedule
      (Some (GetBackupRestoreContainer name volumeClaimTemplateName schedule provider prefix
               image args env volumeMounts)) cluster
    = Ok schedule.

End Ensurer.

End controlplanebackup.

(** ** The OpenStack values provider (package [controlplane] of
    provider-openstack) *)

Module openstack.

Record LoadBalancerClass := {
  Name : string;
  FloatingSubnetID : option string;
  FloatingNetworkID : option string;
  SubnetID : option string
}.

Record FloatingPool := {
  fpName : string;
  fpLoadBalancerClasses : option (list LoadBalancerClass)
}.

Record CloudProfileConfig := {
  KeyStoneURL : string;
  DHCPDomain : option string;
  RequestTimeout : option string;
  FloatingPools : list FloatingPool    (* Constraints.FloatingPools *)
}.

Record ControlPlaneConfig := {
  LoadBalancerProvider : string;
  LoadBalancerClasses : option (list LoadBalancerClass);
  Zone : string
}.

Record Subnet := {
  subnetPurpose : string;
  subnetID : string
}.

Record InfrastructureStatus := {
  FloatingPoolID : string;     (* Networks.FloatingPool.ID *)
  FloatingPoolName : string;   (* Networks.FloatingPool.Name *)
  Subnets : list Subnet        (* Networks.Subnets *)
}.

Record Credentials := {
  DomainName : string;
  TenantName : string;
  Username : string;
  Password : string
}.

Record ControlPlane := {
  cpNamespace : string;
  cpName : string
}.

(** What a chart value can hold here: a string, a string pointer, or the
    list of floating-class maps (whose own values are all strings). *)
Inductive Value : Type :=
| VString (s : string)
| VStringPtr (p : option string)
| VFloatingClasses (classes : list (gmap string string)).

Definition DefaultLoadBalancerClass : string := "default".
Definition PrivateLoadBalancerClass : string := "private".
Definition PurposeNodes : string := "nodes".

(** Modelled from the spec: [utils.IsEmptyString] is not among the
    sources; a string pointer is empty when it is nil or points to the
    empty string. *)
Definition IsEmptyString (s : option string) : bool :=
  match s with
  | None => true
  | Some v => bool_decide (v = EmptyString)
  end.

(** Modelled from the spec: [utils.SetStringValue] is not among the
    sources; the key is written only when the value is not empty, so
    that an absent optional field leaves no key. [inj] is the conversion
    of the string to the map's value type. *)
Definition SetStringValue {V : Type} (inj : string -> V)
    (values : gmap string V) (key : string) (value : option string) : gmap string V :=
  match value with
  | Some v => if IsEmptyString value then values else <[key := inj v]> values
  | None => values
  end.

Definition ObjectName (cp : ControlPlane) : string :=
  cpNamespace cp +:+ "/" +:+ cpName cp.

(** Modelled from the spec: [helper.FindSubnetByPurpose] is not among
    the sources; the first subnet with the purpose, an error if none. *)
Fixpoint FindSubnetByPurpose (subnets : list Subnet) (purpose : string) : result Subnet :=
  match subnets with
  | [] => Err ("cannot find subnet with purpose " +:+ purpose)
  | subnet :: rest =>
      if decide (subnetPurpose subnet = purpose) then Ok subnet
      else FindSubnetByPurpose rest purpose
  end.

Definition gardenV1beta1OpenStackLoadBalancerClassToOpenStackV1alpha1LoadBalancerClass
    (loadBalancerClasses : list OpenStackLoadBalancerClass) : list LoadBalancerClass :=
  (fun loadBalancerClass =>
     {| Name := oslbName loadBalancerClass;
        FloatingSubnetID := oslbFloatingSubnetID loadBalancerClass;
        FloatingNetworkID := oslbFloatingNetworkID loadBalancerClass;
        SubnetID := oslbSubnetID loadBalancerClass |}) <$> loadBalancerClasses.

(** The two loops of lines 883-888 and 890-895: the classes of the first
    pool with the wanted name; the configuration is left as it is when
    no pool has it. *)
Fixpoint legacyPoolClasses (pools : list OpenStackFloatingPool) (name : string)
    (current : option (list LoadBalancerClass)) : option (list LoadBalancerClass) :=
  match pools with
  | [] => current
  | pool :: rest =>
      if decide (ofpName pool = name)
      then Some (gardenV1beta1OpenStackLoadBalancerClassToOpenStackV1alpha1LoadBalancerClass
                   (ofpLoadBalancerClasses pool))
      else legacyPoolClasses rest name current
  end.

Fixpoint poolClasses (pools : list FloatingPool) (name : string)
    (current : option (list LoadBalancerClass)) : option (list LoadBalancerClass) :=
  match pools with
  | [] => current
  | pool :: rest =>
      if decide (fpName pool = name) then fpLoadBalancerClasses pool
      else poolClasses rest name current
  end.

(** Lines 881-897: the classes of the configuration, or when it has
    none (a nil slice) those of the matching floating pool. *)
Definition effectiveLoadBalancerClasses (cpConfig : ControlPlaneConfig)
    (infraStatus : InfrastructureStatus) (cloudProfileConfig : option CloudProfileConfig)
    (cluster : Cluster) : option (list LoadBalancerClass) :=
  match LoadBalancerClasses cpConfig with
  | Some classes => Some classes
  | None =>
      match CloudProfile cluster, Shoot cluster with
      | Some profile, Some shoot =>
          legacyPoolClasses (gcpFloatingPools profile) (gsFloatingPoolName shoot) None
      | _, _ =>
          match CoreCloudProfile cluster, CoreShoot cluster, cloudProfileConfig with
          | Some _, Some _, Some config =>
              poolClasses (FloatingPools config) (FloatingPoolName infraStatus) None
          | _, _, _ => None
          end
      end
  end.

(** Lines 899-906: the loop over the classes that stops at the first one
    named [default]. *)
Fixpoint applyDefaultClass (classes : list LoadBalancerClass)
    (values : gmap string Value) : gmap string Value :=
  match classes with
  | [] => values
  | class :: rest =>
      if decide (Name class = DefaultLoadBalancerClass) then
        let values := SetStringValue VString values "floatingNetworkID" (FloatingNetworkID class) in
        let values := SetStringValue VString values "floatingSubnetID" (FloatingSubnetID class) in
        SetStringValue VString values "subnetID" (SubnetID class)
        (* break *)
      else applyDefaultClass rest values
  end.

(** Lines 907-912: the same for the first class named [private]. *)
Fixpoint applyPrivateClass (classes : list LoadBalancerClass)
    (values : gmap string Value) : gmap string Value :=
  match classes with
  | [] => values
  | class :: rest =>
      if decide (Name class = PrivateLoadBalancerClass) then
        SetStringValue VString values "subnetID" (SubnetID class)
        (* break *)
      else applyPrivateClass rest values
  end.

(** Lines 917-924: the map emitted for one class. *)
Definition floatingClassOf (infraStatus : InfrastructureStatus)
    (class : LoadBalancerClass) : gmap string string :=
  let floatingClass : gmap string string := {[ "name" := Name class ]} in
  let floatingClass :=
    if negb (IsEmptyString (FloatingSubnetID class)) && IsEmptyString (FloatingNetworkID class)
    then <["floatingNetworkID" := FloatingPoolID infraStatus]> floatingClass
    else SetStringValue id floatingClass "floatingNetworkID" (FloatingNetworkID class) in
  let floatingClass := SetStringValue id floatingClass "floatingSubnetID" (FloatingSubnetID class) in
  SetStringValue id floatingClass "subnetID" (SubnetID class).

(** Lines 851-864: the Keystone URL, the DHCP domain and the request
    timeout, from the legacy cloud profile if there is one, else from
    the configuration of the core cloud profile, else zero values. *)
Definition profileSettings (cloudProfileConfig : option CloudProfileConfig)
    (cluster : Cluster) : string * option string * option string :=
  match CloudProfile cluster with
  | Some profile =>
      (gcpKeyStoneURL profile, gcpDHCPDomain profile, gcpRequestTimeout profile)
  | None =>
      match CoreCloudProfile cluster, cloudProfileConfig with
      | Some _, Some config => (KeyStoneURL config, DHCPDomain config, RequestTimeout config)
      | _, _ => (EmptyString, None, None)
      end
  end.

Section ValuesProvider.
Context `{!ClusterAccessors}.

(** [getConfigChartValues] collects and returns the configuration chart
    values. *)
Definition getConfigChartValues (cpConfig : ControlPlaneConfig)
    (infraStatus : InfrastructureStatus) (cloudProfileConfig : option CloudProfileConfig)
    (cp : ControlPlane) (c : Credentials) (cluster : Cluster) : result (gmap string Value) :=
  (* Get the first subnet with purpose "nodes" *)
  subnet ← Wrapf ("could not determine subnet from infrastructureProviderStatus of controlplane '"
                  +:+ ObjectName cp +:+ "'")
             (FindSubnetByPurpose (Subnets infraStatus) PurposeNodes);
  let '(keyStoneURL, dhcpDomain, requestTimeout) :=
    profileSettings cloudProfileConfig cluster in
  (* Collect config chart values *)
  let values : gmap string Value :=
    list_to_map
      [ ("kubernetesVersion", VString (GetKubernetesVersion cluster));
        ("domainName", VString (DomainName c));
        ("tenantName", VString (TenantName c));
        ("username", VString (Username c));
        ("password", VString (Password c));
        ("lbProvider", VString (LoadBalancerProvider cpConfig));
        ("floatingNetworkID", VString (FloatingPoolID infraStatus));
        ("subnetID", VString (subnetID subnet));
        ("authUrl", VString keyStoneURL);
        ("dhcpDomain", VStringPtr dhcpDomain);
        ("requestTimeout", VStringPtr requestTimeout) ] in
  let classes :=
    default [] (effectiveLoadBalancerClasses cpConfig infraStatus cloudProfileConfig cluster) in
  let values := applyDefaultClass classes values in
  let values := applyPrivateClass classes values in
  let floatingClasses := floatingClassOf infraStatus <$> classes in
  let values :=
    match floatingClasses with
    | [] => values
    | _ => <["floatingClasses" := VFloatingClasses floatingClasses]> values
    end in
  Ok values.

End ValuesProvider.

End openstack.

(** ** Sample collaborators

    One implementation of each interface the sources leave open, used to
    run the code on concrete objects. *)

Module sample.
Import controlplanebackup.

Definition accessors : ClusterAccessors := {|
  IsSeedBackupNil cluster :=
    match Seed cluster, CoreSeed cluster with
    | Some seed, _ => bool_decide (gseedBackup seed = None)
    | None, Some seed => bool_decide (cseedBackup seed = None)
    | None, None => true
    end;
  GetKubernetesVersion cluster :=
    match Shoot cluster, CoreShoot cluster with
    | Some shoot, _ => gsKubernetesVersion shoot
    | None, Some shoot => csKubernetesVersion shoot
    | None, None => EmptyString
    end;
  GetTechnicalID cluster :=
    match Shoot cluster, CoreShoot cluster with
    | Some shoot, _ => gsTechnicalID shoot
    | None, Some shoot => csTechnicalID shoot
    | None, None => EmptyString
    end;
  GetUID cluster :=
    match Shoot cluster, CoreShoot cluster with
    | Some shoot, _ => gsUID shoot
    | None, Some shoot => csUID shoot
    | None, None => EmptyString
    end
|}.

Definition awsNames : AwsNames := {|
  ETCDBackupRestoreImageName := "etcd-backup-restore";
  StorageProviderName := "S3";
  BackupSecretName := "etcd-backup";
  BucketName := "bucketName";
  Region := "region";
  AccessKeyID := "accessKeyID";
  SecretAccessKey := "secretAccessKey"
|}.

Fixpoint trimPrefix (prefix s : string) : option string :=
  match prefix, s with
  | EmptyString, _ => Some s
  | String a prefix', String b s' =>
      if decide (a = b) then trimPrefix prefix' s' else None
  | String _ _, EmptyString => None
  end.

Fixpoint scheduleFlag (command : list string) : option string :=
  match command with
  | [] => None
  | arg :: rest =>
      match trimPrefix "--schedule=" arg with
      | Some schedule => Some schedule
      | None => scheduleFlag rest
      end
  end.

(** A sidecar that keeps its schedule in a [--schedule=] flag, and a
    schedule computation that reads it back from the existing container
    before falling back to a daily default. *)
Definition backupHelpers : BackupHelpers := {|
  EtcdMainVolumeClaimTemplateName := "main-etcd";
  DetermineBackupSchedule existing _ :=
    match existing ≫= (fun c => scheduleFlag (cCommand c)) with
    | Some schedule => Ok schedule
    | None => Ok "0 */24 * * *"
    end;
  GetBackupRestoreContainer name volumeClaimTemplateName schedule provider prefix image _ env volumeMounts :=
    {| cName := controlplane.BackupRestoreContainerName;
       cImage := image;
       cCommand :=
         [ "etcdbrctl"; "server";
           "--schedule=" +:+ schedule;
           "--storage-provider=" +:+ provider;
           "--store-prefix=" +:+ prefix +:+ "/" +:+ name ];
       cEnv := env;
       cVolumeMounts :=
         {| vmName := volumeClaimTemplateName; vmMountPath := "/var/etcd/data" |} :: volumeMounts |}
|}.

(** The two multi-value flags that the specification names. *)
Definition multiValueFlags : extensionswebhook.MultiValueFlags := {|
  extensionswebhook.isMultiValueFlag prefix :=
    bool_decide (prefix ∈ ["--feature-gates="; "--admission-plugins="])
|}.

Definition oscNames : genericmutator.OSCNames := {|
  genericmutator.OperatingSystemConfigUnitNameKubeletService := "kubelet.service";
  genericmutator.OperatingSystemConfigFilePathKubeletConfig := "/var/lib/kubelet/config/kubelet";
  genericmutator.OperatingSystemConfigFilePathKernelSettings := "/etc/sysctl.d/99-k8s-general.conf";
  genericmutator.cloudProviderConfigPath := "/var/lib/kubelet/cloudprovider.conf"
|}.

(** The objects of the backup ensurer's tests. *)
Definition etcdBackup : option ETCDBackup :=
  Some {| Schedule := Some "0 */24 * * *" |}.

Definition imageVector : ImageVector := fun name _ =>
  if decide (name = "etcd-backup-restore") then Ok "test-repository:test-tag"
  else Err ("no image " +:+ name).

Definition cluster (backup : option SeedBackup) : Cluster := {|
  CloudProfile := None;
  CoreCloudProfile := None;
  Seed := None;
  CoreSeed := Some {| cseedBackup := backup |};
  Shoot := None;
  CoreShoot := Some {| csKubernetesVersion := "1.13.4";
                       csTechnicalID := "shoot--test--sample";
                       csUID := "test-uid" |}
|}.

(** The data of the Secret in the tests, and the checksum they expect. *)
Definition fooBar : option (gmap string (list byte)) :=
  Some {[ "foo" := list_byte_of_string "bar" ]}.

Definition fooBarDigest : string :=
  "8bafb35ff1ac60275d62e1cbd495aceb511fb354f74a20f7d06ecb48b3a68432".

Definition secret : Secret := {|
  secName := "etcd-backup";
  secNamespace := "test";
  secData := fooBar
|}.

Definition client : Client := fun namespace name =>
  if decide (namespace = "test" ∧ name = "etcd-backup") then Ok secret
  else Err "not found".

Definition emptyContainer (name : string) : Container :=
  {| cName := name; cImage := EmptyString; cCommand := []; cEnv := []; cVolumeMounts := [] |}.

Definition statefulSet (name : string) (containers : list Container) : StatefulSet := {|
  ssName := name;
  ssNamespace := "test";
  ssTemplate := {| Annotations := None;
                   Spec := {| Containers := containers; Volumes := [] |} |}
|}.

(** The ensurer of the tests, with the explicit schedule, and one with
    no backup configuration of its own. *)
Definition ensurer : controlplanebackup.ensurer :=
  {| controlplanebackup.etcdBackup := etcdBackup;
     controlplanebackup.imageVector := imageVector;
     controlplanebackup.client := client |}.

Definition ensurerWithoutSchedule : controlplanebackup.ensurer :=
  {| controlplanebackup.etcdBackup := None;
     controlplanebackup.imageVector := imageVector;
     controlplanebackup.client := client |}.

(** A sidecar left by an earlier version, with a schedule of its own. *)
Definition oldSidecar : Container :=
  {| cName := "backup-restore"; cImage := "test-repository:old-tag";
     cCommand := ["etcdbrctl"; "server"; "--schedule=15 3 * * *"];
     cEnv := []; cVolumeMounts := [] |}.

(** Objects for the OpenStack values provider: a control plane on a core
    cloud profile whose configuration has neither a DHCP domain nor a
    request timeout, and two load-balancer classes both named [default]. *)
Definition infraStatus : openstack.InfrastructureStatus := {|
  openstack.FloatingPoolID := "floating-network-id";
  openstack.FloatingPoolName := "floating-pool";
  openstack.Subnets :=
    [ {| openstack.subnetPurpose := "nodes"; openstack.subnetID := "subnet-id" |} ]
|}.

Definition cloudProfileConfig : openstack.CloudProfileConfig := {|
  openstack.KeyStoneURL := "foo-bar.com";
  openstack.DHCPDomain := None;
  openstack.RequestTimeout := None;
  openstack.FloatingPools := []
|}.

Definition credentials : openstack.Credentials := {|
  openstack.DomainName := "domain-name";
  openstack.TenantName := "tenant-name";
  openstack.Username := "username";
  openstack.Password := "password"
|}.

Definition controlPlane : openstack.ControlPlane := {|
  openstack.cpNamespace := "test";
  openstack.cpName := "control-plane"
|}.

Definition coreCluster : Cluster := {|
  CloudProfile := None;
  CoreCloudProfile := Some {| ccpProviderConfig := Some "{}" |};
  Seed := None;
  CoreSeed := None;
  Shoot := None;
  CoreShoot := Some {| csKubernetesVersion := "1.13.4";
                       csTechnicalID := "shoot--test--sample";
                       csUID := "test-uid" |}
|}.

Definition firstDefault : openstack.LoadBalancerClass := {|
  openstack.Name := "default";
  openstack.FloatingSubnetID := Some "floating-subnet-1";
  openstack.FloatingNetworkID := None;
  openstack.SubnetID := None
|}.

Definition secondDefault : openstack.LoadBalancerClass := {|
  openstack.Name := "default";
  openstack.FloatingSubnetID := Some "floating-subnet-2";
  openstack.FloatingNetworkID := Some "floating-network-2";
  openstack.SubnetID := None
|}.

Definition cpConfig (classes : option (list openstack.LoadBalancerClass)) :
    openstack.ControlPlaneConfig := {|
  openstack.LoadBalancerProvider := "load-balancer-provider";
  openstack.LoadBalancerClasses := classes;
  openstack.Zone := "zone"
|}.

(** A mutator as the dispatcher's tests build it for objects that must
    be ignored: any call of a hook, of a codec or of the client fails. *)
Definition unusableEnsurer : genericmutator.Ensurer := {|
  genericmutator.EnsureKubeAPIServerService := fun _ => Err "unexpected call";
  genericmutator.EnsureKubeAPIServerDeployment := fun _ => Err "unexpected call";
  genericmutator.EnsureKubeControllerManagerDeployment := fun _ => Err "unexpected call";
  genericmutator.EnsureKubeSchedulerDeployment := fun _ => Err "unexpected call";
  genericmutator.EnsureETCDStatefulSet := fun _ _ => Err "unexpected call";
  genericmutator.EnsureKubeletServiceUnitOptions := fun _ => Err "unexpected call";
  genericmutator.EnsureKubeletConfiguration := fun _ => Err "unexpected call";
  genericmutator.EnsureKubernetesGeneralConfiguration := fun _ => Err "unexpected call";
  genericmutator.ShouldProvisionKubeletCloudProviderConfig := true;
  genericmutator.EnsureKubeletCloudProviderConfig := fun _ _ => Err "unexpected call";
  genericmutator.EnsureAdditionalUnits := fun _ => Err "unexpected call";
  genericmutator.EnsureAdditionalFiles := fun _ => Err "unexpected call"
|}.

Definition unusableMutator : genericmutator.mutator := {|
  genericmutator.ensurer := unusableEnsurer;
  genericmutator.unitSerializer :=
    {| genericmutator.Deserialize := fun _ => Err "unexpected call";
       genericmutator.Serialize := fun _ => Err "unexpected call" |};
  genericmutator.kubeletConfigCodec :=
    {| genericmutator.kccDecode := fun _ => Err "unexpected call";
       genericmutator.kccEncode := fun _ _ => Err "unexpected call" |};
  genericmutator.fciCodec :=
    {| genericmutator.fcicDecode := fun _ => Err "unexpected call";
       genericmutator.fcicEncode := fun _ _ => Err "unexpected call" |};
  genericmutator.getCluster := fun _ => Err "unexpected call"
|}.

End sample.

(** ** Further objects and notions

    Used to state the properties of the second part. *)

(** A StatefulSet with its containers replaced. *)
Definition withContainers (ss : StatefulSet) (containers : list Container) : StatefulSet := {|
  ssName := ssName ss;
  ssNamespace := ssNamespace ss;
  ssTemplate :=
    {| Annotations := Annotations (ssTemplate ss);
       Spec := {| Containers := containers; Volumes := Volumes (Spec (ssTemplate ss)) |} |}
|}.

Module sampleMore.

(** An image vector without the backup-restore image. *)
Definition emptyImageVector : controlplanebackup.ImageVector :=
  fun name _ => Err ("image not found: " +:+ name).

Definition ensurerWithoutImage : controlplanebackup.ensurer :=
  {| controlplanebackup.etcdBackup := sample.etcdBackup;
     controlplanebackup.imageVector := emptyImageVector;
     controlplanebackup.client := sample.client |}.

(** A client that reaches no API server, and the ensurer of the tests
    with it. *)
Definition unreachableClient : Client :=
  fun _ _ => Err "connection refused".

Definition ensurerWithUnreachableClient : controlplanebackup.ensurer :=
  controlplanebackup.InjectClient sample.ensurer unreachableClient.

Definition configuredCluster : Cluster :=
  sample.cluster (Some {| sbProvider := "aws" |}).

Definition etcd : Container := sample.emptyContainer "etcd".

End sampleMore.

(** The keys of the map literal of [getConfigChartValues] (lines 867-879). *)
Definition configChartKeys : gset string :=
  list_to_set
    [ "kubernetesVersion"; "domainName"; "tenantName"; "username"; "password";
      "lbProvider"; "floatingNetworkID"; "subnetID"; "authUrl"; "dhcpDomain";
      "requestTimeout" ].

(** The first load-balancer class of a name, if any. *)
Definition firstClassNamed (classes : list openstack.LoadBalancerClass) (name : string) :
    option openstack.LoadBalancerClass :=
  extensionswebhook.firstMatching (extensionswebhook.hasName openstack.Name) classes name.

(** A string pointer that counts: [None] when it is nil or empty. *)
Definition nonEmpty (s : option string) : option string :=
  if openstack.IsEmptyString s then None else s.

Module sampleValues.

Definition nodesSubnet : openstack.Subnet :=
  {| openstack.subnetPurpose := "nodes"; openstack.subnetID := "subnet-id" |}.


Definition privateClass : openstack.LoadBalancerClass := {|
  openstack.Name := "private";
  openstack.FloatingSubnetID := None;
  openstack.FloatingNetworkID := None;
  openstack.SubnetID := Some "private-subnet"
|}.

Definition defaultClass : openstack.LoadBalancerClass := {|
  openstack.Name := "default";
  openstack.FloatingSubnetID := Some EmptyString;
  openstack.FloatingNetworkID := Some "default-floating-network";
  openstack.SubnetID := Some "default-subnet"
|}.

(** A legacy cluster: the second floating pool of its profile is the
    one of the shoot. *)
Definition legacyClass : OpenStackLoadBalancerClass := {|
  oslbName := "default";
  oslbFloatingSubnetID := Some "legacy-floating-subnet";
  oslbFloatingNetworkID := None;
  oslbSubnetID := None
|}.

Definition legacyCluster : Cluster := {|
  CloudProfile :=
    Some {| gcpKeyStoneURL := "legacy-keystone.example";
            gcpDHCPDomain := Some "dhcp.example";
            gcpRequestTimeout := None;
            gcpFloatingPools :=
              [ {| ofpName := "other-pool"; ofpLoadBalancerClasses := [] |};
                {| ofpName := "shoot-pool"; ofpLoadBalancerClasses := [legacyClass] |} ] |};
  CoreCloudProfile := Some {| ccpProviderConfig := Some "{}" |};
  Seed := None;
  CoreSeed := None;
  Shoot :=
    Some {| gsKubernetesVersion := "1.13.4"; gsFloatingPoolName := "shoot-pool";
            gsTechnicalID := "shoot--test--sample"; gsUID := "test-uid" |};
  CoreShoot := None
|}.

End sampleValues.

(** ** The exported functions of the OpenStack values provider *)

Module valuesprovider.
Import openstack.

(** The control plane resource: its metadata and the fields of its spec
    that the provider reads. The raw extensions are dereferenced by the
    code without a nil check and are fields here. *)
Record ControlPlaneResource := {
  metadata : ControlPlane;
  ProviderConfigRaw : string;                 (* Spec.ProviderConfig.Raw *)
  InfrastructureProviderStatusRaw : string;   (* Spec.InfrastructureProviderStatus.Raw *)
  SecretRefNamespace : string;                (* Spec.SecretRef.Namespace *)
  SecretRefName : string                      (* Spec.SecretRef.Name *)
}.

Record CloudControllerManagerConfig := {
  FeatureGates : gmap string bool
}.

(** The decoded provider configuration: the part [getConfigChartValues]
    reads, and the optional cloud-controller-manager settings. *)
Record DecodedControlPlaneConfig := {
  config : ControlPlaneConfig;
  CloudControllerManager : option CloudControllerManagerConfig
}.

(** [runtime.Decoder], seen through the three types it decodes into. *)
Record Decoder := {
  decodeControlPlaneConfig : string -> result DecodedControlPlaneConfig;
  decodeInfrastructureStatus : string -> result InfrastructureStatus;
  decodeCloudProfileConfig : string -> result CloudProfileConfig
}.

Record valuesProvider := {
  decoder : Decoder;
  client : Client
}.

(** What the provider calls and the sources do not contain: the
    credentials lookup of package [internal], two accessors of package
    [controller], and a name of package [openstack]. *)
Class ProviderHelpers := {
  GetCredentials : Client -> string -> string -> result Credentials;
  GetControlPlaneReplicas : Cluster -> bool -> Z -> Z;
  GetPodNetwork : Cluster -> string;
  CloudProviderConfigCloudControllerManagerName : string
}.

Definition cloudControllerManagerDeploymentName : string := "cloud-controller-manager".
Definition cloudControllerManagerServerName : string := "cloud-controller-manager-server".
Definition SecretNameCloudProvider : string := "cloudprovider".

(** What a value of the control plane chart can hold. *)
Inductive ChartValue : Type :=
| CInt (n : Z)
| CString (s : string)
| CAnnotations (m : gmap string string)
| CFeatureGates (m : gmap string bool).

(** [checksums[name]]: the zero value for a name that is not in the map. *)
Definition checksumOf (checksums : gmap string string) (name : string) : string :=
  default EmptyString (checksums !! name).

Section Provider.
Context `{!ClusterAccessors, !ProviderHelpers}.

Definition decodeProviderConfig (vp : valuesProvider) (cp : ControlPlaneResource) :
    result DecodedControlPlaneConfig :=
  Wrapf ("could not decode providerConfig of controlplane '" +:+ ObjectName (metadata cp) +:+ "'")
    (decodeControlPlaneConfig (decoder vp) (ProviderConfigRaw cp)).

(** [getCCMChartValues] collects and returns the CCM chart values. *)
Definition getCCMChartValues (cpConfig : DecodedControlPlaneConfig) (cp : ControlPlaneResource)
    (cluster : Cluster) (checksums : gmap string string) (scaledDown : bool) :
    result (gmap string ChartValue) :=
  let values : gmap string ChartValue :=
    list_to_map
      [ ("replicas", CInt (GetControlPlaneReplicas cluster scaledDown 1));
        ("clusterName", CString (cpNamespace (metadata cp)));
        ("kubernetesVersion", CString (GetKubernetesVersion cluster));
        ("podNetwork", CString (GetPodNetwork cluster));
        ("podAnnotations",
         CAnnotations
           (list_to_map
              [ ("checksum/secret-cloud-controller-manager",
                 checksumOf checksums cloudControllerManagerDeploymentName);
                ("checksum/secret-cloud-controller-manager-server",
                 checksumOf checksums cloudControllerManagerServerName);
                ("checksum/secret-cloudprovider",
                 checksumOf checksums SecretNameCloudProvider);
                ("checksum/configmap-cloud-provider-config-cloud-controller-manager",
                 checksumOf checksums CloudProviderConfigCloudControllerManagerName) ])) ] in
  let values :=
    match CloudControllerManager cpConfig with
    | Some ccm => <["featureGates" := CFeatureGates (FeatureGates ccm)]> values
    | None => values
    end in
  Ok values.

(** [GetConfigChartValues] returns the values for the config chart. *)
Definition GetConfigChartValues (vp : valuesProvider) (cp : ControlPlaneResource)
    (cluster : Cluster) : result (gmap string Value) :=
  cpConfig ← decodeProviderConfig vp cp;
  infraStatus ←
    Wrapf ("could not decode infrastructureProviderStatus of controlplane '"
           +:+ ObjectName (metadata cp) +:+ "'")
      (decodeInfrastructureStatus (decoder vp) (InfrastructureProviderStatusRaw cp));
  cloudProfileConfig ←
    match CoreCloudProfile cluster ≫= ccpProviderConfig with
    | Some raw =>
        Some <$> Wrapf ("could not decode providerConfig of cloudProfile for '"
                        +:+ ObjectName (metadata cp) +:+ "'")
                   (decodeCloudProfileConfig (decoder vp) raw)
    | None => Ok None
    end;
  (* Get credentials *)
  credentials ←
    Wrapf ("could not get service account from secret '" +:+ SecretRefNamespace cp +:+ "/"
           +:+ SecretRefName cp +:+ "'")
      (GetCredentials (client vp) (SecretRefNamespace cp) (SecretRefName cp));
  (* Get config chart values *)
  getConfigChartValues (config cpConfig) infraStatus cloudProfileConfig (metadata cp)
    credentials cluster.

(** [GetControlPlaneChartValues] returns the values for the control
    plane chart. *)
Definition GetControlPlaneChartValues (vp : valuesProvider) (cp : ControlPlaneResource)
    (cluster : Cluster) (checksums : gmap string string) (scaledDown : bool) :
    result (gmap string ChartValue) :=
  cpConfig ← decodeProviderConfig vp cp;
  getCCMChartValues cpConfig cp cluster checksums scaledDown.

(** [GetStorageClassesChartValues] returns the values for the shoot
    storageclasses chart. *)
Definition GetStorageClassesChartValues (vp : valuesProvider) (cp : ControlPlaneResource)
    (cluster : Cluster) : result (gmap string ChartValue) :=
  cpConfig ← decodeProviderConfig vp cp;
  Ok {[ "availability" := CString (Zone (config cpConfig)) ]}.

End Provider.

End valuesprovider.

Module sampleProvider.
Import valuesprovider.

(** A decoder that knows two documents, and helpers that answer from
    the client and from the cluster. *)
Definition decoder : Decoder := {|
  decodeControlPlaneConfig raw :=
    if decide (raw = "{}")
    then Ok {| config := sample.cpConfig None; CloudControllerManager := None |}
    else Err "couldn't get version/kind; json parse error";
  decodeInfrastructureStatus raw :=
    if decide (raw = "{}") then Ok sample.infraStatus
    else Err "couldn't get version/kind; json parse error";
  decodeCloudProfileConfig raw :=
    if decide (raw = "{}") then Ok sample.cloudProfileConfig
    else Err "couldn't get version/kind; json parse error"
|}.

Definition helpers : ProviderHelpers := {|
  GetCredentials c namespace name :=
    (fun _ => sample.credentials) <$> c namespace name;
  GetControlPlaneReplicas _ scaledDown wokenUp := if scaledDown then 0%Z else wokenUp;
  GetPodNetwork _ := "10.250.0.0/19";
  CloudProviderConfigCloudControllerManagerName := "cloud-provider-config-cloud-controller-manager"
|}.

Definition provider : valuesProvider :=
  {| valuesprovider.decoder := decoder; valuesprovider.client := sample.client |}.

Definition controlPlane (providerConfig : string) : ControlPlaneResource := {|
  metadata := sample.controlPlane;
  ProviderConfigRaw := providerConfig;
  InfrastructureProviderStatusRaw := "{}";
  SecretRefNamespace := "test";
  SecretRefName := "etcd-backup"
|}.

(** The checksums of the tests, without the one of the server secret. *)
Definition checksums : gmap string string :=
  {[ "cloudprovider" := "8bafb35ff1ac60275d62e1cbd495aceb511fb354f74a20f7d06ecb48b3a68432";
     "cloud-controller-manager"
       := "3d791b164a808638da9a8df03924be2a41e34cd664e42231c00fe369e3588272" ]}.

End sampleProvider.

(** ** The Terraform configuration of the Azure infrastructure chart *)

Module azureinfra.

(** A value of the chart as the template sees it: a string or a number. *)
Inductive HelmValue : Type :=
| HString (s : string)
| HInt (n : Z).

(** How the template prints a value. *)
Definition print (val : HelmValue) : string :=
  match val with
  | HString s => s
  | HInt n => pretty n
  end.

(** Helm's [required]: the value, or the warning as an error when the
    value is missing or is the empty string. (Helm puts the position in
    the template in front of the warning.) *)
Definition required (warn : string) (val : option HelmValue) : result HelmValue :=
  match val with
  | None => Err warn
  | Some (HString EmptyString) => Err warn
  | Some val => Ok val
  end.

(** [.Values] of the chart [azure-infra]. *)
Record Values := {
  azure_subscriptionID : option HelmValue;
  azure_tenantID : option HelmValue;
  azure_region : option HelmValue;
  azure_countUpdateDomains : option HelmValue;
  azure_countFaultDomains : option HelmValue;
  create_resourceGroup : bool;
  create_vnet : bool;
  create_availabilitySet : bool;
  resourceGroup_name : option HelmValue;
  resourceGroup_vnet_name : option HelmValue;
  resourceGroup_vnet_cidr : option HelmValue;
  resourceGroup_subnet_serviceEndpoints : list string;
  clusterName : option HelmValue;
  networks_worker : option HelmValue;
  outputKeys : gmap string string
}.

(** The right-hand side of an attribute: a string between quotes, an
    interpolation ["${type.name.attribute}"] of a resource's attribute,
    an interpolation ["${var.name}"] of a variable, a list kept as the
    text the template prints, or a boolean. *)
Inductive Expr : Type :=
| Str (s : string)
| Attribute (type name attribute : string)
| Var (name : string)
| Raw (text : string)
| Bool (b : bool).

(** The blocks of the rendered configuration, in the order of the
    template; comments and layout are left out. *)
Inductive Block : Type :=
| Provider (name : string) (attributes : list (string * Expr))
| Resource (type name : string) (attributes : list (string * Expr))
| Output (name : string) (value : Expr).

Definition quoted (s : string) : string :=
  String json.doubleQuote s +:+ String json.doubleQuote EmptyString.

(** Line 33: the [range] over the service endpoints, which prints a comma
    in front of every element whose index is not zero. *)
Fixpoint rangeServiceEndpoints (index : nat) (serviceEndpoints : list string) : string :=
  match serviceEndpoints with
  | [] => EmptyString
  | serviceEndpoint :: rest =>
      match index with O => EmptyString | S _ => "," end
      +:+ quoted serviceEndpoint +:+ rangeServiceEndpoints (S index) rest
  end.

(** [.Values.outputKeys.<key>]: a key that is not set prints nothing. *)
Definition outputKey (v : Values) (key : string) : string :=
  default EmptyString (outputKeys v !! key).

(** [main.tf], evaluated from top to bottom: the first [required] that
    fails ends the rendering. *)
Definition render (v : Values) : result (list Block) :=
  (* provider "azurerm" *)
  subscriptionID ← required "azure.subscriptionID is required" (azure_subscriptionID v);
  tenantID ← required "azure.tenantID is required" (azure_tenantID v);
  let provider :=
    Provider "azurerm"
      [ ("subscription_id", Str (print subscriptionID));
        ("tenant_id", Str (print tenantID));
        ("client_id", Var "CLIENT_ID");
        ("client_secret", Var "CLIENT_SECRET") ] in
  resourceGroup ←
    (if create_resourceGroup v then
       name ← required "resourceGroup.name is required" (resourceGroup_name v);
       location ← required "azure.region is required" (azure_region v);
       Ok [ Resource "azurerm_resource_group" "rg"
              [ ("name", Str (print name)); ("location", Str (print location)) ] ]
     else Ok []);
  (* VNet, Subnets, Route Table, Security Groups *)
  vnet ←
    (if create_vnet v then
       name ← required "resourceGroup.vnet.name is required" (resourceGroup_vnet_name v);
       resourceGroupName ← required "resourceGroup.name is required" (resourceGroup_name v);
       location ← required "azure.region is required" (azure_region v);
       cidr ← required "resourceGroup.vnet.cidr is required" (resourceGroup_vnet_cidr v);
       Ok [ Resource "azurerm_virtual_network" "vnet"
              [ ("name", Str (print name));
                ("resource_group_name", Str (print resourceGroupName));
                ("location", Str (print location));
                ("address_space", Raw ("[" +:+ quoted (print cidr) +:+ "]")) ] ]
     else Ok []);
  subnet ←
    (name ← required "clusterName is required" (clusterName v);
     resourceGroupName ← required "resourceGroup.name is required" (resourceGroup_name v);
     vnetName ← required "resourceGroup.vnet.name is required" (resourceGroup_vnet_name v);
     worker ← required "networks.worker is required" (networks_worker v);
     Ok (Resource "azurerm_subnet" "workers"
           [ ("name", Str (print name +:+ "-nodes"));
             ("resource_group_name", Str (print resourceGroupName));
             ("virtual_network_name", Str (print vnetName));
             ("address_prefix", Str (print worker));
             ("service_endpoints",
              Raw ("[" +:+ rangeServiceEndpoints 0 (resourceGroup_subnet_serviceEndpoints v)
                   +:+ "]")) ]));
  routeTable ←
    (location ← required "azure.region is required" (azure_region v);
     resourceGroupName ← required "resourceGroup.name is required" (resourceGroup_name v);
     Ok (Resource "azurerm_route_table" "workers"
           [ ("name", Str "worker_route_table");
             ("location", Str (print location));
             ("resource_group_name", Str (print resourceGroupName)) ]));
  let routeTableAssociation :=
    Resource "azurerm_subnet_route_table_association" "workers-rt-association"
      [ ("subnet_id", Attribute "azurerm_subnet" "workers" "id");
        ("route_table_id", Attribute "azurerm_route_table" "workers" "id") ] in
  securityGroup ←
    (name ← required "clusterName is required" (clusterName v);
     location ← required "azure.region is required" (azure_region v);
     resourceGroupName ← required "resourceGroup.name is required" (resourceGroup_name v);
     Ok (Resource "azurerm_network_security_group" "workers"
           [ ("name", Str (print name +:+ "-workers"));
             ("location", Str (print location));
             ("resource_group_name", Str (print resourceGroupName)) ]));
  let securityGroupAssociation :=
    Resource "azurerm_subnet_network_security_group_association" "workers-sg-association"
      [ ("subnet_id", Attribute "azurerm_subnet" "workers" "id");
        ("network_security_group_id",
         Attribute "azurerm_network_security_group" "workers" "id") ] in
  (* Availability Set *)
  availabilitySet ←
    (if create_availabilitySet v then
       name ← required "clusterName is required" (clusterName v);
       resourceGroupName ← required "resourceGroup.name is required" (resourceGroup_name v);
       location ← required "azure.region is required" (azure_region v);
       countUpdateDomains ←
         required "azure.countUpdateDomains is required" (azure_countUpdateDomains v);
       countFaultDomains ←
         required "azure.countFaultDomains is required" (azure_countFaultDomains v);
       Ok [ Resource "azurerm_availability_set" "workers"
              [ ("name", Str (print name +:+ "-avset-workers"));
                ("resource_group_name", Str (print resourceGroupName));
                ("location", Str (print location));
                ("platform_update_domain_count", Str (print countUpdateDomains));
                ("platform_fault_domain_count", Str (print countFaultDomains));
                ("managed", Bool true) ] ]
     else Ok []);
  (* Output variables *)
  resourceGroupName ← required "resourceGroup.name is required" (resourceGroup_name v);
  vnetName ← required "resourceGroup.vnet.name is required" (resourceGroup_vnet_name v);
  let outputs :=
    [ Output (outputKey v "resourceGroupName") (Str (print resourceGroupName));
      Output (outputKey v "vnetName") (Str (print vnetName));
      Output (outputKey v "subnetName") (Attribute "azurerm_subnet" "workers" "name");
      Output (outputKey v "routeTableName") (Attribute "azurerm_route_table" "workers" "name");
      Output (outputKey v "securityGroupName")
        (Attribute "azurerm_network_security_group" "workers" "name") ] in
  let availabilitySetOutputs :=
    if create_availabilitySet v then
      [ Output (outputKey v "availabilitySetID")
          (Attribute "azurerm_availability_set" "workers" "id");
        Output (outputKey v "availabilitySetName")
          (Attribute "azurerm_availability_set" "workers" "name") ]
    else [] in
  Ok ([provider] ++ resourceGroup ++ vnet
      ++ [subnet; routeTable; routeTableAssociation; securityGroup; securityGroupAssociation]
      ++ availabilitySet ++ outputs ++ availabilitySetOutputs)%list.

(** What a configuration declares, and what it refers to. *)
Definition attributesOf (block : Block) : list (string * Expr) :=
  match block with
  | Provider _ attributes => attributes
  | Resource _ _ attributes => attributes
  | Output _ value => [("value", value)]
  end.




(** The value of an attribute of a block, if the block has it, and the
    resource of a type and name, if the configuration declares it. *)
Definition attributeOf (key : string) (block : Block) : option Expr :=
  snd <$> find (fun attribute => bool_decide (attribute.1 = key)) (attributesOf block).

Definition resourceNamed (type name : string) (blocks : list Block) : option Block :=
  find (fun block =>
          match block with
          | Resource type' name' _ => bool_decide (type' = type ∧ name' = name)
          | _ => false
          end) blocks.

(** Whether [required] accepts a value. *)
Definition given (val : option HelmValue) : bool :=
  isOk (required EmptyString val).

End azureinfra.

Module sampleInfra.
Import azureinfra.

(** The values of the Azure tests for a zoned cluster and for one that
    is not zoned, for given service endpoints, the output keys named like
    their entries. *)
Definition zoned (serviceEndpoints : list string) : Values := {|
  azure_subscriptionID := Some (HString "subscription_id");
  azure_tenantID := Some (HString "tenant_id");
  azure_region := Some (HString "eu-west-1");
  azure_countUpdateDomains := None;
  azure_countFaultDomains := None;
  create_resourceGroup := true;
  create_vnet := false;
  create_availabilitySet := false;
  resourceGroup_name := Some (HString "foo");
  resourceGroup_vnet_name := Some (HString "vnet");
  resourceGroup_vnet_cidr := Some (HString "10.1.0.0/16");
  resourceGroup_subnet_serviceEndpoints := serviceEndpoints;
  clusterName := Some (HString "foo");
  networks_worker := Some (HString "10.1.0.0/16");
  outputKeys :=
    {[ "resourceGroupName" := "resourceGroupName"; "vnetName" := "vnetName";
       "subnetName" := "subnetName"; "routeTableName" := "routeTableName";
       "securityGroupName" := "securityGroupName" ]}
|}.


End sampleInfra.

(** * Properties *)

(** ** The merge helpers *)

Lemma filter_none {A : Type} (P : A -> Prop) `{!forall x, Decision (P x)} (l : list A) :
  Forall (fun x => ¬ P x) l -> filter P l = [].
Proof.
  induction 1 as [|y l Hy _ IH]; [done|]. by rewrite filter_cons_False.
Qed.

Section UpsertFacts.
Import extensionswebhook.
Context {A K : Type} (matches : K -> A -> Prop).
Context `{!forall k x, Decision (matches k x)}.
Implicit Types (items : list A) (k : K) (item : A).

Lemma indexMatching_None items k :
  indexMatching matches items k = None <-> Forall (fun x => ¬ matches k x) items.
Proof.
  induction items as [|x items IH]; simpl.
  - split; [constructor | done].
  - destruct (decide (matches k x)) as [Hm|Hm].
    + split; [done | intros HF; inversion HF; contradiction].
    + destruct (indexMatching matches items k) eqn:E; simpl.
      * split; [done | intros HF; inversion HF; subst].
        destruct IH as [_ IH]. by specialize (IH ltac:(assumption)).
      * split; [intros _; constructor; [done | by apply IH] | done].
Qed.

Lemma indexMatching_Some items k i :
  indexMatching matches items k = Some i ->
  exists x, items !! i = Some x /\ matches k x /\
            Forall (fun y => ¬ matches k y) (take i items).
Proof.
  revert i. induction items as [|x items IH]; intros i; simpl; [done|].
  destruct (decide (matches k x)) as [Hm|Hm].
  - intros [= <-]. exists x. simpl. repeat split; [done | constructor].
  - destruct (indexMatching matches items k) as [j|] eqn:E; simpl; [|done].
    intros [= <-]. destruct (IH j eq_refl) as (y & Hy & Hmy & HF).
    exists y. simpl. repeat split; [done | done | by constructor].
Qed.

Lemma indexMatching_first items k i x :
  items !! i = Some x -> matches k x ->
  Forall (fun y => ¬ matches k y) (take i items) ->
  indexMatching matches items k = Some i.
Proof.
  revert i. induction items as [|y items IH]; intros i; [done|].
  destruct i as [|i]; simpl.
  - intros [= ->] Hm _. by rewrite decide_True.
  - intros Hi Hm HF. inversion HF; subst.
    rewrite decide_False by done. by rewrite (IH i).
Qed.

Lemma upsert_absent items k item :
  indexMatching matches items k = None -> upsert matches items k item = (items ++ [item])%list.
Proof. unfold upsert. by intros ->. Qed.

Lemma upsert_present items k item i :
  indexMatching matches items k = Some i -> upsert matches items k item = <[i:=item]> items.
Proof. unfold upsert. by intros ->. Qed.

Lemma upsert_length_ge items k item :
  length items <= length (upsert matches items k item).
Proof.
  unfold upsert. destruct (indexMatching matches items k).
  - by rewrite length_insert.
  - rewrite length_app. lia.
Qed.

Lemma indexMatching_upsert items k item :
  matches k item ->
  exists i, indexMatching matches (upsert matches items k item) k = Some i /\
            upsert matches items k item !! i = Some item.
Proof.
  intros Hm. unfold upsert.
  destruct (indexMatching matches items k) as [i|] eqn:E.
  - destruct (indexMatching_Some _ _ _ E) as (x & Hx & _ & HF).
    assert (i < length items)%nat by (by eapply lookup_lt_Some).
    exists i. split; [|by apply list_lookup_insert_eq].
    apply indexMatching_first with item; [by apply list_lookup_insert_eq | done |].
    by rewrite take_insert_ge.
  - apply indexMatching_None in E.
    exists (length items). split; [|by apply list_lookup_middle].
    apply indexMatching_first with item; [by apply list_lookup_middle | done |].
    by rewrite take_app_length.
Qed.

Lemma firstMatching_upsert items k item :
  matches k item -> firstMatching matches (upsert matches items k item) k = Some item.
Proof.
  intros Hm. destruct (indexMatching_upsert items k item Hm) as (i & Hi & Hl).
  unfold firstMatching. by rewrite Hi.
Qed.

Lemma upsert_idempotent items k item :
  matches k item ->
  upsert matches (upsert matches items k item) k item = upsert matches items k item.
Proof.
  intros Hm. destruct (indexMatching_upsert items k item Hm) as (i & Hi & Hl).
  rewrite (upsert_present _ _ _ _ Hi). by apply list_insert_id.
Qed.

Lemma upsert_others items k item :
  matches k item ->
  filter (fun x => ¬ matches k x) (upsert matches items k item)
  = filter (fun x => ¬ matches k x) items.
Proof.
  intros Hm. unfold upsert.
  destruct (indexMatching matches items k) as [i|] eqn:E.
  - destruct (indexMatching_Some _ _ _ E) as (x & Hx & Hmx & _).
    rewrite <- (take_drop_middle items i x Hx) at 2.
    rewrite insert_take_drop by (by eapply lookup_lt_Some).
    rewrite !filter_app, !filter_cons_False by tauto. done.
  - rewrite filter_app, filter_cons_False by tauto.
    by rewrite filter_nil, app_nil_r.
Qed.

Lemma upsert_count items k item :
  matches k item ->
  countMatching matches k (upsert matches items k item)
  = Nat.max 1 (countMatching matches k items).
Proof.
  intros Hm. unfold upsert, countMatching.
  destruct (indexMatching matches items k) as [i|] eqn:E.
  - destruct (indexMatching_Some _ _ _ E) as (x & Hx & Hmx & _).
    rewrite <- (take_drop_middle items i x Hx) at 2.
    rewrite insert_take_drop by (by eapply lookup_lt_Some).
    rewrite !filter_app, !filter_cons_True, !length_app by done. simpl. lia.
  - apply indexMatching_None in E.
    rewrite filter_app, filter_cons_True, filter_nil, length_app by done.
    by rewrite (filter_none _ _ E).
Qed.

Lemma upsert_lookup_other items k item i j :
  indexMatching matches items k = Some i -> j ≠ i ->
  upsert matches items k item !! j = items !! j.
Proof.
  intros E Hj. rewrite (upsert_present _ _ _ _ E).
  by apply list_lookup_insert_ne.
Qed.

End UpsertFacts.

Example sha256_abc :
  sha256.ComputeSHA256Hex "abc"
  = "ba7816bf8f01cfea414140de5dae2223b00361a396177a9cb410ff61f20015ad".
Proof. vm_compute. reflexivity. Qed.

Example sha256_empty :
  sha256.ComputeSHA256Hex EmptyString
  = "e3b0c44298fc1c149afbf4c8996fb92427ae41e4649b934ca495991b7852b855".
Proof. vm_compute. reflexivity. Qed.

Example sha256_two_blocks :
  sha256.ComputeSHA256Hex "abcdbcdecdefdefgefghfghighijhijkijkljklmklmnlmnomnopnopq"
  = "248d6a61d20638b8e5c026930c3e6039a33ce45964ff2167f6ecedd419db06c1".
Proof. vm_compute. reflexivity. Qed.

Example marshal_foo_bar :
  json.Marshal (Some {[ "foo" := list_byte_of_string "bar" ]})
  = "{" +:+ json.quote "foo" +:+ ":" +:+ json.quote "YmFy" +:+ "}".
Proof. vm_compute. reflexivity. Qed.

Section ByName.
Import extensionswebhook.
Context {A : Type} (name : A -> string).
Implicit Types (items : list A) (item : A).

Lemma firstMatching_None items n :
  firstMatching (hasName name) items n = None <->
  indexMatching (hasName name) items n = None.
Proof.
  unfold firstMatching.
  destruct (indexMatching (hasName name) items n) as [i|] eqn:E; [|done].
  destruct (indexMatching_Some _ _ _ _ E) as (x & -> & _). done.
Qed.

Lemma countMatching_NoDup items n :
  NoDup (name <$> items) -> (countMatching (hasName name) n items <= 1)%nat.
Proof.
  unfold countMatching. induction items as [|x items IH]; simpl; [lia|].
  rewrite NoDup_cons. intros [Hx Hnd]. specialize (IH Hnd).
  destruct (decide (hasName name n x)) as [Hn|Hn].
  - rewrite filter_cons_True by done. simpl.
    rewrite filter_none; [simpl; lia|].
    apply Forall_forall. intros y Hy Hny.
    apply Hx. unfold hasName in *. subst n. rewrite <- Hny.
    by apply list_elem_of_fmap_2.
  - by rewrite filter_cons_False.
Qed.

Lemma upsert_names items item n :
  n ∈ name <$> items -> n ∈ name <$> upsert (hasName name) items (name item) item.
Proof.
  intros (x & -> & Hx)%list_elem_of_fmap.
  destruct (decide (name x = name item)) as [Heq|Hne].
  - rewrite Heq.
    destruct (indexMatching_upsert (hasName name) items (name item) item eq_refl)
      as (i & _ & Hi).
    apply list_elem_of_fmap_2. by eapply list_elem_of_lookup_2.
  - apply list_elem_of_fmap_2.
    assert (x ∈ filter (fun y => ¬ hasName name (name item) y)
                  (upsert (hasName name) items (name item) item)) as Hin.
    { rewrite upsert_others by done. apply list_elem_of_filter. by split. }
    by apply list_elem_of_filter in Hin as [_ ?].
Qed.

End ByName.

Section MergeCorrectness.
Import extensionswebhook.

(** The three cases of every merge operation: append when no element has
    the key, replace in place when one has, and no element is lost. *)
Lemma upsert_cases {A K : Type} (matches : K -> A -> Prop)
    `{!forall k x, Decision (matches k x)} (items : list A) (k : K) (item : A) :
  (indexMatching matches items k = None ->
     upsert matches items k item = (items ++ [item])%list) /\
  (forall i, indexMatching matches items k = Some i ->
     upsert matches items k item = <[i:=item]> items /\
     length (upsert matches items k item) = length items) /\
  (length items <= length (upsert matches items k item))%nat.
Proof.
  split; [apply upsert_absent|]. split; [|apply upsert_length_ge].
  intros i E. rewrite (upsert_present _ _ _ _ _ E).
  split; [done | apply length_insert].
Qed.

(** The merge of tokens keeps the tokens that are there, in their
    places, adds those of the new tokens that are missing, and brings in
    no duplicate. *)
Lemma mergeTokens_prefix (existing new : list string) :
  existing `prefix_of` mergeTokens existing new.
Proof.
  unfold mergeTokens. revert existing.
  induction new as [|token new IH]; intros existing; simpl; [done|].
  destruct (decide (token ∈ existing)); [apply IH|].
  etrans; [|apply IH]. by apply prefix_app_r.
Qed.

Lemma mergeTokens_elem_of (existing new : list string) (token : string) :
  token ∈ mergeTokens existing new <-> token ∈ existing \/ token ∈ new.
Proof.
  unfold mergeTokens. revert existing.
  induction new as [|next new IH]; intros existing; simpl.
  - rewrite elem_of_nil. tauto.
  - rewrite IH, elem_of_cons.
    destruct (decide (next ∈ existing)) as [Hin|Hin].
    + split; [tauto|]. intros [?|[->|?]]; tauto.
    + rewrite elem_of_app, list_elem_of_singleton. tauto.
Qed.

Lemma mergeTokens_NoDup (existing new : list string) :
  NoDup existing -> NoDup (mergeTokens existing new).
Proof.
  unfold mergeTokens. revert existing.
  induction new as [|token new IH]; intros existing Hexisting; simpl; [done|].
  apply IH. destruct (decide (token ∈ existing)) as [Hin|Hin]; [done|].
  apply NoDup_app. split; [done|]. split; [|apply NoDup_singleton].
  intros x Hx ->%list_elem_of_singleton. done.
Qed.

(** The cases of the flag upsert: append when no argument has the
    prefix; otherwise the first such argument is rewritten at its index,
    to the prefix and the value for a flag with a single value, to the
    prefix and the merged comma list for a multi-value flag. *)
Lemma UpsertCommandFlagValue_cases `{!MultiValueFlags}
    (command : list string) (prefix value : string) :
  let upserted := UpsertCommandFlagValue command prefix value in
  (indexMatching hasPrefix command prefix = None ->
     upserted = (command ++ [prefix +:+ value])%list) /\
  (forall i, indexMatching hasPrefix command prefix = Some i ->
     length upserted = length command /\
     (forall j, j ≠ i -> upserted !! j = command !! j) /\
     (isMultiValueFlag prefix = false -> upserted = <[i:=prefix +:+ value]> command) /\
     (isMultiValueFlag prefix = true ->
        exists item merged,
          command !! i = Some item /\
          upserted = <[i:=prefix +:+ String.concat "," merged]> command /\
          tokens (TrimPrefix item prefix) `prefix_of` merged /\
          (forall token, token ∈ merged <->
             token ∈ tokens (TrimPrefix item prefix) \/ token ∈ tokens value) /\
          (NoDup (tokens (TrimPrefix item prefix)) -> NoDup merged))) /\
  (length command <= length upserted)%nat.
Proof.
  intros upserted. subst upserted. unfold UpsertCommandFlagValue, firstMatching.
  split; [|split].
  - intros E. rewrite E. by apply upsert_absent.
  - intros i E. rewrite E.
    destruct (indexMatching_Some _ _ _ _ E) as (item & Hitem & _). rewrite Hitem.
    destruct (isMultiValueFlag prefix); rewrite (upsert_present _ _ _ _ _ E).
    + split; [apply length_insert|]. split; [intros j Hj; by apply list_lookup_insert_ne|].
      split; [done|]. intros _. exists item. eexists. split; [done|]. split; [done|].
      split; [apply mergeTokens_prefix|].
      split; [apply mergeTokens_elem_of | apply mergeTokens_NoDup].
    + split; [apply length_insert|]. split; [intros j Hj; by apply list_lookup_insert_ne|].
      by split.
  - destruct (indexMatching hasPrefix command prefix) as [i|] eqn:E.
    + destruct (indexMatching_Some _ _ _ _ E) as (item & -> & _).
      destruct (isMultiValueFlag prefix); apply upsert_length_ge.
    + apply upsert_length_ge.
Qed.

(** C5. Merge correctness of the container upsert and of its siblings.
    On a container list with no container of the new container's name,
    [EnsureContainerWithName] appends it. On a list that has one, the
    first such container is replaced at its index, the length and every
    other position are unchanged, the containers of other names keep their
    values and their order, and when names are unique in the input the
    result holds exactly one container of that name, the new one. No
    container name is lost and the list never gets shorter. The upserts
    of environment variables, volumes and volume mounts follow the same
    three cases. So does the upsert of a command-line flag, where the
    argument written in place of the first one with the prefix is the
    prefix and the value for a flag with a single value and, for a
    comma-joined multi-value flag, the prefix and the comma list of the
    tokens it had, in their order, followed by the tokens of the value
    that it did not have; no token is lost and none is doubled. *)
Theorem EnsureContainerWithName_merge_correct `{!MultiValueFlags}
    (containers : list Container) (c : Container) :
  let merged := EnsureContainerWithName containers c in
  (ContainerWithName containers (cName c) = None ->
     merged = (containers ++ [c])%list) /\
  (forall i, containerWithNameIndex containers (cName c) = Some i ->
     merged = <[i:=c]> containers /\
     merged !! i = Some c /\
     length merged = length containers /\
     forall j, j ≠ i -> merged !! j = containers !! j) /\
  ContainerWithName merged (cName c) = Some c /\
  countMatching (hasName cName) (cName c) merged
    = Nat.max 1 (countMatching (hasName cName) (cName c) containers) /\
  (NoDup (cName <$> containers) ->
     countMatching (hasName cName) (cName c) merged = 1%nat) /\
  filter (fun x => cName x ≠ cName c) merged
    = filter (fun x => cName x ≠ cName c) containers /\
  (length containers <= length merged)%nat /\
  (forall n, n ∈ cName <$> containers -> n ∈ cName <$> merged) /\
  (forall (env : list EnvVar) (v : EnvVar),
     (indexMatching (hasName evName) env (evName v) = None ->
        UpsertEnvVar env v = (env ++ [v])%list) /\
     (forall i, indexMatching (hasName evName) env (evName v) = Some i ->
        UpsertEnvVar env v = <[i:=v]> env /\ length (UpsertEnvVar env v) = length env) /\
     (length env <= length (UpsertEnvVar env v))%nat) /\
  (forall (volumes : list Volume) (v : Volume),
     (indexMatching (hasName volName) volumes (volName v) = None ->
        UpsertVolume volumes v = (volumes ++ [v])%list) /\
     (forall i, indexMatching (hasName volName) volumes (volName v) = Some i ->
        UpsertVolume volumes v = <[i:=v]> volumes /\
        length (UpsertVolume volumes v) = length volumes) /\
     (length volumes <= length (UpsertVolume volumes v))%nat) /\
  (forall (mounts : list VolumeMount) (v : VolumeMount),
     (indexMatching (hasName vmName) mounts (vmName v) = None ->
        UpsertVolumeMount mounts v = (mounts ++ [v])%list) /\
     (forall i, indexMatching (hasName vmName) mounts (vmName v) = Some i ->
        UpsertVolumeMount mounts v = <[i:=v]> mounts /\
        length (UpsertVolumeMount mounts v) = length mounts) /\
     (length mounts <= length (UpsertVolumeMount mounts v))%nat) /\
  (forall (command : list string) (prefix value : string),
     let upserted := UpsertCommandFlagValue command prefix value in
     (indexMatching hasPrefix command prefix = None ->
        upserted = (command ++ [prefix +:+ value])%list) /\
     (forall i, indexMatching hasPrefix command prefix = Some i ->
        length upserted = length command /\
        (forall j, j ≠ i -> upserted !! j = command !! j) /\
        (isMultiValueFlag prefix = false -> upserted = <[i:=prefix +:+ value]> command) /\
        (isMultiValueFlag prefix = true ->
           exists item tokens',
             command !! i = Some item /\
             upserted = <[i:=prefix +:+ String.concat "," tokens']> command /\
             tokens (TrimPrefix item prefix) `prefix_of` tokens' /\
             (forall token, token ∈ tokens' <->
                token ∈ tokens (TrimPrefix item prefix) \/ token ∈ tokens value) /\
             (NoDup (tokens (TrimPrefix item prefix)) -> NoDup tokens'))) /\
     (length command <= length upserted)%nat).
Proof.
  intros merged. subst merged.
  unfold EnsureContainerWithName, ContainerWithName, containerWithNameIndex.
  assert (hasName cName (cName c) c) as Hc by reflexivity.
  split; [|split; [|split; [|split; [|split; [|split; [|split; [|split]]]]]]].
  - intros E%firstMatching_None. by apply upsert_absent.
  - intros i E.
    destruct (indexMatching_Some _ _ _ _ E) as (x & Hx & _).
    rewrite (upsert_present _ _ _ _ _ E).
    split; [done|]. split; [|split].
    + apply list_lookup_insert_eq. by eapply lookup_lt_Some.
    + apply length_insert.
    + intros j Hj. by apply list_lookup_insert_ne.
  - by apply firstMatching_upsert.
  - by apply upsert_count.
  - intros Hnd. rewrite upsert_count by done.
    pose proof (countMatching_NoDup cName containers (cName c) Hnd). lia.
  - by apply (upsert_others (hasName cName)).
  - apply upsert_length_ge.
  - intros n. apply upsert_names.
  - split; [|split; [|split]]; intros; try apply upsert_cases.
    apply UpsertCommandFlagValue_cases.
Qed.

End MergeCorrectness.

Section MergeCorrectnessExamples.
Import extensionswebhook.
#[local] Existing Instance sample.multiValueFlags.

(** The replacement at work on a pod with an [etcd] container and an
    outdated [backup-restore] container, and the flag upsert on a
    command line: a feature gate is added behind the one that is set, a
    gate that is set already changes nothing, the schedule, a flag with
    a single value, is overwritten, and an admission plugin is appended
    as a new argument or behind the plugin that is there. *)
Lemma EnsureContainerWithName_merge_correct_witness :
  let old := sample.emptyContainer "backup-restore" in
  let new := {| cName := "backup-restore"; cImage := "test-repository:test-tag";
                cCommand := ["etcdbrctl"]; cEnv := []; cVolumeMounts := [] |} in
  let etcd := sample.emptyContainer "etcd" in
  let command := ["server"; "--feature-gates=Foo=true,Bar=false"; "--schedule=15 3 * * *"] in
  EnsureContainerWithName [etcd; old] new = [etcd; new] /\
  EnsureContainerWithName [etcd] new = [etcd; new] /\
  countMatching (hasName cName) "backup-restore" (EnsureContainerWithName [etcd; old] new) = 1%nat /\
  UpsertCommandFlagValue command "--feature-gates=" "CSINodeInfo=true"
  = ["server"; "--feature-gates=Foo=true,Bar=false,CSINodeInfo=true";
     "--schedule=15 3 * * *"] /\
  UpsertCommandFlagValue command "--feature-gates=" "Bar=false" = command /\
  UpsertCommandFlagValue command "--schedule=" "0 */24 * * *"
  = ["server"; "--feature-gates=Foo=true,Bar=false"; "--schedule=0 */24 * * *"] /\
  UpsertCommandFlagValue command "--admission-plugins=" "NodeRestriction"
  = (command ++ ["--admission-plugins=NodeRestriction"])%list /\
  UpsertCommandFlagValue ["--admission-plugins=NodeRestriction"] "--admission-plugins="
    "PodSecurityPolicy"
  = ["--admission-plugins=NodeRestriction,PodSecurityPolicy"].
Proof.
  intros old new etcd command.
  destruct (EnsureContainerWithName_merge_correct [etcd; old] new)
    as (_ & Hrep & _ & _ & Hone & _ & _ & _ & _ & _ & _ & Hflag).
  destruct (EnsureContainerWithName_merge_correct [etcd] new) as (Happ & _).
  split; [|split; [|split; [|split; [|split; [|split; [|split]]]]]].
  - apply (Hrep 1%nat). reflexivity.
  - apply Happ. reflexivity.
  - apply Hone. apply (bool_decide_unpack _). vm_compute. exact I.
  - destruct (Hflag command "--feature-gates=" "CSINodeInfo=true") as (_ & Hpresent & _).
    destruct (Hpresent 1%nat eq_refl) as (_ & _ & _ & Hmerge).
    destruct (Hmerge eq_refl) as (item & merged & _ & _ & _ & _ & _).
    vm_compute. reflexivity.
  - destruct (Hflag command "--feature-gates=" "Bar=false") as (_ & Hpresent & _).
    destruct (Hpresent 1%nat eq_refl) as (_ & _ & _ & Hmerge).
    destruct (Hmerge eq_refl) as (item & merged & _ & _ & _ & _ & _).
    vm_compute. reflexivity.
  - destruct (Hflag command "--schedule=" "0 */24 * * *") as (_ & Hpresent & _).
    destruct (Hpresent 2%nat eq_refl) as (_ & _ & -> & _); reflexivity.
  - destruct (Hflag command "--admission-plugins=" "NodeRestriction") as (Habsent & _).
    apply Habsent. reflexivity.
  - destruct (Hflag ["--admission-plugins=NodeRestriction"] "--admission-plugins="
                "PodSecurityPolicy") as (_ & Hpresent & _).
    destruct (Hpresent 0%nat eq_refl) as (_ & _ & _ & Hmerge).
    destruct (Hmerge eq_refl) as (item & merged & _ & _ & _ & _ & _).
    vm_compute. reflexivity.
Defined.

End MergeCorrectnessExamples.

(** ** The checksum annotation *)

Section Checksum.
Import controlplane.

Import sample.

Lemma ComputeChecksum_fooBar : ComputeChecksum fooBar = fooBarDigest.
Proof. vm_compute. reflexivity. Qed.

Lemma round_length s kw : length s = 8%nat -> length (sha256.round s kw) = 8%nat.
Proof.
  destruct s as [|a [|b [|c [|d [|e [|f [|g [|h [|i s]]]]]]]]]; simpl; done.
Qed.

Lemma compress_length h block :
  length h = 8%nat -> length (sha256.compress h block) = 8%nat.
Proof.
  intros Hh. unfold sha256.compress. rewrite length_zip_with.
  enough (forall l s, length s = 8%nat -> length (fold_left sha256.round l s) = 8%nat) as Hfold
    by (rewrite Hfold by done; lia).
  induction l as [|kw l IH]; intros s Hs; simpl; [done|].
  by apply IH, round_length.
Qed.

Lemma digest_length msg : length (sha256.digest msg) = 8%nat.
Proof.
  unfold sha256.digest.
  generalize (sha256.chunks (length (sha256.pad msg)) 64 (sha256.pad msg)).
  assert (length sha256.H0 = 8%nat) as Hinit by (vm_compute; reflexivity).
  revert Hinit. generalize sha256.H0.
  intros h Hh blocks. revert h Hh.
  induction blocks as [|block blocks IH]; intros h Hh; simpl; [done|].
  by apply IH, compress_length.
Qed.

Lemma string_of_list_ascii_length l :
  String.length (string_of_list_ascii l) = length l.
Proof. induction l as [|a l IH]; simpl; [done | by rewrite IH]. Qed.

(** The digest is written as 64 hexadecimal digits. *)
Lemma ComputeSHA256Hex_length s : String.length (sha256.ComputeSHA256Hex s) = 64%nat.
Proof.
  unfold sha256.ComputeSHA256Hex. rewrite string_of_list_ascii_length.
  pose proof (digest_length (sha256.bytesOfString s)) as Hlen.
  destruct (sha256.digest (sha256.bytesOfString s))
    as [|a [|b [|c [|d [|e [|f [|g [|h [|i l]]]]]]]]]; try discriminate Hlen.
  reflexivity.
Qed.

Lemma EnsureSecretChecksumAnnotation_ok template (c : Client) namespace name secret :
  c namespace name = Ok secret ->
  EnsureSecretChecksumAnnotation template c namespace name
  = Ok (SetMetaDataAnnotation template ("checksum/secret-" +:+ name)
          (ComputeChecksum (secData secret))).
Proof. unfold EnsureSecretChecksumAnnotation. by intros ->. Qed.

(** C6. The checksum annotation is a function of the data of the
    referenced Secret only. For the data [{"foo": "bar"}] the checksum is
    the digest 8bafb35f...68432 the tests expect (every checksum is a
    string of 64 hexadecimal digits), and that is the value written under
    [checksum/secret-<name>] whatever the template, the client, the
    namespace, the name and the rest of the Secret are; two Secrets with
    the same data yield the same annotated template. *)
Theorem checksum_annotation_deterministic :
  ComputeChecksum fooBar = fooBarDigest /\
  (forall data, String.length (ComputeChecksum data) = 64%nat) /\
  (forall template (c : Client) namespace name secret,
     c namespace name = Ok secret -> secData secret = fooBar ->
     exists template',
       EnsureSecretChecksumAnnotation template c namespace name = Ok template' /\
       Annotations template' ≫= (fun m => m !! ("checksum/secret-" +:+ name))
         = Some fooBarDigest /\
       Spec template' = Spec template) /\
  (forall template (c1 c2 : Client) namespace name secret1 secret2,
     c1 namespace name = Ok secret1 -> c2 namespace name = Ok secret2 ->
     secData secret1 = secData secret2 ->
     EnsureSecretChecksumAnnotation template c1 namespace name
     = EnsureSecretChecksumAnnotation template c2 namespace name).
Proof.
  split; [apply ComputeChecksum_fooBar|].
  split; [intros data; apply ComputeSHA256Hex_length|]. split.
  - intros template c namespace name secret Hget Hdata.
    eexists. split; [by apply EnsureSecretChecksumAnnotation_ok|].
    rewrite Hdata, ComputeChecksum_fooBar. split; [|done].
    unfold SetMetaDataAnnotation; simpl. apply lookup_insert_eq.
  - intros template c1 c2 namespace name secret1 secret2 H1 H2 Hdata.
    rewrite (EnsureSecretChecksumAnnotation_ok _ _ _ _ _ H1).
    rewrite (EnsureSecretChecksumAnnotation_ok _ _ _ _ _ H2).
    by rewrite Hdata.
Qed.

(** The Secret of the tests, fetched by the sample client. *)
Lemma checksum_annotation_deterministic_witness :
  exists template',
    EnsureSecretChecksumAnnotation
      {| Annotations := None; Spec := {| Containers := []; Volumes := [] |} |}
      sample.client "test" "etcd-backup" = Ok template' /\
    Annotations template' ≫= (fun m => m !! "checksum/secret-etcd-backup")
      = Some fooBarDigest /\
    Spec template' = {| Containers := []; Volumes := [] |}.
Proof.
  apply (proj1 (proj2 (proj2 checksum_annotation_deterministic))) with sample.secret;
    reflexivity.
Defined.

End Checksum.

(** ** The mutation dispatcher *)

Section Dispatcher.
Import genericmutator.
Context `{!OSCNames}.

Lemma not_routed kind name n :
  recognized kind name = false -> (kind, n) ∈ routes -> name ≠ n.
Proof.
  unfold recognized. intros [_ Hr%bool_decide_eq_false]%orb_false_iff Hin ->. done.
Qed.

(** C2. Pass-through. An object whose (kind, name) pair is not in the
    dispatcher's routing table is returned unchanged and without error,
    whatever the ensurer, the codecs and the client of the mutator are:
    none of them is consulted. *)
Theorem Mutate_pass_through (m : mutator) (obj : Object) :
  recognized (kindOf obj) (nameOf obj) = false ->
  Mutate m obj = Ok obj.
Proof.
  intros Hrec. destruct obj as [svc|dep|ss|osc|kind name]; simpl in *.
  - rewrite decide_False; [done|].
    apply (not_routed _ _ _ Hrec). unfold routes. set_solver.
  - rewrite !decide_False; [done|..];
      apply (not_routed _ _ _ Hrec); unfold routes; set_solver.
  - rewrite decide_False; [done|].
    intros [Hn|Hn]; revert Hn; apply (not_routed _ _ _ Hrec); unfold routes; set_solver.
  - discriminate Hrec.
  - done.
Qed.

End Dispatcher.

(** The three objects the dispatcher's tests expect to be ignored, given
    to a mutator all of whose collaborators fail when called. *)
Lemma Mutate_pass_through_witness :
  let svc := genericmutator.ObjService {| svcName := "test"; svcNamespace := EmptyString |} in
  let template := {| Annotations := None; Spec := {| Containers := []; Volumes := [] |} |} in
  let dep := genericmutator.ObjDeployment {| depName := "test"; depNamespace := EmptyString;
                              depTemplate := template |} in
  let ss := genericmutator.ObjStatefulSet (sample.statefulSet "test" []) in
  @genericmutator.Mutate sample.oscNames sample.unusableMutator svc = Ok svc /\
  @genericmutator.Mutate sample.oscNames sample.unusableMutator dep = Ok dep /\
  @genericmutator.Mutate sample.oscNames sample.unusableMutator ss = Ok ss.
Proof.
  intros svc template dep ss.
  split; [|split]; apply Mutate_pass_through; reflexivity.
Defined.

(** ** The AWS control-plane backup ensurer *)

Section BackupEnsurer.
Import extensionswebhook controlplane controlplanebackup.
Context `{!ClusterAccessors, !AwsNames, !BackupHelpers}.
Implicit Types (e : ensurer) (ss : StatefulSet) (cluster : Cluster).

Lemma Wrapf_Ok {A : Type} msg (m : result A) a : Wrapf msg m = Ok a <-> m = Ok a.
Proof. destruct m; simpl; split; congruence. Qed.

(** [ensureBackupRestoreContainer], argument by argument. *)
Lemma ensureBackupRestoreContainer_eq e existing name cluster :
  ensureBackupRestoreContainer e existing name cluster
  = (image ← Wrapf ("could not find image " +:+ ETCDBackupRestoreImageName)
               (imageVector e ETCDBackupRestoreImageName (GetKubernetesVersion cluster));
     schedule ← chosenSchedule e existing cluster;
     Ok (GetBackupRestoreContainer name
           (if decide (name = StatefulSetNameETCDMain)
            then EtcdMainVolumeClaimTemplateName else name)
           schedule
           (if decide (name = StatefulSetNameETCDMain)
            then if IsSeedBackupNil cluster then EmptyString else StorageProviderName
            else EmptyString)
           (if decide (name = StatefulSetNameETCDMain)
            then if IsSeedBackupNil cluster then EmptyString
                 else GenerateBackupEntryName (GetTechnicalID cluster) (GetUID cluster)
            else EmptyString)
           image None
           (if decide (name = StatefulSetNameETCDMain)
            then if IsSeedBackupNil cluster then [] else backupEnv
            else [])
           [])).
Proof.
  unfold ensureBackupRestoreContainer, chosenSchedule.
  destruct (Wrapf _ _) as [image|msg]; [|done]. cbn [mbind result_bind].
  destruct (decide (name = StatefulSetNameETCDMain));
    destruct (IsSeedBackupNil cluster); reflexivity.
Qed.

Lemma EnsureETCDStatefulSet_eq e ss cluster :
  EnsureETCDStatefulSet e ss cluster
  = (c ← ensureBackupRestoreContainer e
           (ContainerWithName (Containers (Spec (ssTemplate ss))) BackupRestoreContainerName)
           (ssName ss) cluster;
     template ←
       ensureChecksumAnnotations e
         {| Annotations := Annotations (ssTemplate ss);
            Spec := {| Containers := EnsureContainerWithName (Containers (Spec (ssTemplate ss))) c;
                       Volumes := Volumes (Spec (ssTemplate ss)) |} |}
         (ssNamespace ss) (ssName ss) (negb (IsSeedBackupNil cluster));
     Ok {| ssName := ssName ss; ssNamespace := ssNamespace ss; ssTemplate := template |}).
Proof.
  unfold EnsureETCDStatefulSet, ensureContainers.
  by destruct (ensureBackupRestoreContainer _ _ _ _).
Qed.

Lemma ensureChecksumAnnotations_none e template namespace name configured :
  name ≠ StatefulSetNameETCDMain \/ configured = false ->
  ensureChecksumAnnotations e template namespace name configured = Ok template.
Proof.
  unfold ensureChecksumAnnotations. intros [Hn| ->].
  - by rewrite bool_decide_eq_false_2.
  - by rewrite andb_false_r.
Qed.

Lemma ensureChecksumAnnotations_main e template namespace secret :
  client e namespace BackupSecretName = Ok secret ->
  ensureChecksumAnnotations e template namespace StatefulSetNameETCDMain true
  = Ok (SetMetaDataAnnotation template ("checksum/secret-" +:+ BackupSecretName)
          (ComputeChecksum (secData secret))).
Proof.
  intros Hget. unfold ensureChecksumAnnotations.
  rewrite bool_decide_eq_true_2 by done. simpl.
  by apply EnsureSecretChecksumAnnotation_ok.
Qed.

(** C7. Backup-schedule precedence. Once the image is found, the sidecar
    is built from settings that do not depend on the schedule, and: with
    an explicit schedule in the ETCDBackup configuration it is built with
    that schedule, whatever the default computation would answer (even an
    error); without one, its schedule is the answer of
    [DetermineBackupSchedule] on the existing container and the cluster,
    and of nothing else. *)
Theorem backup_schedule_precedence e existing name cluster image :
  imageVector e ETCDBackupRestoreImageName (GetKubernetesVersion cluster) = Ok image ->
  exists volumeClaimTemplateName provider prefix env,
    (forall schedule, etcdBackup e = Some {| Schedule := Some schedule |} ->
       ensureBackupRestoreContainer e existing name cluster
       = Ok (GetBackupRestoreContainer name volumeClaimTemplateName schedule provider
               prefix image None env [])) /\
    (etcdBackup e = None \/ etcdBackup e = Some {| Schedule := None |} ->
       ensureBackupRestoreContainer e existing name cluster
       = (schedule ← DetermineBackupSchedule existing cluster;
          Ok (GetBackupRestoreContainer name volumeClaimTemplateName schedule provider
                prefix image None env []))).
Proof.
  intros Himage. rewrite ensureBackupRestoreContainer_eq, Himage.
  do 4 eexists. unfold chosenSchedule. split.
  - intros schedule ->. reflexivity.
  - intros [-> | ->]; reflexivity.
Qed.

(** C4. Conditional backup injection for [etcd-main]. When the image is
    found and the schedule determined: with a nil backup spec on the Seed
    the sidecar is built with empty provider, prefix and environment, and
    the annotations of the pod template are left as they were; with a
    backup spec, and the backup Secret fetched, the sidecar is built with
    the storage provider name, the prefix [<technical ID>--<UID>] and
    the four variables [STORAGE_CONTAINER], [AWS_REGION],
    [AWS_ACCESS_KEY_ID] and [AWS_SECRET_ACCESS_KEY], in this order, each
    with no value of its own and a reference to its key of the backup
    Secret, and the checksum of the Secret's data is written under
    [checksum/secret-<backup secret>]. In both cases the sidecar is
    upserted into the containers and the volumes are untouched. *)
Theorem EnsureETCDStatefulSet_etcd_main e ss cluster image schedule :
  ssName ss = StatefulSetNameETCDMain ->
  imageVector e ETCDBackupRestoreImageName (GetKubernetesVersion cluster) = Ok image ->
  chosenSchedule e
    (ContainerWithName (Containers (Spec (ssTemplate ss))) BackupRestoreContainerName)
    cluster = Ok schedule ->
  (IsSeedBackupNil cluster = true ->
     let sidecar :=
       GetBackupRestoreContainer StatefulSetNameETCDMain EtcdMainVolumeClaimTemplateName
         schedule EmptyString EmptyString image None [] [] in
     EnsureETCDStatefulSet e ss cluster
     = Ok {| ssName := ssName ss; ssNamespace := ssNamespace ss;
             ssTemplate :=
               {| Annotations := Annotations (ssTemplate ss);
                  Spec := {| Containers :=
                               EnsureContainerWithName (Containers (Spec (ssTemplate ss))) sidecar;
                             Volumes := Volumes (Spec (ssTemplate ss)) |} |} |}) /\
  (IsSeedBackupNil cluster = false ->
     forall secret, client e (ssNamespace ss) BackupSecretName = Ok secret ->
     let sidecar :=
       GetBackupRestoreContainer StatefulSetNameETCDMain EtcdMainVolumeClaimTemplateName
         schedule StorageProviderName
         (GetTechnicalID cluster +:+ "--" +:+ GetUID cluster) image None
         [ {| evName := "STORAGE_CONTAINER"; evValue := EmptyString;
              evValueFrom :=
                Some {| SecretKeyRef :=
                          Some {| sksName := BackupSecretName; sksKey := BucketName |} |} |};
           {| evName := "AWS_REGION"; evValue := EmptyString;
              evValueFrom :=
                Some {| SecretKeyRef :=
                          Some {| sksName := BackupSecretName; sksKey := Region |} |} |};
           {| evName := "AWS_ACCESS_KEY_ID"; evValue := EmptyString;
              evValueFrom :=
                Some {| SecretKeyRef :=
                          Some {| sksName := BackupSecretName; sksKey := AccessKeyID |} |} |};
           {| evName := "AWS_SECRET_ACCESS_KEY"; evValue := EmptyString;
              evValueFrom :=
                Some {| SecretKeyRef :=
                          Some {| sksName := BackupSecretName;
                                  sksKey := SecretAccessKey |} |} |} ] [] in
     EnsureETCDStatefulSet e ss cluster
     = Ok {| ssName := ssName ss; ssNamespace := ssNamespace ss;
             ssTemplate :=
               {| Annotations :=
                    Some (<["checksum/secret-" +:+ BackupSecretName
                            := ComputeChecksum (secData secret)]>
                            (default ∅ (Annotations (ssTemplate ss))));
                  Spec := {| Containers :=
                               EnsureContainerWithName (Containers (Spec (ssTemplate ss))) sidecar;
                             Volumes := Volumes (Spec (ssTemplate ss)) |} |} |}).
Proof.
  intros Hname Himage Hschedule.
  rewrite EnsureETCDStatefulSet_eq, ensureBackupRestoreContainer_eq.
  rewrite Himage, Hschedule, Hname. cbn [mbind result_bind Wrapf].
  rewrite !decide_True by done. split.
  - intros Hnil. rewrite Hnil. cbn [negb].
    rewrite ensureChecksumAnnotations_none by (by right). reflexivity.
  - intros Hnil secret Hget. rewrite Hnil. cbn [negb].
    rewrite (ensureChecksumAnnotations_main _ _ _ _ Hget). reflexivity.
Qed.

(** C8. For [etcd-events] (as for any name other than [etcd-main]), when
    the image is found and the schedule determined, the sidecar is built
    with empty provider, prefix and environment whether or not backup is
    configured, under a volume-claim-template name equal to the name of
    the StatefulSet; the annotations and the volumes of the pod template
    are left as they were. For [etcd-main] the volume-claim-template name
    is the dedicated constant. *)
Theorem EnsureETCDStatefulSet_etcd_events e ss cluster image schedule :
  imageVector e ETCDBackupRestoreImageName (GetKubernetesVersion cluster) = Ok image ->
  chosenSchedule e
    (ContainerWithName (Containers (Spec (ssTemplate ss))) BackupRestoreContainerName)
    cluster = Ok schedule ->
  (ssName ss = genericmutator.StatefulSetNameETCDEvents ->
     let sidecar :=
       GetBackupRestoreContainer genericmutator.StatefulSetNameETCDEvents
         genericmutator.StatefulSetNameETCDEvents schedule EmptyString EmptyString
         image None [] [] in
     EnsureETCDStatefulSet e ss cluster
     = Ok {| ssName := ssName ss; ssNamespace := ssNamespace ss;
             ssTemplate :=
               {| Annotations := Annotations (ssTemplate ss);
                  Spec := {| Containers :=
                               EnsureContainerWithName (Containers (Spec (ssTemplate ss))) sidecar;
                             Volumes := Volumes (Spec (ssTemplate ss)) |} |} |}) /\
  (ssName ss ≠ StatefulSetNameETCDMain ->
     let sidecar :=
       GetBackupRestoreContainer (ssName ss) (ssName ss) schedule EmptyString EmptyString
         image None [] [] in
     EnsureETCDStatefulSet e ss cluster
     = Ok {| ssName := ssName ss; ssNamespace := ssNamespace ss;
             ssTemplate :=
               {| Annotations := Annotations (ssTemplate ss);
                  Spec := {| Containers :=
                               EnsureContainerWithName (Containers (Spec (ssTemplate ss))) sidecar;
                             Volumes := Volumes (Spec (ssTemplate ss)) |} |} |}) /\
  (ssName ss = StatefulSetNameETCDMain ->
     exists provider prefix env,
       ensureBackupRestoreContainer e
         (ContainerWithName (Containers (Spec (ssTemplate ss))) BackupRestoreContainerName)
         (ssName ss) cluster
       = Ok (GetBackupRestoreContainer StatefulSetNameETCDMain
               EtcdMainVolumeClaimTemplateName schedule provider prefix image None env [])).
Proof.
  intros Himage Hschedule.
  assert (ssName ss ≠ StatefulSetNameETCDMain ->
          EnsureETCDStatefulSet e ss cluster
          = Ok {| ssName := ssName ss; ssNamespace := ssNamespace ss;
                  ssTemplate :=
                    {| Annotations := Annotations (ssTemplate ss);
                       Spec := {| Containers :=
                                    EnsureContainerWithName (Containers (Spec (ssTemplate ss)))
                                      (GetBackupRestoreContainer (ssName ss) (ssName ss) schedule
                                         EmptyString EmptyString image None [] []);
                                  Volumes := Volumes (Spec (ssTemplate ss)) |} |} |}) as Hother.
  { intros Hname.
    rewrite EnsureETCDStatefulSet_eq, ensureBackupRestoreContainer_eq.
    rewrite Himage, Hschedule. cbn [mbind result_bind Wrapf].
    rewrite !decide_False by done.
    rewrite ensureChecksumAnnotations_none by (by left). reflexivity. }
  split; [|split].
  - intros Hname sidecar. subst sidecar. rewrite <- Hname. apply Hother.
    rewrite Hname. discriminate.
  - exact Hother.
  - intros Hname. rewrite ensureBackupRestoreContainer_eq.
    rewrite Himage, Hschedule, Hname. cbn [mbind result_bind Wrapf].
    rewrite !decide_True by done. by do 3 eexists.
Qed.

Lemma bind_Ok {A B : Type} (m : result A) (f : A -> result B) b :
  m ≫= f = Ok b -> exists a, m = Ok a /\ f a = Ok b.
Proof. destruct m as [a|msg]; [by exists a | done]. Qed.

Lemma SetMetaDataAnnotation_idempotent template key value :
  SetMetaDataAnnotation (SetMetaDataAnnotation template key value) key value
  = SetMetaDataAnnotation template key value.
Proof. unfold SetMetaDataAnnotation; simpl. by rewrite insert_insert_eq. Qed.

(** The sidecar built on the result of a first run is the sidecar of the
    first run. *)
Lemma sidecar_rebuilt e existing name cluster c containers :
  (exists schedule, etcdBackup e = Some {| Schedule := Some schedule |})
  \/ (sidecarIsNamed /\ scheduleIsReadBack) ->
  ensureBackupRestoreContainer e existing name cluster = Ok c ->
  ensureBackupRestoreContainer e
    (ContainerWithName (EnsureContainerWithName containers c) BackupRestoreContainerName)
    name cluster = Ok c.
Proof.
  intros Hlaws. rewrite !ensureBackupRestoreContainer_eq.
  intros (image & -> & Hrest)%bind_Ok. cbn [mbind result_bind].
  apply bind_Ok in Hrest as (schedule & Hschedule & Hc).
  enough (chosenSchedule e
            (ContainerWithName (EnsureContainerWithName containers c)
               BackupRestoreContainerName) cluster = Ok schedule) as -> by done.
  unfold chosenSchedule in *.
  destruct Hlaws as [[s Hs] | [Hnamed Hread]]; [by rewrite Hs in *|].
  destruct (etcdBackup e) as [[[s|]]|]; [done | |].
  all: injection Hc as <-.
  all: unfold ContainerWithName, EnsureContainerWithName.
  all: rewrite Hnamed, firstMatching_upsert by apply Hnamed.
  all: apply Hread.
Qed.

(** C1. Idempotence of [EnsureETCDStatefulSet]. If a run on a
    StatefulSet succeeds, a second run on its result (same ensurer, same
    cluster, same answers of the client) succeeds with the same result.
    This holds for every ensurer with an explicit schedule; for one
    without, it holds as soon as the sidecar constructor and the
    default-schedule computation, which are not among the sources, build
    the sidecar under its name and read its schedule back. *)
Theorem EnsureETCDStatefulSet_idempotent e ss cluster ss' :
  (exists schedule, etcdBackup e = Some {| Schedule := Some schedule |})
  \/ (sidecarIsNamed /\ scheduleIsReadBack) ->
  EnsureETCDStatefulSet e ss cluster = Ok ss' ->
  EnsureETCDStatefulSet e ss' cluster = Ok ss'.
Proof.
  intros Hlaws. rewrite EnsureETCDStatefulSet_eq.
  intros (c & Hc & Hrest)%bind_Ok.
  apply bind_Ok in Hrest as (template & Htemplate & [= <-]).
  rewrite EnsureETCDStatefulSet_eq. cbn [ssName ssNamespace ssTemplate].
  unfold ensureChecksumAnnotations in Htemplate.
  destruct (bool_decide (ssName ss = StatefulSetNameETCDMain)
            && negb (IsSeedBackupNil cluster)) eqn:Hcond.
  - unfold EnsureSecretChecksumAnnotation in Htemplate.
    apply bind_Ok in Htemplate as (secret & Hget%Wrapf_Ok & [= <-]).
    cbn [Spec Containers Volumes Annotations SetMetaDataAnnotation].
    rewrite (sidecar_rebuilt _ _ _ _ _ _ Hlaws Hc). cbn [mbind result_bind].
    unfold EnsureContainerWithName. rewrite upsert_idempotent by reflexivity.
    unfold ensureChecksumAnnotations. rewrite Hcond.
    rewrite (EnsureSecretChecksumAnnotation_ok _ _ _ _ _ Hget). cbn [mbind result_bind].
    do 2 f_equal. unfold SetMetaDataAnnotation; simpl. by rewrite insert_insert_eq.
  - injection Htemplate as <-.
    cbn [Spec Containers Volumes Annotations].
    rewrite (sidecar_rebuilt _ _ _ _ _ _ Hlaws Hc). cbn [mbind result_bind].
    unfold EnsureContainerWithName. rewrite upsert_idempotent by reflexivity.
    unfold ensureChecksumAnnotations. rewrite Hcond. reflexivity.
Qed.

End BackupEnsurer.

(** The ensurer run on the objects of its tests. *)
Section BackupEnsurerExamples.
Import extensionswebhook controlplane controlplanebackup.
#[local] Existing Instance sample.accessors.
#[local] Existing Instance sample.awsNames.
#[local] Existing Instance sample.backupHelpers.

(** Without an explicit schedule, a StatefulSet that carries an older
    sidecar keeps that sidecar's schedule, run after run. *)
Lemma EnsureETCDStatefulSet_idempotent_witness :
  let ss := sample.statefulSet "etcd-main" [sample.oldSidecar] in
  let cluster := sample.cluster (Some {| sbProvider := "aws" |}) in
  let ss' :=
    {| ssName := "etcd-main"; ssNamespace := "test";
       ssTemplate :=
         {| Annotations :=
              Some {[ "checksum/secret-etcd-backup" := ComputeChecksum sample.fooBar ]};
            Spec :=
              {| Containers :=
                   [ GetBackupRestoreContainer "etcd-main" "main-etcd" "15 3 * * *" "S3"
                       "shoot--test--sample--test-uid" "test-repository:test-tag" None
                       backupEnv [] ];
                 Volumes := [] |} |} |} in
  EnsureETCDStatefulSet sample.ensurerWithoutSchedule ss cluster = Ok ss' /\
  EnsureETCDStatefulSet sample.ensurerWithoutSchedule ss' cluster = Ok ss'.
Proof.
  intros ss cluster ss'.
  assert (EnsureETCDStatefulSet sample.ensurerWithoutSchedule ss cluster = Ok ss') as Hfirst
    by (vm_compute; reflexivity).
  split; [exact Hfirst|].
  apply (EnsureETCDStatefulSet_idempotent _ ss); [|exact Hfirst].
  right. split; repeat intro; reflexivity.
Defined.

(** The tests' [etcd-main] StatefulSet, on a Seed without and with a
    backup spec, with the sidecar written out. *)
Lemma EnsureETCDStatefulSet_etcd_main_witness :
  let ss := sample.statefulSet "etcd-main" [] in
  EnsureETCDStatefulSet sample.ensurer ss (sample.cluster None)
  = Ok {| ssName := "etcd-main"; ssNamespace := "test";
          ssTemplate :=
            {| Annotations := None;
               Spec :=
                 {| Containers :=
                      [ {| cName := "backup-restore";
                           cImage := "test-repository:test-tag";
                           cCommand :=
                             [ "etcdbrctl"; "server"; "--schedule=0 */24 * * *";
                               "--storage-provider="; "--store-prefix=/etcd-main" ];
                           cEnv := [];
                           cVolumeMounts :=
                             [ {| vmName := "main-etcd";
                                  vmMountPath := "/var/etcd/data" |} ] |} ];
                    Volumes := [] |} |} |} /\
  EnsureETCDStatefulSet sample.ensurer ss (sample.cluster (Some {| sbProvider := "aws" |}))
  = Ok {| ssName := "etcd-main"; ssNamespace := "test";
          ssTemplate :=
            {| Annotations :=
                 Some {[ "checksum/secret-etcd-backup"
                         := "8bafb35ff1ac60275d62e1cbd495aceb511fb354f74a20f7d06ecb48b3a68432" ]};
               Spec :=
                 {| Containers :=
                      [ {| cName := "backup-restore";
                           cImage := "test-repository:test-tag";
                           cCommand :=
                             [ "etcdbrctl"; "server"; "--schedule=0 */24 * * *";
                               "--storage-provider=S3";
                               "--store-prefix=shoot--test--sample--test-uid/etcd-main" ];
                           cEnv :=
                             [ {| evName := "STORAGE_CONTAINER"; evValue := EmptyString;
                                  evValueFrom :=
                                    Some {| SecretKeyRef :=
                                              Some {| sksName := "etcd-backup";
                                                      sksKey := "bucketName" |} |} |};
                               {| evName := "AWS_REGION"; evValue := EmptyString;
                                  evValueFrom :=
                                    Some {| SecretKeyRef :=
                                              Some {| sksName := "etcd-backup";
                                                      sksKey := "region" |} |} |};
                               {| evName := "AWS_ACCESS_KEY_ID"; evValue := EmptyString;
                                  evValueFrom :=
                                    Some {| SecretKeyRef :=
                                              Some {| sksName := "etcd-backup";
                                                      sksKey := "accessKeyID" |} |} |};
                               {| evName := "AWS_SECRET_ACCESS_KEY"; evValue := EmptyString;
                                  evValueFrom :=
                                    Some {| SecretKeyRef :=
                                              Some {| sksName := "etcd-backup";
                                                      sksKey := "secretAccessKey" |} |} |} ];
                           cVolumeMounts :=
                             [ {| vmName := "main-etcd";
                                  vmMountPath := "/var/etcd/data" |} ] |} ];
                    Volumes := [] |} |} |}.
Proof.
  intros ss. split.
  - etrans.
    + exact (proj1 (EnsureETCDStatefulSet_etcd_main sample.ensurer ss (sample.cluster None)
                      "test-repository:test-tag" "0 */24 * * *" eq_refl eq_refl eq_refl)
               eq_refl).
    + vm_compute. reflexivity.
  - etrans.
    + exact (proj2 (EnsureETCDStatefulSet_etcd_main sample.ensurer ss
                      (sample.cluster (Some {| sbProvider := "aws" |}))
                      "test-repository:test-tag" "0 */24 * * *" eq_refl eq_refl eq_refl)
               eq_refl sample.secret eq_refl).
    + vm_compute. reflexivity.
Defined.

(** The explicit schedule of the tests wins over the schedule that the
    default computation reads from an older sidecar. *)
Lemma backup_schedule_precedence_witness :
  let cluster := sample.cluster None in
  DetermineBackupSchedule (Some sample.oldSidecar) cluster = Ok "15 3 * * *" /\
  exists volumeClaimTemplateName provider prefix env,
    ensureBackupRestoreContainer sample.ensurer (Some sample.oldSidecar) "etcd-main" cluster
    = Ok (GetBackupRestoreContainer "etcd-main" volumeClaimTemplateName "0 */24 * * *"
            provider prefix "test-repository:test-tag" None env []).
Proof.
  intros cluster. split; [reflexivity|].
  assert (imageVector sample.ensurer ETCDBackupRestoreImageName (GetKubernetesVersion cluster)
          = Ok "test-repository:test-tag") as Himage by reflexivity.
  destruct (backup_schedule_precedence sample.ensurer (Some sample.oldSidecar) "etcd-main"
              cluster "test-repository:test-tag" Himage)
    as (volumeClaimTemplateName & provider & prefix & env & Hexplicit & _).
  exists volumeClaimTemplateName, provider, prefix, env.
  apply Hexplicit. reflexivity.
Defined.

(** The tests' [etcd-events] StatefulSet, on a Seed with a backup spec. *)
Lemma EnsureETCDStatefulSet_etcd_events_witness :
  EnsureETCDStatefulSet sample.ensurer (sample.statefulSet "etcd-events" [])
    (sample.cluster (Some {| sbProvider := "aws" |}))
  = Ok {| ssName := "etcd-events"; ssNamespace := "test";
          ssTemplate :=
            {| Annotations := None;
               Spec :=
                 {| Containers :=
                      [ GetBackupRestoreContainer "etcd-events" "etcd-events" "0 */24 * * *"
                          EmptyString EmptyString "test-repository:test-tag" None [] [] ];
                    Volumes := [] |} |} |}.
Proof.
  exact (proj1 (EnsureETCDStatefulSet_etcd_events sample.ensurer
                  (sample.statefulSet "etcd-events" [])
                  (sample.cluster (Some {| sbProvider := "aws" |}))
                  "test-repository:test-tag" "0 */24 * * *" eq_refl eq_refl)
           eq_refl).
Defined.

End BackupEnsurerExamples.

(** ** The OpenStack values provider *)

Section ValuesProvider.
Import openstack.
Context `{!ClusterAccessors}.
Implicit Types (values : gmap string Value) (classes : list LoadBalancerClass).

Lemma SetStringValue_lookup_ne {V : Type} (inj : string -> V) (m : gmap string V)
    key value k :
  k ≠ key -> SetStringValue inj m key value !! k = m !! k.
Proof.
  intros Hk. unfold SetStringValue. destruct value as [v|]; [|done].
  destruct (IsEmptyString (Some v)); [done|]. by rewrite lookup_insert_ne.
Qed.

Lemma SetStringValue_lookup {V : Type} (inj : string -> V) (m : gmap string V) key value :
  SetStringValue inj m key value !! key
  = if IsEmptyString value then m !! key else inj <$> value.
Proof.
  unfold SetStringValue. destruct value as [v|]; [|done].
  destruct (IsEmptyString (Some v)); [done|]. by rewrite lookup_insert_eq.
Qed.

Lemma applyDefaultClass_lookup_ne classes values k :
  k ≠ "floatingNetworkID" -> k ≠ "floatingSubnetID" -> k ≠ "subnetID" ->
  applyDefaultClass classes values !! k = values !! k.
Proof.
  intros H1 H2 H3. induction classes as [|class rest IH]; simpl; [done|].
  destruct (decide (Name class = DefaultLoadBalancerClass)); [|done].
  by rewrite !SetStringValue_lookup_ne.
Qed.

Lemma applyPrivateClass_lookup_ne classes values k :
  k ≠ "subnetID" -> applyPrivateClass classes values !! k = values !! k.
Proof.
  intros H1. induction classes as [|class rest IH]; simpl; [done|].
  destruct (decide (Name class = PrivateLoadBalancerClass)); [|done].
  by rewrite SetStringValue_lookup_ne.
Qed.

(** The loop over the classes stops at the first one named [default]. *)
Lemma applyDefaultClass_first (before : list LoadBalancerClass) class after values :
  Forall (fun x => Name x ≠ DefaultLoadBalancerClass) before ->
  Name class = DefaultLoadBalancerClass ->
  applyDefaultClass (before ++ class :: after)%list values
  = SetStringValue VString
      (SetStringValue VString
         (SetStringValue VString values "floatingNetworkID" (FloatingNetworkID class))
         "floatingSubnetID" (FloatingSubnetID class))
      "subnetID" (SubnetID class).
Proof.
  intros Hbefore Hclass. induction Hbefore as [|x before Hx _ IH]; simpl.
  - by rewrite decide_True.
  - by rewrite decide_False.
Qed.

(** Run [getConfigChartValues] up to the assembly of the values, once
    the nodes subnet is known. *)
Ltac run_getConfigChartValues Hsubnet :=
  unfold getConfigChartValues; rewrite Hsubnet; cbn [Wrapf mbind result_bind];
  destruct (profileSettings _ _) as [[?keyStoneURL ?dhcpDomain] ?requestTimeout] eqn:?Hsettings.

Lemma floatingClasses_lookup_ne values (floatingClasses : list (gmap string string)) k :
  k ≠ "floatingClasses" ->
  match floatingClasses with
  | [] => values
  | _ => <["floatingClasses" := VFloatingClasses floatingClasses]> values
  end !! k = values !! k.
Proof. intros Hk. destruct floatingClasses; [done|]. by rewrite lookup_insert_ne. Qed.

(** C9 (as amended). In the values of the config chart the keys
    [dhcpDomain] and [requestTimeout] are always present; each holds the
    string pointer of the selected cloud profile settings, which is nil
    when the optional field is absent (and when no profile is
    available), never an empty string put in its place. *)
Theorem getConfigChartValues_optional_fields cpConfig infraStatus cloudProfileConfig
    cp c cluster subnet :
  FindSubnetByPurpose (Subnets infraStatus) PurposeNodes = Ok subnet ->
  exists values,
    getConfigChartValues cpConfig infraStatus cloudProfileConfig cp c cluster = Ok values /\
    values !! "dhcpDomain"
      = Some (VStringPtr (profileSettings cloudProfileConfig cluster).1.2) /\
    values !! "requestTimeout"
      = Some (VStringPtr (profileSettings cloudProfileConfig cluster).2) /\
    (forall config,
       CloudProfile cluster = None -> CoreCloudProfile cluster ≠ None ->
       cloudProfileConfig = Some config ->
       (DHCPDomain config = None -> values !! "dhcpDomain" = Some (VStringPtr None)) /\
       (RequestTimeout config = None -> values !! "requestTimeout" = Some (VStringPtr None))).
Proof.
  intros Hsubnet. run_getConfigChartValues Hsubnet.
  eexists. split; [reflexivity|].
  assert (forall k v, k ≠ "floatingNetworkID" -> k ≠ "floatingSubnetID" ->
                      k ≠ "subnetID" -> k ≠ "floatingClasses" ->
                      forall base : gmap string Value, base !! k = Some v ->
                      forall classes (floatingClasses : list (gmap string string)),
                        match floatingClasses with
                        | [] => applyPrivateClass classes (applyDefaultClass classes base)
                        | _ => <["floatingClasses" := VFloatingClasses floatingClasses]>
                                 (applyPrivateClass classes (applyDefaultClass classes base))
                        end !! k = Some v) as Hkeep.
  { intros k v H1 H2 H3 H4 base Hbase classes floatingClasses.
    rewrite floatingClasses_lookup_ne, applyPrivateClass_lookup_ne,
      applyDefaultClass_lookup_ne by done. done. }
  split; [|split].
  - apply Hkeep; [done..|]. reflexivity.
  - apply Hkeep; [done..|]. reflexivity.
  - intros config Hlegacy Hcore ->. unfold profileSettings in Hsettings.
    rewrite Hlegacy in Hsettings.
    destruct (CoreCloudProfile cluster); [|done].
    injection Hsettings as <- <- <-.
    split; intros ->; (apply Hkeep; [done..|]); reflexivity.
Qed.

(** C3 (as amended). Load-balancer-class resolution is first-match-wins:
    when several classes are named [default], the values reflect the
    first of them in input order. Its floating subnet ID is written under
    [floatingSubnetID] when it is not empty (the key is absent when it
    is), and its floating network ID replaces the floating pool ID under
    [floatingNetworkID] when it is not empty; later classes of the same
    name have no part in these keys. *)
Theorem getConfigChartValues_first_default_class cpConfig infraStatus cloudProfileConfig
    cp c cluster subnet (before : list LoadBalancerClass) (class : LoadBalancerClass)
    (after : list LoadBalancerClass) :
  FindSubnetByPurpose (Subnets infraStatus) PurposeNodes = Ok subnet ->
  effectiveLoadBalancerClasses cpConfig infraStatus cloudProfileConfig cluster
    = Some (before ++ class :: after)%list ->
  Forall (fun x => Name x ≠ DefaultLoadBalancerClass) before ->
  Name class = DefaultLoadBalancerClass ->
  exists values,
    getConfigChartValues cpConfig infraStatus cloudProfileConfig cp c cluster = Ok values /\
    values !! "floatingSubnetID"
      = (if IsEmptyString (FloatingSubnetID class) then None
         else VString <$> FloatingSubnetID class) /\
    values !! "floatingNetworkID"
      = (if IsEmptyString (FloatingNetworkID class)
         then Some (VString (FloatingPoolID infraStatus))
         else VString <$> FloatingNetworkID class).
Proof.
  intros Hsubnet Hclasses Hbefore Hclass. run_getConfigChartValues Hsubnet.
  rewrite Hclasses. cbn [default from_option id].
  eexists. split; [reflexivity|]. cbv zeta.
  rewrite !floatingClasses_lookup_ne, !applyPrivateClass_lookup_ne by done.
  rewrite (applyDefaultClass_first _ _ _ _ Hbefore Hclass). split.
  - rewrite SetStringValue_lookup_ne, SetStringValue_lookup by done.
    destruct (IsEmptyString (FloatingSubnetID class)); [|done].
    by rewrite SetStringValue_lookup_ne.
  - rewrite !SetStringValue_lookup_ne, SetStringValue_lookup by done.
    by destruct (IsEmptyString (FloatingNetworkID class)).
Qed.

(** C10. The floating classes of the config chart values. When the nodes
    subnet is found, the key [floatingClasses] is present exactly when
    there is at least one load-balancer class, and then holds one map per
    class, in order. The map of a class has its name; its
    [floatingNetworkID] is the floating pool ID of the infrastructure
    status when the class has a floating subnet ID and no floating
    network ID, else the class's own floating network ID when that is not
    empty, else the key is absent. *)
Theorem getConfigChartValues_floating_classes cpConfig infraStatus cloudProfileConfig
    cp c cluster subnet :
  FindSubnetByPurpose (Subnets infraStatus) PurposeNodes = Ok subnet ->
  let classes :=
    default [] (effectiveLoadBalancerClasses cpConfig infraStatus cloudProfileConfig cluster) in
  exists values,
    getConfigChartValues cpConfig infraStatus cloudProfileConfig cp c cluster = Ok values /\
    (is_Some (values !! "floatingClasses") <-> classes ≠ []) /\
    (classes ≠ [] ->
       values !! "floatingClasses"
       = Some (VFloatingClasses (floatingClassOf infraStatus <$> classes))) /\
    (forall class, class ∈ classes ->
       let floatingClass := floatingClassOf infraStatus class in
       floatingClass !! "name" = Some (Name class) /\
       (IsEmptyString (FloatingSubnetID class) = false ->
        IsEmptyString (FloatingNetworkID class) = true ->
        floatingClass !! "floatingNetworkID" = Some (FloatingPoolID infraStatus)) /\
       (IsEmptyString (FloatingNetworkID class) = false ->
        floatingClass !! "floatingNetworkID" = FloatingNetworkID class) /\
       (IsEmptyString (FloatingSubnetID class) = true ->
        IsEmptyString (FloatingNetworkID class) = true ->
        floatingClass !! "floatingNetworkID" = None)).
Proof.
  intros Hsubnet classes. run_getConfigChartValues Hsubnet. fold classes.
  eexists. split; [reflexivity|]. cbv zeta.
  split; [|split].
  - destruct classes as [|class rest]; cbn [fmap list_fmap].
    + rewrite applyPrivateClass_lookup_ne, applyDefaultClass_lookup_ne by done.
      split; [intros [v Hv]; discriminate Hv | done].
    + rewrite lookup_insert_eq. split; [done | by eexists].
  - destruct classes as [|class rest]; [done|]. intros _.
    cbn [fmap list_fmap]. by rewrite lookup_insert_eq.
  - intros class _. unfold floatingClassOf.
    split; [|split; [|split]].
    + rewrite !SetStringValue_lookup_ne by done.
      destruct (negb _ && _); [by rewrite lookup_insert_ne|].
      by rewrite SetStringValue_lookup_ne.
    + intros -> ->. cbn [negb andb].
      rewrite !SetStringValue_lookup_ne by done. by rewrite lookup_insert_eq.
    + intros Hnet. rewrite Hnet, andb_false_r.
      rewrite !SetStringValue_lookup_ne, SetStringValue_lookup, Hnet by done.
      by destruct (FloatingNetworkID class).
    + intros -> Hnet. rewrite Hnet. cbn [negb andb].
      rewrite !SetStringValue_lookup_ne, SetStringValue_lookup, Hnet by done.
      done.
Qed.

End ValuesProvider.

(** The values provider run on sample objects. *)
Section ValuesProviderExamples.
Import openstack.
#[local] Existing Instance sample.accessors.

(** Two classes named [default] with different floating subnet IDs: the
    values carry the floating subnet ID of the first one, not of the
    last. *)
Lemma getConfigChartValues_last_default_class_counterexample :
  exists values,
    getConfigChartValues
      (sample.cpConfig (Some [sample.firstDefault; sample.secondDefault]))
      sample.infraStatus (Some sample.cloudProfileConfig) sample.controlPlane
      sample.credentials sample.coreCluster = Ok values /\
    FloatingSubnetID sample.secondDefault = Some "floating-subnet-2" /\
    values !! "floatingSubnetID" = Some (VString "floating-subnet-1") /\
    values !! "floatingSubnetID" ≠ Some (VString "floating-subnet-2").
Proof.
  eexists. split; [reflexivity|]. split; [reflexivity|].
  assert (forall (m : gmap string Value) x y, m !! "floatingSubnetID" = Some (VString x) ->
            x ≠ y -> m !! "floatingSubnetID" ≠ Some (VString y)) as Hne
    by (intros m x y -> Hxy [= ?]; done).
  split; [vm_compute; reflexivity|].
  apply Hne with "floating-subnet-1"; [vm_compute; reflexivity | discriminate].
Qed.

Lemma getConfigChartValues_first_default_class_witness :
  exists values,
    getConfigChartValues
      (sample.cpConfig (Some [sample.firstDefault; sample.secondDefault]))
      sample.infraStatus (Some sample.cloudProfileConfig) sample.controlPlane
      sample.credentials sample.coreCluster = Ok values /\
    values !! "floatingSubnetID" = Some (VString "floating-subnet-1") /\
    values !! "floatingNetworkID" = Some (VString "floating-network-id").
Proof.
  apply (getConfigChartValues_first_default_class
           (sample.cpConfig (Some [sample.firstDefault; sample.secondDefault]))
           sample.infraStatus (Some sample.cloudProfileConfig) sample.controlPlane
           sample.credentials sample.coreCluster
           {| subnetPurpose := "nodes"; subnetID := "subnet-id" |}
           [] sample.firstDefault [sample.secondDefault]);
    [reflexivity | reflexivity | constructor | reflexivity].
Defined.

(** A cloud profile configuration with neither a DHCP domain nor a
    request timeout: both keys are in the values, holding nil. *)
Lemma getConfigChartValues_absent_keys_counterexample :
  exists values,
    getConfigChartValues (sample.cpConfig None) sample.infraStatus
      (Some sample.cloudProfileConfig) sample.controlPlane sample.credentials
      sample.coreCluster = Ok values /\
    DHCPDomain sample.cloudProfileConfig = None /\
    RequestTimeout sample.cloudProfileConfig = None /\
    values !! "dhcpDomain" = Some (VStringPtr None) /\
    values !! "requestTimeout" = Some (VStringPtr None) /\
    "dhcpDomain" ∈ dom values /\ "requestTimeout" ∈ dom values.
Proof.
  eexists. split; [reflexivity|]. split; [reflexivity|]. split; [reflexivity|].
  assert (forall (m : gmap string Value) k v, m !! k = Some v -> k ∈ dom m) as Hdom
    by (intros m k v Hk; apply elem_of_dom; by eexists).
  split; [vm_compute; reflexivity|]. split; [vm_compute; reflexivity|].
  split; eapply Hdom; vm_compute; reflexivity.
Qed.

Lemma getConfigChartValues_optional_fields_witness :
  exists values,
    getConfigChartValues (sample.cpConfig None) sample.infraStatus
      (Some sample.cloudProfileConfig) sample.controlPlane sample.credentials
      sample.coreCluster = Ok values /\
    values !! "dhcpDomain" = Some (VStringPtr None) /\
    values !! "requestTimeout" = Some (VStringPtr None).
Proof.
  destruct (getConfigChartValues_optional_fields (sample.cpConfig None) sample.infraStatus
              (Some sample.cloudProfileConfig) sample.controlPlane sample.credentials
              sample.coreCluster {| subnetPurpose := "nodes"; subnetID := "subnet-id" |}
              eq_refl)
    as (values & Hvalues & Hdhcp & Htimeout & _).
  exists values. split; [exact Hvalues|]. split; [exact Hdhcp | exact Htimeout].
Defined.

(** Two classes, the first with a floating subnet and no floating
    network: its map takes the floating pool ID of the status. *)
Lemma getConfigChartValues_floating_classes_witness :
  exists values,
    getConfigChartValues
      (sample.cpConfig (Some [sample.firstDefault; sample.secondDefault]))
      sample.infraStatus (Some sample.cloudProfileConfig) sample.controlPlane
      sample.credentials sample.coreCluster = Ok values /\
    values !! "floatingClasses"
    = Some (VFloatingClasses
              [ floatingClassOf sample.infraStatus sample.firstDefault;
                floatingClassOf sample.infraStatus sample.secondDefault ]) /\
    floatingClassOf sample.infraStatus sample.firstDefault !! "floatingNetworkID"
    = Some "floating-network-id".
Proof.
  destruct (getConfigChartValues_floating_classes
              (sample.cpConfig (Some [sample.firstDefault; sample.secondDefault]))
              sample.infraStatus (Some sample.cloudProfileConfig) sample.controlPlane
              sample.credentials sample.coreCluster
              {| subnetPurpose := "nodes"; subnetID := "subnet-id" |} eq_refl)
    as (values & Hvalues & _ & Hpresent & Hclass).
  exists values. split; [exact Hvalues|]. split.
  - apply Hpresent. discriminate.
  - apply (Hclass sample.firstDefault); [|reflexivity..].
    apply list_elem_of_here.
Defined.

End ValuesProviderExamples.

(** * Further properties *)

(** ** The backup ensurer: failures, frame, repair *)

Section BackupEnsurerMore.
Import extensionswebhook controlplane controlplanebackup.
Context `{!ClusterAccessors, !AwsNames, !BackupHelpers}.
Implicit Types (e : ensurer) (ss : StatefulSet) (cluster : Cluster).

Lemma string_app_assoc (a b c : string) : (a +:+ b) +:+ c = a +:+ b +:+ c.
Proof.
  induction a as [|x a IH]; [done|].
  change (String x ((a +:+ b) +:+ c) = String x (a +:+ b +:+ c)). by f_equal.
Qed.

Lemma Wrapf_Err {A : Type} msg (m : result A) cause :
  m = Err cause -> Wrapf msg m = Err (msg +:+ ": " +:+ cause).
Proof. by intros ->. Qed.

(** X1. The failures of [EnsureETCDStatefulSet], in the order the code
    meets them. A missing image is reported as [could not find image
    <name>: <cause>] whatever the schedule and the Secret are; with the
    image found, a failure of the schedule computation is returned as it
    is; with both in hand the containers are ensured, and only
    [etcd-main] with a backup spec can still fail, when the checksum
    annotation of the backup Secret cannot be ensured on the resulting
    template, with that error returned as it is; in every other case
    the call succeeds. *)
Theorem EnsureETCDStatefulSet_failures e ss cluster :
  let existing :=
    ContainerWithName (Containers (Spec (ssTemplate ss))) BackupRestoreContainerName in
  let found := imageVector e ETCDBackupRestoreImageName (GetKubernetesVersion cluster) in
  (forall cause, found = Err cause ->
     EnsureETCDStatefulSet e ss cluster
     = Err ("could not find image " +:+ ETCDBackupRestoreImageName +:+ ": " +:+ cause)) /\
  (forall image cause, found = Ok image ->
     chosenSchedule e existing cluster = Err cause ->
     EnsureETCDStatefulSet e ss cluster = Err cause) /\
  (forall image schedule, found = Ok image ->
     chosenSchedule e existing cluster = Ok schedule ->
     exists ps,
       ensureContainers e (Spec (ssTemplate ss)) (ssName ss) cluster = Ok ps /\
       let annotated :=
         EnsureSecretChecksumAnnotation
           {| Annotations := Annotations (ssTemplate ss); Spec := ps |}
           (client e) (ssNamespace ss) BackupSecretName in
       (ssName ss = StatefulSetNameETCDMain -> IsSeedBackupNil cluster = false ->
        forall cause, annotated = Err cause ->
        EnsureETCDStatefulSet e ss cluster = Err cause) /\
       (ssName ss ≠ StatefulSetNameETCDMain \/ IsSeedBackupNil cluster = true
        \/ isOk annotated = true ->
        exists ss', EnsureETCDStatefulSet e ss cluster = Ok ss')).
Proof.
  intros existing found. subst existing found.
  split; [|split].
  - intros cause Hfound.
    rewrite EnsureETCDStatefulSet_eq, ensureBackupRestoreContainer_eq.
    by rewrite (Wrapf_Err _ _ _ Hfound).
  - intros image cause Hfound Hschedule.
    rewrite EnsureETCDStatefulSet_eq, ensureBackupRestoreContainer_eq.
    by rewrite Hfound, Hschedule.
  - intros image schedule Hfound Hschedule. unfold EnsureETCDStatefulSet.
    destruct (ensureContainers e (Spec (ssTemplate ss)) (ssName ss) cluster)
      as [ps|msg] eqn:Hensured.
    2: { unfold ensureContainers in Hensured.
         rewrite ensureBackupRestoreContainer_eq, Hfound, Hschedule in Hensured.
         discriminate Hensured. }
    exists ps. split; [done|]. cbv zeta. cbn [mbind result_bind]. split.
    + intros Hname Hconfigured cause Hannotated. unfold ensureChecksumAnnotations.
      rewrite bool_decide_eq_true_2, Hconfigured by done. cbn [negb andb].
      by rewrite Hannotated.
    + intros [Hname | [Hnil | Hannotated]].
      * rewrite ensureChecksumAnnotations_none by (by left). by eexists.
      * rewrite Hnil, ensureChecksumAnnotations_none by (by right). by eexists.
      * unfold ensureChecksumAnnotations.
        destruct (bool_decide _ && negb _); [|by eexists].
        destruct (EnsureSecretChecksumAnnotation _ _ _ _); [by eexists | done].
Qed.

(** X2. The client is consulted for [etcd-main] with a backup spec only:
    for any other name, or with a nil backup spec, the result does not
    depend on the client that was injected. *)
Theorem EnsureETCDStatefulSet_client_unused e (c : Client) ss cluster :
  ssName ss ≠ StatefulSetNameETCDMain \/ IsSeedBackupNil cluster = true ->
  EnsureETCDStatefulSet (InjectClient e c) ss cluster = EnsureETCDStatefulSet e ss cluster.
Proof.
  intros Hcases. rewrite !EnsureETCDStatefulSet_eq.
  assert (forall existing name,
            ensureBackupRestoreContainer (InjectClient e c) existing name cluster
            = ensureBackupRestoreContainer e existing name cluster) as -> by reflexivity.
  destruct (ensureBackupRestoreContainer e _ _ _) as [sidecar|msg]; [|done].
  cbn [mbind result_bind].
  rewrite !ensureChecksumAnnotations_none; [done|..];
    (destruct Hcases as [Hname | ->]; [by left | by right]).
Qed.

Lemma upsert_length_le {A K : Type} (matches : K -> A -> Prop)
    `{!forall k x, Decision (matches k x)} (items : list A) k item :
  (length (upsert matches items k item) <= S (length items))%nat.
Proof.
  unfold upsert. destruct (indexMatching matches items k).
  - rewrite length_insert. lia.
  - rewrite length_app. simpl. lia.
Qed.

(** X3. What a successful run leaves alone. The name, the namespace and
    the volumes of the StatefulSet are unchanged; the containers are the
    old ones with one sidecar upserted: it is found under its name, the
    containers of other names keep their values and order, and the list
    grows by at most one; every annotation other than the checksum of
    the backup Secret is as before. *)
Theorem EnsureETCDStatefulSet_frame e ss cluster ss' :
  EnsureETCDStatefulSet e ss cluster = Ok ss' ->
  ssName ss' = ssName ss /\
  ssNamespace ss' = ssNamespace ss /\
  Volumes (Spec (ssTemplate ss')) = Volumes (Spec (ssTemplate ss)) /\
  (exists sidecar,
     ContainerWithName (Containers (Spec (ssTemplate ss'))) (cName sidecar) = Some sidecar /\
     filter (fun x => cName x ≠ cName sidecar) (Containers (Spec (ssTemplate ss')))
       = filter (fun x => cName x ≠ cName sidecar) (Containers (Spec (ssTemplate ss))) /\
     (length (Containers (Spec (ssTemplate ss)))
        <= length (Containers (Spec (ssTemplate ss')))
        <= S (length (Containers (Spec (ssTemplate ss)))))%nat) /\
  (forall key, key ≠ "checksum/secret-" +:+ BackupSecretName ->
     default ∅ (Annotations (ssTemplate ss')) !! key
     = default ∅ (Annotations (ssTemplate ss)) !! key).
Proof.
  rewrite EnsureETCDStatefulSet_eq.
  intros (sidecar & Hsidecar & Hrest)%bind_Ok.
  apply bind_Ok in Hrest as (template & Htemplate & [= <-]).
  cbn [ssName ssNamespace ssTemplate].
  assert (Spec template
          = {| Containers := EnsureContainerWithName (Containers (Spec (ssTemplate ss))) sidecar;
               Volumes := Volumes (Spec (ssTemplate ss)) |}
          /\ forall key, key ≠ "checksum/secret-" +:+ BackupSecretName ->
               default ∅ (Annotations template) !! key
               = default ∅ (Annotations (ssTemplate ss)) !! key) as [Hspec Hann].
  { unfold ensureChecksumAnnotations in Htemplate.
    destruct (bool_decide _ && negb _).
    - unfold EnsureSecretChecksumAnnotation in Htemplate.
      apply bind_Ok in Htemplate as (secret & _ & [= <-]).
      split; [reflexivity|]. intros key Hkey. cbn. by rewrite lookup_insert_ne.
    - injection Htemplate as <-. by split. }
  rewrite Hspec. cbn [Containers Volumes].
  split; [done|]. split; [done|]. split; [done|]. split; [|exact Hann].
  exists sidecar. unfold ContainerWithName, EnsureContainerWithName.
  split; [by apply firstMatching_upsert|]. split.
  - by apply (upsert_others (hasName cName)).
  - split; [apply upsert_length_ge | apply upsert_length_le].
Qed.

Lemma indexMatching_middle {A K : Type} (matches : K -> A -> Prop)
    `{!forall k x, Decision (matches k x)} (before : list A) x after k :
  Forall (fun y => ¬ matches k y) before -> matches k x ->
  indexMatching matches (before ++ x :: after)%list k = Some (length before).
Proof.
  intros Hbefore Hx. apply indexMatching_first with x.
  - by apply list_lookup_middle.
  - done.
  - by rewrite take_app_length.
Qed.

Lemma upsert_middle {A K : Type} (matches : K -> A -> Prop)
    `{!forall k x, Decision (matches k x)} (before : list A) x after k item :
  Forall (fun y => ¬ matches k y) before -> matches k x ->
  upsert matches (before ++ x :: after)%list k item = (before ++ item :: after)%list.
Proof.
  intros Hbefore Hx. unfold upsert. rewrite indexMatching_middle by done.
  by rewrite insert_app_r_alt, Nat.sub_diag by lia.
Qed.

(** X4. The sidecar in place is overwritten. When the constructor names
    its result [backup-restore]: on a StatefulSet whose first container
    of that name is [old], a successful run replaces it, at its position,
    by the sidecar built from [old] (which counts for the schedule only),
    and leaves the containers before and after it as they are; a container
    of that name in its place that leads to the same schedule leads to the
    same result, whatever its other fields. *)
Theorem EnsureETCDStatefulSet_overwrites_sidecar e ss cluster
    (before : list Container) (old : Container) (after : list Container) ss' :
  sidecarIsNamed ->
  cName old = BackupRestoreContainerName ->
  Forall (fun x => cName x ≠ BackupRestoreContainerName) before ->
  EnsureETCDStatefulSet e (withContainers ss (before ++ old :: after)%list) cluster = Ok ss' ->
  (exists sidecar,
     ensureBackupRestoreContainer e (Some old) (ssName ss) cluster = Ok sidecar /\
     Containers (Spec (ssTemplate ss')) = (before ++ sidecar :: after)%list) /\
  (forall other, cName other = BackupRestoreContainerName ->
     chosenSchedule e (Some other) cluster = chosenSchedule e (Some old) cluster ->
     EnsureETCDStatefulSet e (withContainers ss (before ++ other :: after)%list) cluster
     = Ok ss').
Proof.
  intros Hnamed Hold Hbefore.
  assert (forall c, cName c = BackupRestoreContainerName ->
            ContainerWithName (before ++ c :: after)%list BackupRestoreContainerName = Some c)
    as Hfind.
  { intros c Hc. unfold ContainerWithName, firstMatching.
    rewrite (indexMatching_middle (hasName cName)) by done.
    by apply list_lookup_middle. }
  assert (forall c sidecar, cName c = BackupRestoreContainerName ->
            cName sidecar = BackupRestoreContainerName ->
            EnsureContainerWithName (before ++ c :: after)%list sidecar
            = (before ++ sidecar :: after)%list) as Hput.
  { intros c sidecar Hc Hs. unfold EnsureContainerWithName. rewrite Hs.
    by apply (upsert_middle (hasName cName)). }
  rewrite EnsureETCDStatefulSet_eq. cbn [withContainers ssName ssNamespace ssTemplate Spec
    Containers Volumes Annotations]. rewrite (Hfind old Hold).
  intros (sidecar & Hsidecar & Hrest)%bind_Ok.
  assert (cName sidecar = BackupRestoreContainerName) as Hs.
  { rewrite ensureBackupRestoreContainer_eq in Hsidecar.
    apply bind_Ok in Hsidecar as (image & _ & Hsidecar).
    apply bind_Ok in Hsidecar as (schedule & _ & [= <-]). apply Hnamed. }
  rewrite (Hput old sidecar Hold Hs) in Hrest.
  split.
  - exists sidecar. split; [done|].
    apply bind_Ok in Hrest as (template & Htemplate & [= <-]).
    cbn [ssTemplate]. unfold ensureChecksumAnnotations in Htemplate.
    destruct (bool_decide _ && negb _).
    + unfold EnsureSecretChecksumAnnotation in Htemplate.
      by apply bind_Ok in Htemplate as (secret & _ & [= <-]).
    + by injection Htemplate as <-.
  - intros other Hother Hsame.
    rewrite EnsureETCDStatefulSet_eq. cbn [withContainers ssName ssNamespace ssTemplate Spec
      Containers Volumes Annotations]. rewrite (Hfind other Hother).
    assert (ensureBackupRestoreContainer e (Some other) (ssName ss) cluster = Ok sidecar)
      as ->.
    { rewrite ensureBackupRestoreContainer_eq in *. by rewrite Hsame. }
    cbn [mbind result_bind]. by rewrite (Hput other sidecar Hother Hs).
Qed.

End BackupEnsurerMore.

(** The ensurer of the tests, run where it fails and where it repairs. *)
Section BackupEnsurerMoreExamples.
Import extensionswebhook controlplane controlplanebackup.
#[local] Existing Instance sample.accessors.
#[local] Existing Instance sample.awsNames.
#[local] Existing Instance sample.backupHelpers.

(** An image vector without the image, whatever else is there; and a
    client that reaches no API server, which fails [etcd-main] on a Seed
    with a backup spec and nothing else. *)
Lemma EnsureETCDStatefulSet_failures_witness :
  EnsureETCDStatefulSet sampleMore.ensurerWithoutImage
    (sample.statefulSet "etcd-main" []) sampleMore.configuredCluster
  = Err "could not find image etcd-backup-restore: image not found: etcd-backup-restore" /\
  isOk (EnsureETCDStatefulSet sampleMore.ensurerWithUnreachableClient
          (sample.statefulSet "etcd-main" []) sampleMore.configuredCluster) = false /\
  isOk (EnsureETCDStatefulSet sampleMore.ensurerWithUnreachableClient
          (sample.statefulSet "etcd-main" []) (sample.cluster None)) = true.
Proof.
  split; [|split].
  - destruct (EnsureETCDStatefulSet_failures sampleMore.ensurerWithoutImage
                (sample.statefulSet "etcd-main" []) sampleMore.configuredCluster)
      as (Himage & _).
    apply Himage. reflexivity.
  - destruct (EnsureETCDStatefulSet_failures sampleMore.ensurerWithUnreachableClient
                (sample.statefulSet "etcd-main" []) sampleMore.configuredCluster)
      as (_ & _ & Hrun).
    destruct (Hrun "test-repository:test-tag" "0 */24 * * *" eq_refl eq_refl)
      as (ps & _ & Hfailure & _).
    destruct (EnsureSecretChecksumAnnotation _ _ _ _) as [template|cause] eqn:Hannotated;
      [discriminate Hannotated|].
    by rewrite (Hfailure eq_refl eq_refl cause eq_refl).
  - destruct (EnsureETCDStatefulSet_failures sampleMore.ensurerWithUnreachableClient
                (sample.statefulSet "etcd-main" []) (sample.cluster None))
      as (_ & _ & Hrun).
    destruct (Hrun "test-repository:test-tag" "0 */24 * * *" eq_refl eq_refl)
      as (ps & _ & _ & Hsuccess).
    destruct Hsuccess as [ss' ->]; [right; left; reflexivity | reflexivity].
Defined.

(** The [etcd-events] StatefulSet of the tests, ensured with a client
    that reaches no API server. *)
Lemma EnsureETCDStatefulSet_client_unused_witness :
  EnsureETCDStatefulSet sampleMore.ensurerWithUnreachableClient
    (sample.statefulSet "etcd-events" []) sampleMore.configuredCluster
  = EnsureETCDStatefulSet sample.ensurer
      (sample.statefulSet "etcd-events" []) sampleMore.configuredCluster.
Proof.
  apply (EnsureETCDStatefulSet_client_unused sample.ensurer sampleMore.unreachableClient).
  left. discriminate.
Defined.

(** A StatefulSet with an [etcd] container and an older sidecar. *)
Lemma EnsureETCDStatefulSet_frame_witness :
  let ss := sample.statefulSet "etcd-main" [sampleMore.etcd; sample.oldSidecar] in
  let ss' :=
    {| ssName := "etcd-main"; ssNamespace := "test";
       ssTemplate :=
         {| Annotations :=
              Some {[ "checksum/secret-etcd-backup" := ComputeChecksum sample.fooBar ]};
            Spec :=
              {| Containers :=
                   [ sampleMore.etcd;
                     GetBackupRestoreContainer "etcd-main" "main-etcd" "0 */24 * * *" "S3"
                       "shoot--test--sample--test-uid" "test-repository:test-tag" None
                       backupEnv [] ];
                 Volumes := [] |} |} |} in
  EnsureETCDStatefulSet sample.ensurer ss sampleMore.configuredCluster = Ok ss' /\
  ssName ss' = ssName ss /\
  Volumes (Spec (ssTemplate ss')) = Volumes (Spec (ssTemplate ss)) /\
  (forall key, key ≠ "checksum/secret-etcd-backup" ->
     default ∅ (Annotations (ssTemplate ss')) !! key
     = default ∅ (Annotations (ssTemplate ss)) !! key).
Proof.
  intros ss ss'.
  assert (EnsureETCDStatefulSet sample.ensurer ss sampleMore.configuredCluster = Ok ss')
    as Hrun by (vm_compute; reflexivity).
  destruct (EnsureETCDStatefulSet_frame _ _ _ _ Hrun)
    as (Hname & _ & Hvolumes & _ & Hannotations).
  split; [exact Hrun|]. split; [exact Hname|]. split; [exact Hvolumes|].
  exact Hannotations.
Defined.

(** The older sidecar and an empty container named [backup-restore] in
    its place lead to the same StatefulSet. *)
Lemma EnsureETCDStatefulSet_overwrites_sidecar_witness :
  let ss := sample.statefulSet "etcd-main" [] in
  exists ss',
    EnsureETCDStatefulSet sample.ensurer
      (withContainers ss [sampleMore.etcd; sample.oldSidecar])
      sampleMore.configuredCluster = Ok ss' /\
    EnsureETCDStatefulSet sample.ensurer
      (withContainers ss [sampleMore.etcd; sample.emptyContainer "backup-restore"])
      sampleMore.configuredCluster = Ok ss'.
Proof.
  intros ss. eexists. split; [reflexivity|].
  refine (proj2 (EnsureETCDStatefulSet_overwrites_sidecar sample.ensurer ss
                   sampleMore.configuredCluster [sampleMore.etcd] sample.oldSidecar [] _
                   _ _ _ _) (sample.emptyContainer "backup-restore") _ _).
  - repeat intro; reflexivity.
  - reflexivity.
  - repeat constructor. discriminate.
  - reflexivity.
  - reflexivity.
  - reflexivity.
Defined.

End BackupEnsurerMoreExamples.

(** ** The config chart values: failure, class resolution, keys *)

Section ValuesProviderMore.
Import openstack.
Context `{!ClusterAccessors}.
Implicit Types (values : gmap string Value) (classes : list LoadBalancerClass).

Ltac run_values Hsubnet :=
  unfold getConfigChartValues; rewrite Hsubnet; cbn [Wrapf mbind result_bind];
  destruct (profileSettings _ _) as [[?keyStoneURL ?dhcpDomain] ?requestTimeout] eqn:?Hsettings.




Lemma firstMatching_cons {A K : Type} (matches : K -> A -> Prop)
    `{!forall k x, Decision (matches k x)} (x : A) (items : list A) k :
  extensionswebhook.firstMatching matches (x :: items) k
  = if decide (matches k x) then Some x else extensionswebhook.firstMatching matches items k.
Proof.
  unfold extensionswebhook.firstMatching. simpl.
  destruct (decide (matches k x)); [done|].
  by destruct (extensionswebhook.indexMatching matches items k).
Qed.

Lemma applyDefaultClass_firstClassNamed classes values :
  applyDefaultClass classes values
  = match firstClassNamed classes DefaultLoadBalancerClass with
    | Some class =>
        SetStringValue VString
          (SetStringValue VString
             (SetStringValue VString values "floatingNetworkID" (FloatingNetworkID class))
             "floatingSubnetID" (FloatingSubnetID class))
          "subnetID" (SubnetID class)
    | None => values
    end.
Proof.
  unfold firstClassNamed. induction classes as [|class rest IH]; [done|].
  rewrite firstMatching_cons. simpl.
  destruct (decide (Name class = DefaultLoadBalancerClass)) as [Hn|Hn].
  - by rewrite decide_True.
  - by rewrite decide_False.
Qed.

Lemma applyPrivateClass_firstClassNamed classes values :
  applyPrivateClass classes values
  = match firstClassNamed classes PrivateLoadBalancerClass with
    | Some class => SetStringValue VString values "subnetID" (SubnetID class)
    | None => values
    end.
Proof.
  unfold firstClassNamed. induction classes as [|class rest IH]; [done|].
  rewrite firstMatching_cons. simpl.
  destruct (decide (Name class = PrivateLoadBalancerClass)) as [Hn|Hn].
  - by rewrite decide_True.
  - by rewrite decide_False.
Qed.

Lemma SetStringValue_lookup_nonEmpty {V : Type} (inj : string -> V) (m : gmap string V)
    key value :
  SetStringValue inj m key value !! key
  = match nonEmpty value with Some v => Some (inj v) | None => m !! key end.
Proof.
  rewrite SetStringValue_lookup. unfold nonEmpty.
  destruct (IsEmptyString value) eqn:He; [done|]. by destruct value.
Qed.

(** X6. How the classes decide the three top-level keys. With the nodes
    subnet found: [floatingNetworkID] is the floating network ID of the
    first class named [default] when it is not empty, else the floating
    pool ID of the status; [floatingSubnetID] is that class's floating
    subnet ID when not empty, else absent; [subnetID] is the subnet ID of
    the first class named [private] when not empty, else that of the
    first [default] class when not empty, else the ID of the nodes
    subnet. *)
Theorem getConfigChartValues_class_resolution cpConfig infraStatus cloudProfileConfig
    cp c cluster subnet :
  FindSubnetByPurpose (Subnets infraStatus) PurposeNodes = Ok subnet ->
  let classes :=
    default [] (effectiveLoadBalancerClasses cpConfig infraStatus cloudProfileConfig cluster) in
  let defaultClass := firstClassNamed classes DefaultLoadBalancerClass in
  let privateClass := firstClassNamed classes PrivateLoadBalancerClass in
  exists values,
    getConfigChartValues cpConfig infraStatus cloudProfileConfig cp c cluster = Ok values /\
    values !! "floatingNetworkID"
      = Some (VString (default (FloatingPoolID infraStatus)
                         (nonEmpty (defaultClass ≫= FloatingNetworkID)))) /\
    values !! "floatingSubnetID"
      = VString <$> nonEmpty (defaultClass ≫= FloatingSubnetID) /\
    values !! "subnetID"
      = Some (VString (default (default (subnetID subnet)
                                  (nonEmpty (defaultClass ≫= SubnetID)))
                         (nonEmpty (privateClass ≫= SubnetID)))).
Proof.
  intros Hsubnet classes defaultClass privateClass. run_values Hsubnet. fold classes.
  eexists. split; [reflexivity|]. cbv zeta.
  match goal with |- context [applyDefaultClass classes ?b] => set (base := b) end.
  assert (base !! "floatingNetworkID" = Some (VString (FloatingPoolID infraStatus)))
    as Hnetwork by reflexivity.
  assert (base !! "floatingSubnetID" = None) as Hfloating by reflexivity.
  assert (base !! "subnetID" = Some (VString (subnetID subnet))) as Hsub by reflexivity.
  clearbody base.
  rewrite !floatingClasses_lookup_ne by done.
  rewrite applyPrivateClass_firstClassNamed, applyDefaultClass_firstClassNamed.
  fold defaultClass privateClass.
  destruct defaultClass as [class|], privateClass as [class'|]; cbn [mbind option_bind];
    repeat first
      [ rewrite SetStringValue_lookup_ne by done
      | rewrite SetStringValue_lookup_nonEmpty ];
    rewrite ?Hnetwork, ?Hfloating, ?Hsub;
    try change (nonEmpty None) with (@None string);
    repeat match goal with |- context [nonEmpty ?v] => destruct (nonEmpty v) end;
    rewrite ?Hnetwork, ?Hfloating, ?Hsub; repeat split; reflexivity.
Qed.

Lemma SetStringValue_dom {V : Type} (inj : string -> V) (m : gmap string V) key value :
  dom m ⊆ dom (SetStringValue inj m key value) /\
  dom (SetStringValue inj m key value) ⊆ dom m ∪ {[ key ]}.
Proof.
  unfold SetStringValue. destruct value as [v|]; [|set_solver].
  destruct (IsEmptyString (Some v)); [set_solver|].
  rewrite dom_insert_L. set_solver.
Qed.

Lemma applyDefaultClass_dom classes values :
  dom values ⊆ dom (applyDefaultClass classes values) /\
  dom (applyDefaultClass classes values)
    ⊆ dom values ∪ {[ "floatingNetworkID"; "floatingSubnetID"; "subnetID" ]}.
Proof.
  rewrite applyDefaultClass_firstClassNamed.
  destruct (firstClassNamed classes DefaultLoadBalancerClass) as [class|]; [|set_solver].
  pose proof (SetStringValue_dom VString values "floatingNetworkID" (FloatingNetworkID class)).
  pose proof (SetStringValue_dom VString
                (SetStringValue VString values "floatingNetworkID" (FloatingNetworkID class))
                "floatingSubnetID" (FloatingSubnetID class)).
  pose proof (SetStringValue_dom VString
                (SetStringValue VString
                   (SetStringValue VString values "floatingNetworkID" (FloatingNetworkID class))
                   "floatingSubnetID" (FloatingSubnetID class))
                "subnetID" (SubnetID class)).
  set_solver.
Qed.

Lemma applyPrivateClass_dom classes values :
  dom values ⊆ dom (applyPrivateClass classes values) /\
  dom (applyPrivateClass classes values) ⊆ dom values ∪ {[ "subnetID" ]}.
Proof.
  rewrite applyPrivateClass_firstClassNamed.
  destruct (firstClassNamed classes PrivateLoadBalancerClass) as [class|]; [|set_solver].
  apply SetStringValue_dom.
Qed.

Lemma key_bounds (network floating subnet classes : string)
    (keys base afterDefault afterPrivate final : gset string) :
  base = keys -> network ∈ keys -> subnet ∈ keys ->
  base ⊆ afterDefault ->
  afterDefault ⊆ base ∪ {[ network; floating; subnet ]} ->
  afterDefault ⊆ afterPrivate ->
  afterPrivate ⊆ afterDefault ∪ {[ subnet ]} ->
  final = afterPrivate \/ final = {[ classes ]} ∪ afterPrivate ->
  keys ⊆ final /\ final ⊆ keys ∪ {[ floating; classes ]}.
Proof. intros -> Hn Hs Hd1 Hd2 Hp1 Hp2 [-> | ->]; set_solver. Qed.

(** X7. The keys of the config chart values. When the nodes subnet is
    found, the returned map has the eleven keys of the map literal, and
    besides them at most [floatingSubnetID] and [floatingClasses]: no
    class, whatever its name and fields, adds any other key or removes
    one. *)
Theorem getConfigChartValues_keys cpConfig infraStatus cloudProfileConfig
    cp c cluster subnet :
  FindSubnetByPurpose (Subnets infraStatus) PurposeNodes = Ok subnet ->
  exists values,
    getConfigChartValues cpConfig infraStatus cloudProfileConfig cp c cluster = Ok values /\
    configChartKeys ⊆ dom values /\
    dom values ⊆ configChartKeys ∪ {[ "floatingSubnetID"; "floatingClasses" ]}.
Proof.
  intros Hsubnet. run_values Hsubnet.
  eexists. split; [reflexivity|]. cbv zeta.
  match goal with |- context [applyDefaultClass ?cs ?b] =>
    set (classes := cs); set (base := b) end.
  assert (dom base = configChartKeys) as Hbase.
  { subst base. rewrite dom_list_to_map_L. reflexivity. }
  clearbody base.
  apply (key_bounds "floatingNetworkID" "floatingSubnetID" "subnetID" "floatingClasses"
           configChartKeys (dom base) (dom (applyDefaultClass classes base))
           (dom (applyPrivateClass classes (applyDefaultClass classes base)))).
  - exact Hbase.
  - apply (bool_decide_unpack _). vm_compute. exact I.
  - apply (bool_decide_unpack _). vm_compute. exact I.
  - apply applyDefaultClass_dom.
  - apply applyDefaultClass_dom.
  - apply applyPrivateClass_dom.
  - apply applyPrivateClass_dom.
  - destruct (floatingClassOf infraStatus <$> classes); [by left | right].
    by rewrite dom_insert_L.
Qed.

Lemma legacyPoolClasses_first (before : list OpenStackFloatingPool) pool after name current :
  Forall (fun p => ofpName p ≠ name) before -> ofpName pool = name ->
  legacyPoolClasses (before ++ pool :: after)%list name current
  = Some (gardenV1beta1OpenStackLoadBalancerClassToOpenStackV1alpha1LoadBalancerClass
            (ofpLoadBalancerClasses pool)).
Proof.
  intros Hbefore Hpool. induction Hbefore as [|p before Hp _ IH]; simpl.
  - by rewrite decide_True.
  - by rewrite decide_False.
Qed.

Lemma legacyPoolClasses_none pools name current :
  Forall (fun p => ofpName p ≠ name) pools -> legacyPoolClasses pools name current = current.
Proof. induction 1 as [|p pools Hp _ IH]; simpl; [done|]. by rewrite decide_False. Qed.

Lemma poolClasses_first (before : list FloatingPool) pool after name current :
  Forall (fun p => fpName p ≠ name) before -> fpName pool = name ->
  poolClasses (before ++ pool :: after)%list name current = fpLoadBalancerClasses pool.
Proof.
  intros Hbefore Hpool. induction Hbefore as [|p before Hp _ IH]; simpl.
  - by rewrite decide_True.
  - by rewrite decide_False.
Qed.

Lemma poolClasses_none pools name current :
  Forall (fun p => fpName p ≠ name) pools -> poolClasses pools name current = current.
Proof. induction 1 as [|p pools Hp _ IH]; simpl; [done|]. by rewrite decide_False. Qed.

(** X8. The classes in effect (lines 881-897). Classes given in the
    control plane configuration, even an empty list, are used as they
    are and no floating pool is consulted. Only a configuration without
    classes falls back: with a legacy cloud profile and a legacy shoot,
    to the classes of the first floating pool of the profile named as the
    shoot's floating pool, converted field by field (the core profile is
    then not looked at); else, with a core cloud profile, a core shoot
    and a profile configuration, to the classes of the first pool of
    that configuration named as the floating pool of the infrastructure
    status. When no pool has the name, there are no classes. *)
Theorem effectiveLoadBalancerClasses_fallback cpConfig infraStatus cloudProfileConfig cluster :
  (forall classes, LoadBalancerClasses cpConfig = Some classes ->
     effectiveLoadBalancerClasses cpConfig infraStatus cloudProfileConfig cluster
     = Some classes) /\
  (forall profile shoot,
     LoadBalancerClasses cpConfig = None ->
     CloudProfile cluster = Some profile -> Shoot cluster = Some shoot ->
     (forall (before : list OpenStackFloatingPool) pool after,
        gcpFloatingPools profile = (before ++ pool :: after)%list ->
        Forall (fun p => ofpName p ≠ gsFloatingPoolName shoot) before ->
        ofpName pool = gsFloatingPoolName shoot ->
        effectiveLoadBalancerClasses cpConfig infraStatus cloudProfileConfig cluster
        = Some ((fun class =>
                   {| Name := oslbName class;
                      FloatingSubnetID := oslbFloatingSubnetID class;
                      FloatingNetworkID := oslbFloatingNetworkID class;
                      SubnetID := oslbSubnetID class |}) <$> ofpLoadBalancerClasses pool)) /\
     (Forall (fun p => ofpName p ≠ gsFloatingPoolName shoot) (gcpFloatingPools profile) ->
      effectiveLoadBalancerClasses cpConfig infraStatus cloudProfileConfig cluster = None)) /\
  (forall config,
     LoadBalancerClasses cpConfig = None ->
     CloudProfile cluster = None \/ Shoot cluster = None ->
     CoreCloudProfile cluster ≠ None -> CoreShoot cluster ≠ None ->
     cloudProfileConfig = Some config ->
     (forall (before : list FloatingPool) pool after,
        FloatingPools config = (before ++ pool :: after)%list ->
        Forall (fun p => fpName p ≠ FloatingPoolName infraStatus) before ->
        fpName pool = FloatingPoolName infraStatus ->
        effectiveLoadBalancerClasses cpConfig infraStatus cloudProfileConfig cluster
        = fpLoadBalancerClasses pool) /\
     (Forall (fun p => fpName p ≠ FloatingPoolName infraStatus) (FloatingPools config) ->
      effectiveLoadBalancerClasses cpConfig infraStatus cloudProfileConfig cluster = None)).
Proof.
  unfold effectiveLoadBalancerClasses. split; [|split].
  - by intros classes ->.
  - intros profile shoot -> -> ->. split.
    + intros before pool after -> Hbefore Hpool. by apply legacyPoolClasses_first.
    + apply legacyPoolClasses_none.
  - intros config -> Hlegacy Hprofile Hshoot ->.
    assert (match CloudProfile cluster, Shoot cluster with
            | Some profile, Some shoot =>
                legacyPoolClasses (gcpFloatingPools profile) (gsFloatingPoolName shoot) None
            | _, _ =>
                match CoreCloudProfile cluster, CoreShoot cluster, Some config with
                | Some _, Some _, Some config =>
                    poolClasses (FloatingPools config) (FloatingPoolName infraStatus) None
                | _, _, _ => None
                end
            end = poolClasses (FloatingPools config) (FloatingPoolName infraStatus) None)
      as ->.
    { destruct (CoreCloudProfile cluster); [|done]. destruct (CoreShoot cluster); [|done].
      destruct Hlegacy as [-> | ->]; [done|]. by destruct (CloudProfile cluster). }
    split.
    + intros before pool after -> Hbefore Hpool. by apply poolClasses_first.
    + apply poolClasses_none.
Qed.

(** X9. The keys that no class touches. When the nodes subnet is found,
    the credentials, the load-balancer provider and the Kubernetes
    version are in the values as given, and [authUrl] is the Keystone
    URL of the legacy cloud profile if the cluster has one, else that of
    the core profile configuration when the cluster has a core profile
    and a configuration was decoded, else the empty string. *)
Theorem getConfigChartValues_fixed_keys cpConfig infraStatus cloudProfileConfig
    cp c cluster subnet :
  FindSubnetByPurpose (Subnets infraStatus) PurposeNodes = Ok subnet ->
  exists values,
    getConfigChartValues cpConfig infraStatus cloudProfileConfig cp c cluster = Ok values /\
    values !! "domainName" = Some (VString (DomainName c)) /\
    values !! "tenantName" = Some (VString (TenantName c)) /\
    values !! "username" = Some (VString (Username c)) /\
    values !! "password" = Some (VString (Password c)) /\
    values !! "lbProvider" = Some (VString (LoadBalancerProvider cpConfig)) /\
    values !! "kubernetesVersion" = Some (VString (GetKubernetesVersion cluster)) /\
    values !! "authUrl"
      = Some (VString
                match CloudProfile cluster, CoreCloudProfile cluster, cloudProfileConfig with
                | Some profile, _, _ => gcpKeyStoneURL profile
                | None, Some _, Some config => KeyStoneURL config
                | None, _, _ => EmptyString
                end).
Proof.
  intros Hsubnet. run_values Hsubnet.
  eexists. split; [reflexivity|]. cbv zeta.
  assert (keyStoneURL
          = match CloudProfile cluster, CoreCloudProfile cluster, cloudProfileConfig with
            | Some profile, _, _ => gcpKeyStoneURL profile
            | None, Some _, Some config => KeyStoneURL config
            | None, _, _ => EmptyString
            end) as <-.
  { unfold profileSettings in Hsettings.
    destruct (CloudProfile cluster), (CoreCloudProfile cluster), cloudProfileConfig;
      by injection Hsettings as <- _ _. }
  repeat split;
    rewrite floatingClasses_lookup_ne, applyPrivateClass_lookup_ne,
      applyDefaultClass_lookup_ne by done; reflexivity.
Qed.

(** X10. The map emitted for one class is well formed. Its keys are
    among [name], [floatingNetworkID], [floatingSubnetID] and [subnetID];
    [floatingSubnetID] and [subnetID] are present exactly when the
    class's field is not empty and then hold it, so they never hold the
    empty string; [floatingNetworkID] can hold the empty string only when
    it was taken from an empty floating pool ID of the status. *)
Theorem floatingClassOf_well_formed infraStatus (class : LoadBalancerClass) :
  let floatingClass := floatingClassOf infraStatus class in
  dom floatingClass ⊆ {[ "name"; "floatingNetworkID"; "floatingSubnetID"; "subnetID" ]} /\
  floatingClass !! "name" = Some (Name class) /\
  floatingClass !! "floatingSubnetID" = nonEmpty (FloatingSubnetID class) /\
  floatingClass !! "subnetID" = nonEmpty (SubnetID class) /\
  floatingClass !! "floatingSubnetID" ≠ Some EmptyString /\
  floatingClass !! "subnetID" ≠ Some EmptyString /\
  (floatingClass !! "floatingNetworkID" = Some EmptyString ->
   FloatingPoolID infraStatus = EmptyString /\
   nonEmpty (FloatingSubnetID class) ≠ None /\ nonEmpty (FloatingNetworkID class) = None).
Proof.
  intros floatingClass. subst floatingClass. unfold floatingClassOf.
  assert (forall v : option string, nonEmpty v ≠ Some EmptyString) as Hne.
  { intros [v|]; unfold nonEmpty; simpl; [|done].
    case_bool_decide; [done | congruence]. }
  assert (forall (m : gmap string string) key value,
            SetStringValue id m key value !! key
            = match nonEmpty value with Some v => Some v | None => m !! key end) as Hset.
  { intros m key value. apply (SetStringValue_lookup_nonEmpty id). }
  split; [|split; [|split; [|split; [|split; [|split]]]]].
  - match goal with |- dom (SetStringValue id (SetStringValue id ?m _ _) _ _) ⊆ _ =>
      set (inner := m) end.
    assert (dom inner ⊆ {[ "name"; "floatingNetworkID" ]}) as Hinner.
    { subst inner. destruct (negb _ && _).
      - rewrite dom_insert_L, dom_singleton_L. set_solver.
      - pose proof (SetStringValue_dom id ({[ "name" := Name class ]} : gmap string string)
                      "floatingNetworkID" (FloatingNetworkID class)) as [_ Hd].
        rewrite dom_singleton_L in Hd. set_solver. }
    clearbody inner.
    pose proof (SetStringValue_dom id inner "floatingSubnetID" (FloatingSubnetID class))
      as [_ H1].
    pose proof (SetStringValue_dom id
                  (SetStringValue id inner "floatingSubnetID" (FloatingSubnetID class))
                  "subnetID" (SubnetID class)) as [_ H2].
    set_solver.
  - rewrite !SetStringValue_lookup_ne by done.
    destruct (negb _ && _); [by rewrite lookup_insert_ne|].
    by rewrite SetStringValue_lookup_ne.
  - rewrite SetStringValue_lookup_ne, Hset by done.
    destruct (nonEmpty (FloatingSubnetID class)); [done|].
    destruct (negb _ && _); [by rewrite lookup_insert_ne|].
    by rewrite SetStringValue_lookup_ne.
  - rewrite Hset. destruct (nonEmpty (SubnetID class)); [done|].
    rewrite SetStringValue_lookup_ne by done.
    destruct (negb _ && _); [by rewrite lookup_insert_ne|].
    by rewrite SetStringValue_lookup_ne.
  - rewrite SetStringValue_lookup_ne, Hset by done.
    destruct (nonEmpty (FloatingSubnetID class)) eqn:He; [rewrite <- He; apply Hne|].
    destruct (negb _ && _); [by rewrite lookup_insert_ne|].
    by rewrite SetStringValue_lookup_ne.
  - rewrite Hset. destruct (nonEmpty (SubnetID class)) eqn:He; [rewrite <- He; apply Hne|].
    rewrite SetStringValue_lookup_ne by done.
    destruct (negb _ && _); [by rewrite lookup_insert_ne|].
    by rewrite SetStringValue_lookup_ne.
  - rewrite !SetStringValue_lookup_ne by done.
    assert (forall v, IsEmptyString v = true -> nonEmpty v = None) as Hnone
      by (intros v Hv; unfold nonEmpty; by rewrite Hv).
    assert (forall v, IsEmptyString v = false -> nonEmpty v ≠ None) as Hsome
      by (intros v Hv; unfold nonEmpty; rewrite Hv; by destruct v).
    assert (SetStringValue id ({[ "name" := Name class ]} : gmap string string)
              "floatingNetworkID" (FloatingNetworkID class) !! "floatingNetworkID"
            ≠ Some EmptyString) as Hown.
    { rewrite Hset. destruct (nonEmpty (FloatingNetworkID class)) eqn:He.
      - rewrite <- He. apply Hne.
      - by rewrite lookup_singleton_ne. }
    destruct (IsEmptyString (FloatingSubnetID class)) eqn:Hsub,
      (IsEmptyString (FloatingNetworkID class)) eqn:Hnet; cbn [negb andb];
      try (intros Hempty; by destruct Hown).
    rewrite lookup_insert_eq. intros [= ->]. auto.
Qed.

End ValuesProviderMore.

(** The config chart values of sample control planes. *)
Section ValuesProviderMoreExamples.
Import openstack.
#[local] Existing Instance sample.accessors.


(** A [private] class before a [default] class: the subnet of the first,
    the floating network of the second, whose empty floating subnet ID
    leaves no key. *)
Lemma getConfigChartValues_class_resolution_witness :
  exists values,
    getConfigChartValues
      (sample.cpConfig (Some [sampleValues.privateClass; sampleValues.defaultClass]))
      sample.infraStatus (Some sample.cloudProfileConfig) sample.controlPlane
      sample.credentials sample.coreCluster = Ok values /\
    values !! "floatingNetworkID" = Some (VString "default-floating-network") /\
    values !! "floatingSubnetID" = None /\
    values !! "subnetID" = Some (VString "private-subnet").
Proof.
  exact (getConfigChartValues_class_resolution
           (sample.cpConfig (Some [sampleValues.privateClass; sampleValues.defaultClass]))
           sample.infraStatus (Some sample.cloudProfileConfig) sample.controlPlane
           sample.credentials sample.coreCluster sampleValues.nodesSubnet eq_refl).
Defined.

Lemma getConfigChartValues_keys_witness :
  exists values,
    getConfigChartValues
      (sample.cpConfig (Some [sampleValues.privateClass; sampleValues.defaultClass]))
      sample.infraStatus (Some sample.cloudProfileConfig) sample.controlPlane
      sample.credentials sample.coreCluster = Ok values /\
    configChartKeys ⊆ dom values /\
    dom values ⊆ configChartKeys ∪ {[ "floatingSubnetID"; "floatingClasses" ]}.
Proof.
  exact (getConfigChartValues_keys
           (sample.cpConfig (Some [sampleValues.privateClass; sampleValues.defaultClass]))
           sample.infraStatus (Some sample.cloudProfileConfig) sample.controlPlane
           sample.credentials sample.coreCluster sampleValues.nodesSubnet eq_refl).
Defined.

(** On the legacy cluster the classes come from the pool of the shoot,
    although the core profile is there too. *)
Lemma effectiveLoadBalancerClasses_fallback_witness :
  effectiveLoadBalancerClasses (sample.cpConfig None) sample.infraStatus
    (Some sample.cloudProfileConfig) sampleValues.legacyCluster
  = Some [ {| Name := "default"; FloatingSubnetID := Some "legacy-floating-subnet";
              FloatingNetworkID := None; SubnetID := None |} ] /\
  effectiveLoadBalancerClasses (sample.cpConfig (Some [])) sample.infraStatus
    (Some sample.cloudProfileConfig) sampleValues.legacyCluster
  = Some [].
Proof.
  split.
  - destruct (effectiveLoadBalancerClasses_fallback (sample.cpConfig None) sample.infraStatus
                (Some sample.cloudProfileConfig) sampleValues.legacyCluster)
      as (_ & Hlegacy & _).
    destruct (Hlegacy _ _ eq_refl eq_refl eq_refl) as [Hfirst _].
    apply (Hfirst [ {| ofpName := "other-pool"; ofpLoadBalancerClasses := [] |} ]
             {| ofpName := "shoot-pool";
                ofpLoadBalancerClasses := [sampleValues.legacyClass] |} []);
      [reflexivity | repeat constructor; discriminate | reflexivity].
  - apply (proj1 (effectiveLoadBalancerClasses_fallback (sample.cpConfig (Some []))
                    sample.infraStatus (Some sample.cloudProfileConfig)
                    sampleValues.legacyCluster)).
    reflexivity.
Defined.

(** On the legacy cluster the Keystone URL is the one of the legacy
    profile, not the one of the core profile configuration. *)
Lemma getConfigChartValues_fixed_keys_witness :
  exists values,
    getConfigChartValues (sample.cpConfig None) sample.infraStatus
      (Some sample.cloudProfileConfig) sample.controlPlane sample.credentials
      sampleValues.legacyCluster = Ok values /\
    values !! "username" = Some (VString "username") /\
    values !! "password" = Some (VString "password") /\
    values !! "authUrl" = Some (VString "legacy-keystone.example").
Proof.
  destruct (getConfigChartValues_fixed_keys (sample.cpConfig None) sample.infraStatus
              (Some sample.cloudProfileConfig) sample.controlPlane sample.credentials
              sampleValues.legacyCluster sampleValues.nodesSubnet eq_refl)
    as (values & Hvalues & _ & _ & Huser & Hpassword & _ & _ & Hauth).
  exists values. repeat split; assumption.
Defined.

End ValuesProviderMoreExamples.

(** ** The exported functions of the OpenStack values provider *)

Section ProviderFacts.
Import openstack valuesprovider.
Context `{!ClusterAccessors, !ProviderHelpers}.

Lemma decodeProviderConfig_Err vp cp cause :
  decodeControlPlaneConfig (decoder vp) (ProviderConfigRaw cp) = Err cause ->
  decodeProviderConfig vp cp
  = Err ("could not decode providerConfig of controlplane '" +:+ cpNamespace (metadata cp)
         +:+ "/" +:+ cpName (metadata cp) +:+ "': " +:+ cause).
Proof.
  intros Hdecode. unfold decodeProviderConfig, ObjectName.
  rewrite (Wrapf_Err _ _ _ Hdecode). f_equal. by rewrite !string_app_assoc.
Qed.

Lemma decodeProviderConfig_Ok vp cp cpConfig :
  decodeControlPlaneConfig (decoder vp) (ProviderConfigRaw cp) = Ok cpConfig ->
  decodeProviderConfig vp cp = Ok cpConfig.
Proof. intros Hdecode. unfold decodeProviderConfig. by rewrite Hdecode. Qed.

(** X11. The values of the control plane chart. A provider configuration
    that does not decode is the only failure of
    [GetControlPlaneChartValues], reported with the control plane's
    [<namespace>/<name>]. Otherwise the pod annotations hold exactly the
    four checksum keys, each with the checksum of its object or the empty
    string when the checksums have no entry for it; [featureGates] is
    there exactly when the configuration has cloud-controller-manager
    settings; and apart from it the keys are the five fixed ones. *)
Theorem GetControlPlaneChartValues_values vp cp cluster
    (checksums : gmap string string) (scaledDown : bool) :
  (forall cause,
     decodeControlPlaneConfig (decoder vp) (ProviderConfigRaw cp) = Err cause ->
     GetControlPlaneChartValues vp cp cluster checksums scaledDown
     = Err ("could not decode providerConfig of controlplane '" +:+ cpNamespace (metadata cp)
            +:+ "/" +:+ cpName (metadata cp) +:+ "': " +:+ cause)) /\
  (forall cpConfig,
     decodeControlPlaneConfig (decoder vp) (ProviderConfigRaw cp) = Ok cpConfig ->
     exists values annotations,
       GetControlPlaneChartValues vp cp cluster checksums scaledDown = Ok values /\
       values !! "podAnnotations" = Some (CAnnotations annotations) /\
       dom annotations
       = {[ "checksum/secret-cloud-controller-manager";
            "checksum/secret-cloud-controller-manager-server";
            "checksum/secret-cloudprovider";
            "checksum/configmap-cloud-provider-config-cloud-controller-manager" ]} /\
       annotations !! "checksum/secret-cloud-controller-manager"
         = Some (default EmptyString (checksums !! "cloud-controller-manager")) /\
       annotations !! "checksum/secret-cloud-controller-manager-server"
         = Some (default EmptyString (checksums !! "cloud-controller-manager-server")) /\
       annotations !! "checksum/secret-cloudprovider"
         = Some (default EmptyString (checksums !! "cloudprovider")) /\
       annotations !! "checksum/configmap-cloud-provider-config-cloud-controller-manager"
         = Some (default EmptyString
                   (checksums !! CloudProviderConfigCloudControllerManagerName)) /\
       values !! "featureGates"
         = (fun ccm => CFeatureGates (FeatureGates ccm)) <$> CloudControllerManager cpConfig /\
       dom values ∖ {[ "featureGates" ]}
       = {[ "replicas"; "clusterName"; "kubernetesVersion"; "podNetwork"; "podAnnotations" ]}).
Proof.
  split.
  - intros cause Hdecode. unfold GetControlPlaneChartValues.
    by rewrite (decodeProviderConfig_Err _ _ _ Hdecode).
  - intros cpConfig Hdecode. unfold GetControlPlaneChartValues.
    rewrite (decodeProviderConfig_Ok _ _ _ Hdecode). cbn [mbind result_bind].
    unfold getCCMChartValues. do 2 eexists. split; [reflexivity|]. cbv zeta.
    destruct (CloudControllerManager cpConfig) as [ccm|]; cbn [fmap option_fmap option_map].
    + by repeat split.
    + by repeat split.
Qed.

(** X12. The failures of [GetConfigChartValues], in the order the code
    meets them: the provider configuration, then the infrastructure
    status, then the provider configuration of the core cloud profile
    (when the cluster has one with a raw configuration), then the
    credentials; each error names the control plane, or the secret, and
    keeps the cause. When all four succeed, the result is that of
    [getConfigChartValues] on what was decoded. *)
Theorem GetConfigChartValues_failures vp cp cluster :
  let name := cpNamespace (metadata cp) +:+ "/" +:+ cpName (metadata cp) in
  let decode := decoder vp in
  let profileRaw := CoreCloudProfile cluster ≫= ccpProviderConfig in
  (forall cause,
     decodeControlPlaneConfig decode (ProviderConfigRaw cp) = Err cause ->
     GetConfigChartValues vp cp cluster
     = Err ("could not decode providerConfig of controlplane '" +:+ name +:+ "': " +:+ cause)) /\
  (forall cpConfig cause,
     decodeControlPlaneConfig decode (ProviderConfigRaw cp) = Ok cpConfig ->
     decodeInfrastructureStatus decode (InfrastructureProviderStatusRaw cp) = Err cause ->
     GetConfigChartValues vp cp cluster
     = Err ("could not decode infrastructureProviderStatus of controlplane '" +:+ name
            +:+ "': " +:+ cause)) /\
  (forall cpConfig infraStatus raw cause,
     decodeControlPlaneConfig decode (ProviderConfigRaw cp) = Ok cpConfig ->
     decodeInfrastructureStatus decode (InfrastructureProviderStatusRaw cp) = Ok infraStatus ->
     profileRaw = Some raw ->
     decodeCloudProfileConfig decode raw = Err cause ->
     GetConfigChartValues vp cp cluster
     = Err ("could not decode providerConfig of cloudProfile for '" +:+ name
            +:+ "': " +:+ cause)) /\
  (forall cpConfig infraStatus cause,
     decodeControlPlaneConfig decode (ProviderConfigRaw cp) = Ok cpConfig ->
     decodeInfrastructureStatus decode (InfrastructureProviderStatusRaw cp) = Ok infraStatus ->
     (profileRaw = None \/
      exists raw, profileRaw = Some raw /\ isOk (decodeCloudProfileConfig decode raw) = true) ->
     GetCredentials (client vp) (SecretRefNamespace cp) (SecretRefName cp) = Err cause ->
     GetConfigChartValues vp cp cluster
     = Err ("could not get service account from secret '" +:+ SecretRefNamespace cp +:+ "/"
            +:+ SecretRefName cp +:+ "': " +:+ cause)) /\
  (forall cpConfig infraStatus credentials,
     decodeControlPlaneConfig decode (ProviderConfigRaw cp) = Ok cpConfig ->
     decodeInfrastructureStatus decode (InfrastructureProviderStatusRaw cp) = Ok infraStatus ->
     GetCredentials (client vp) (SecretRefNamespace cp) (SecretRefName cp) = Ok credentials ->
     (profileRaw = None ->
      GetConfigChartValues vp cp cluster
      = getConfigChartValues (config cpConfig) infraStatus None (metadata cp)
          credentials cluster) /\
     (forall raw profileConfig,
        profileRaw = Some raw -> decodeCloudProfileConfig decode raw = Ok profileConfig ->
        GetConfigChartValues vp cp cluster
        = getConfigChartValues (config cpConfig) infraStatus (Some profileConfig) (metadata cp)
            credentials cluster)).
Proof.
  cbv zeta. split; [|split; [|split; [|split]]].
  - intros cause Hconfig. unfold GetConfigChartValues.
    rewrite (decodeProviderConfig_Err _ _ _ Hconfig). cbn [mbind result_bind].
    f_equal. by rewrite !string_app_assoc.
  - intros cpConfig cause Hconfig Hstatus. unfold GetConfigChartValues.
    rewrite (decodeProviderConfig_Ok _ _ _ Hconfig). cbn [mbind result_bind].
    rewrite (Wrapf_Err _ _ _ Hstatus). cbn [mbind result_bind].
    unfold ObjectName. f_equal. by rewrite !string_app_assoc.
  - intros cpConfig infraStatus raw cause Hconfig Hstatus Hraw Hprofile.
    unfold GetConfigChartValues.
    rewrite (decodeProviderConfig_Ok _ _ _ Hconfig). cbn [mbind result_bind].
    rewrite Hstatus, Hraw. cbn [Wrapf mbind result_bind].
    rewrite (Wrapf_Err _ _ _ Hprofile). cbn [fmap result_fmap mbind result_bind].
    unfold ObjectName. f_equal. by rewrite !string_app_assoc.
  - intros cpConfig infraStatus cause Hconfig Hstatus Hprofile Hcredentials.
    unfold GetConfigChartValues.
    rewrite (decodeProviderConfig_Ok _ _ _ Hconfig). cbn [mbind result_bind].
    rewrite Hstatus. cbn [Wrapf mbind result_bind].
    destruct Hprofile as [-> | (raw & -> & Hok)].
    + cbn [mbind result_bind]. rewrite (Wrapf_Err _ _ _ Hcredentials).
      cbn [mbind result_bind]. f_equal. by rewrite !string_app_assoc.
    + destruct (decodeCloudProfileConfig (decoder vp) raw) as [profileConfig|]; [|done].
      cbn [Wrapf fmap result_fmap mbind result_bind].
      rewrite (Wrapf_Err _ _ _ Hcredentials).
      cbn [mbind result_bind]. f_equal. by rewrite !string_app_assoc.
  - intros cpConfig infraStatus credentials Hconfig Hstatus Hcredentials.
    unfold GetConfigChartValues.
    rewrite (decodeProviderConfig_Ok _ _ _ Hconfig). cbn [mbind result_bind].
    rewrite Hstatus, Hcredentials. split.
    + by intros ->.
    + by intros raw profileConfig -> ->.
Qed.

(** X13. When the legacy cloud profile decides, the decoded
    configuration of the core cloud profile has no influence on the
    config chart values: with a legacy cloud profile, and a legacy shoot
    or load-balancer classes in the control plane configuration, the
    values are those computed without any profile configuration; the
    same holds when the cluster has no core cloud profile. *)
Theorem getConfigChartValues_profile_config_unused cpConfig infraStatus
    (cloudProfileConfig : option CloudProfileConfig) cp c cluster :
  (CloudProfile cluster ≠ None /\
   (Shoot cluster ≠ None \/ LoadBalancerClasses cpConfig ≠ None))
  \/ CoreCloudProfile cluster = None ->
  getConfigChartValues cpConfig infraStatus cloudProfileConfig cp c cluster
  = getConfigChartValues cpConfig infraStatus None cp c cluster.
Proof.
  intros Hcluster.
  assert (profileSettings cloudProfileConfig cluster = profileSettings None cluster)
    as Hsettings.
  { unfold profileSettings.
    destruct Hcluster as [[Hprofile _] | ->].
    - by destruct (CloudProfile cluster).
    - by destruct (CloudProfile cluster). }
  assert (effectiveLoadBalancerClasses cpConfig infraStatus cloudProfileConfig cluster
          = effectiveLoadBalancerClasses cpConfig infraStatus None cluster) as Hclasses.
  { unfold effectiveLoadBalancerClasses.
    destruct (LoadBalancerClasses cpConfig) as [classes|]; [done|].
    destruct Hcluster as [[Hprofile [Hshoot | Hset]] | ->].
    - destruct (CloudProfile cluster); [|done]. by destruct (Shoot cluster).
    - done.
    - by destruct (CloudProfile cluster), (Shoot cluster). }
  unfold getConfigChartValues. by rewrite Hsettings, Hclasses.
Qed.

(** X14. The three exported functions decode the provider configuration
    of the control plane first and report its failure with one and the
    same message. For [GetControlPlaneChartValues] and
    [GetStorageClassesChartValues] it is the only failure, whatever the
    cluster, the client and the infrastructure status are, and the
    storage class values hold the zone under [availability] and nothing
    else. *)
Theorem provider_config_decoded_first vp cp cluster
    (checksums : gmap string string) (scaledDown : bool) :
  let decoded := decodeControlPlaneConfig (decoder vp) (ProviderConfigRaw cp) in
  let message cause :=
    "could not decode providerConfig of controlplane '" +:+ cpNamespace (metadata cp)
    +:+ "/" +:+ cpName (metadata cp) +:+ "': " +:+ cause in
  (forall cause, decoded = Err cause ->
     GetConfigChartValues vp cp cluster = Err (message cause) /\
     GetControlPlaneChartValues vp cp cluster checksums scaledDown = Err (message cause) /\
     GetStorageClassesChartValues vp cp cluster = Err (message cause)) /\
  (forall cpConfig, decoded = Ok cpConfig ->
     isOk (GetControlPlaneChartValues vp cp cluster checksums scaledDown) = true /\
     GetStorageClassesChartValues vp cp cluster
     = Ok {[ "availability" := CString (Zone (config cpConfig)) ]}).
Proof.
  cbv zeta. split.
  - intros cause Hdecode.
    unfold GetConfigChartValues, GetControlPlaneChartValues, GetStorageClassesChartValues.
    by rewrite (decodeProviderConfig_Err _ _ _ Hdecode).
  - intros cpConfig Hdecode.
    unfold GetControlPlaneChartValues, GetStorageClassesChartValues.
    by rewrite (decodeProviderConfig_Ok _ _ _ Hdecode).
Qed.

End ProviderFacts.

Section ProviderExamples.
Import openstack valuesprovider.
#[local] Existing Instance sample.accessors.
#[local] Existing Instance sampleProvider.helpers.

(** The control plane chart values of a control plane on the core
    cluster: the checksum of the server secret is missing and its
    annotation is empty; a provider configuration that is no JSON
    document is reported with the control plane's name. *)
Lemma GetControlPlaneChartValues_values_witness :
  (exists values annotations,
     GetControlPlaneChartValues sampleProvider.provider (sampleProvider.controlPlane "{}")
       sample.coreCluster sampleProvider.checksums false = Ok values /\
     values !! "replicas" = Some (CInt 1) /\
     values !! "podAnnotations" = Some (CAnnotations annotations) /\
     annotations !! "checksum/secret-cloud-controller-manager-server" = Some EmptyString /\
     annotations !! "checksum/secret-cloudprovider" = Some sample.fooBarDigest /\
     values !! "featureGates" = None) /\
  GetControlPlaneChartValues sampleProvider.provider (sampleProvider.controlPlane "not json")
    sample.coreCluster sampleProvider.checksums false
  = Err ("could not decode providerConfig of controlplane 'test/control-plane': "
         +:+ "couldn't get version/kind; json parse error").
Proof.
  destruct (GetControlPlaneChartValues_values sampleProvider.provider
              (sampleProvider.controlPlane "{}") sample.coreCluster
              sampleProvider.checksums false) as [_ Hvalues].
  destruct (GetControlPlaneChartValues_values sampleProvider.provider
              (sampleProvider.controlPlane "not json") sample.coreCluster
              sampleProvider.checksums false) as [Hfailure _].
  split.
  - destruct (Hvalues _ eq_refl)
      as (values & annotations & Hrun & Hannotations & _ & _ & Hserver & Hprovider & _ & Hgates & _).
    exists values, annotations. repeat split; try assumption.
    vm_compute in Hrun. injection Hrun as <-. reflexivity.
  - exact (Hfailure _ eq_refl).
Defined.

(** A secret reference that the client does not find, and the run on
    the core cluster, where the configuration of the core cloud profile
    is decoded and used. *)
Lemma GetConfigChartValues_failures_witness :
  GetConfigChartValues sampleProvider.provider
    {| metadata := sample.controlPlane; ProviderConfigRaw := "{}";
       InfrastructureProviderStatusRaw := "{}";
       SecretRefNamespace := "test"; SecretRefName := "missing" |}
    sample.coreCluster
  = Err "could not get service account from secret 'test/missing': not found" /\
  GetConfigChartValues sampleProvider.provider (sampleProvider.controlPlane "{}")
    sample.coreCluster
  = getConfigChartValues (sample.cpConfig None) sample.infraStatus
      (Some sample.cloudProfileConfig) sample.controlPlane sample.credentials
      sample.coreCluster /\
  isOk (GetConfigChartValues sampleProvider.provider (sampleProvider.controlPlane "{}")
          sample.coreCluster) = true.
Proof.
  split; [|split].
  - destruct (GetConfigChartValues_failures sampleProvider.provider
                {| metadata := sample.controlPlane; ProviderConfigRaw := "{}";
                   InfrastructureProviderStatusRaw := "{}";
                   SecretRefNamespace := "test"; SecretRefName := "missing" |}
                sample.coreCluster) as (_ & _ & _ & Hcredentials & _).
    apply (Hcredentials _ _ "not found" eq_refl eq_refl); [|reflexivity].
    right. by exists "{}".
  - destruct (GetConfigChartValues_failures sampleProvider.provider
                (sampleProvider.controlPlane "{}") sample.coreCluster)
      as (_ & _ & _ & _ & Hrun).
    destruct (Hrun _ _ sample.credentials eq_refl eq_refl eq_refl) as [_ Hdecoded].
    exact (Hdecoded "{}" _ eq_refl eq_refl).
  - reflexivity.
Defined.

(** The legacy cluster: its cloud profile and shoot decide, and the
    configuration of a core cloud profile changes nothing. *)
Lemma getConfigChartValues_profile_config_unused_witness :
  getConfigChartValues (sample.cpConfig None) sample.infraStatus
    (Some sample.cloudProfileConfig) sample.controlPlane sample.credentials
    sampleValues.legacyCluster
  = getConfigChartValues (sample.cpConfig None) sample.infraStatus None
      sample.controlPlane sample.credentials sampleValues.legacyCluster.
Proof.
  apply getConfigChartValues_profile_config_unused. left. split; [done | by left].
Defined.

(** A provider configuration that is no JSON document fails the three
    functions alike; the empty document gives the zone of the decoded
    configuration. *)
Lemma provider_config_decoded_first_witness :
  GetStorageClassesChartValues sampleProvider.provider
    (sampleProvider.controlPlane "not json") sample.coreCluster
  = Err ("could not decode providerConfig of controlplane 'test/control-plane': "
         +:+ "couldn't get version/kind; json parse error") /\
  GetStorageClassesChartValues sampleProvider.provider (sampleProvider.controlPlane "{}")
    sample.coreCluster
  = Ok {[ "availability" := CString "zone" ]}.
Proof.
  split.
  - destruct (provider_config_decoded_first sampleProvider.provider
                (sampleProvider.controlPlane "not json") sample.coreCluster ∅ false)
      as [Hfailure _].
    by destruct (Hfailure _ eq_refl) as (_ & _ & ->).
  - destruct (provider_config_decoded_first sampleProvider.provider
                (sampleProvider.controlPlane "{}") sample.coreCluster ∅ false)
      as [_ Hvalues].
    by destruct (Hvalues _ eq_refl) as [_ ->].
Defined.

End ProviderExamples.

(** ** The Terraform configuration of the Azure infrastructure chart *)

Section AzureInfra.
Import azureinfra.

Lemma required_given warn val : isOk (required warn val) = given val.
Proof. by destruct val as [[[|]|]|]. Qed.

Lemma required_Err warn val msg :
  required warn val = Err msg -> msg = warn /\ given val = false.
Proof. destruct val as [[[|]|]|]; intros [= <-]; done. Qed.

Lemma required_Ok warn val x : required warn val = Ok x -> given val = true.
Proof. by destruct val as [[[|]|]|]. Qed.

Ltac simplify_given :=
  repeat first [ rewrite andb_false_r | progress cbn [andb orb negb isOk] ].

(** The [required] that a chain of binds evaluates first. *)
Ltac head_required t :=
  lazymatch t with
  | @mbind _ _ _ _ _ ?m => head_required m
  | required ?warn ?val => constr:(required warn val)
  end.

(** X15. What the template needs. The configuration renders exactly
    when the subscription, the tenant, the region, the names of the
    resource group and of the virtual network, the cluster name and the
    workers' network are given, and moreover the network range of the
    virtual network when it is to be created, and the two domain counts
    when the availability set is to be created. Whether the resource
    group is to be created changes nothing. When rendering fails, the
    warning is the one of a value that is not given. *)
Theorem render_requirements v :
  isOk (render v)
  = given (azure_subscriptionID v) && given (azure_tenantID v) && given (azure_region v)
    && given (resourceGroup_name v) && given (resourceGroup_vnet_name v)
    && given (clusterName v) && given (networks_worker v)
    && (negb (create_vnet v) || given (resourceGroup_vnet_cidr v))
    && (negb (create_availabilitySet v)
        || given (azure_countUpdateDomains v) && given (azure_countFaultDomains v)) /\
  (forall warn, render v = Err warn ->
     exists val,
       given val = false /\
       (warn, val) ∈
         [ ("azure.subscriptionID is required", azure_subscriptionID v);
           ("azure.tenantID is required", azure_tenantID v);
           ("azure.region is required", azure_region v);
           ("azure.countUpdateDomains is required", azure_countUpdateDomains v);
           ("azure.countFaultDomains is required", azure_countFaultDomains v);
           ("resourceGroup.name is required", resourceGroup_name v);
           ("resourceGroup.vnet.name is required", resourceGroup_vnet_name v);
           ("resourceGroup.vnet.cidr is required", resourceGroup_vnet_cidr v);
           ("clusterName is required", clusterName v);
           ("networks.worker is required", networks_worker v) ]).
Proof.
  unfold render.
  destruct (create_resourceGroup v), (create_vnet v), (create_availabilitySet v);
    cbn [negb orb];
    repeat
      match goal with
      | |- isOk ?run = _ /\ _ =>
          let next := head_required run in
          let Hrequired := fresh "Hrequired" in
          destruct next as [?x|?msg] eqn:Hrequired;
          [ rewrite (required_Ok _ _ _ Hrequired)
          | apply required_Err in Hrequired as [-> Hrequired]; cbn [mbind result_bind];
            split;
            [ rewrite Hrequired; simplify_given; reflexivity
            | intros ? [= <-]; eexists; split; [exact Hrequired|];
              repeat first [ apply list_elem_of_here | apply list_elem_of_further ] ] ];
          cbn [mbind result_bind]
      end;
    (split; [reflexivity | intros warn [=]]).
Qed.

Lemma required_Some warn val x : required warn val = Ok x -> val = Some x.
Proof. destruct val as [[[|]|]|]; by intros [= <-]. Qed.


(** Runs a rendering that is known to succeed. *)
Ltac run_render Hrun :=
  unfold render in Hrun;
  destruct (create_resourceGroup _) eqn:?Hgroup, (create_vnet _) eqn:?Hvnet,
           (create_availabilitySet _) eqn:?Hset;
  repeat
    match type of Hrun with
    | ?run = Ok _ =>
        let next := head_required run in
        let Hrequired := fresh "Hrequired" in
        destruct next as [?x|?msg] eqn:Hrequired;
        cbn [mbind result_bind] in Hrun; [|discriminate Hrun]
    end;
  injection Hrun as <-.


(** X17. One resource group, one region, one virtual network. In a
    rendered configuration every [resource_group_name] is the given name
    of the resource group and every [location] is the given region; the
    resource group and the virtual network, when they are created, get
    the names that the other resources and the outputs use, and the
    subnet is put into the virtual network of that name whether it is
    created here or not. *)
Theorem render_one_resource_group v blocks :
  render v = Ok blocks ->
  exists resourceGroupName location vnetName,
    resourceGroup_name v = Some resourceGroupName /\
    azure_region v = Some location /\
    resourceGroup_vnet_name v = Some vnetName /\
    Forall (fun block =>
              (forall e, attributeOf "resource_group_name" block = Some e ->
                 e = Str (print resourceGroupName)) /\
              (forall e, attributeOf "location" block = Some e ->
                 e = Str (print location))) blocks /\
    (create_resourceGroup v = true ->
     resourceNamed "azurerm_resource_group" "rg" blocks ≫= attributeOf "name"
     = Some (Str (print resourceGroupName))) /\
    (create_vnet v = true ->
     resourceNamed "azurerm_virtual_network" "vnet" blocks ≫= attributeOf "name"
     = Some (Str (print vnetName))) /\
    resourceNamed "azurerm_subnet" "workers" blocks ≫= attributeOf "virtual_network_name"
    = Some (Str (print vnetName)) /\
    Output (outputKey v "resourceGroupName") (Str (print resourceGroupName)) ∈ blocks /\
    Output (outputKey v "vnetName") (Str (print vnetName)) ∈ blocks.
Proof.
  intros Hrun. run_render Hrun;
    repeat match goal with
           | H : required _ _ = Ok _ |- _ => apply required_Some in H
           end;
    do 3 eexists; (do 3 (split; [eassumption|]));
    (split;
     [ repeat apply Forall_cons_2; try apply Forall_nil_2;
       split; intros e; cbv -[print append rangeServiceEndpoints]; intros [=]; subst;
       reflexivity |]);
    (split; [try done; intros _; reflexivity|]);
    (split; [try done; intros _; reflexivity|]);
    (split; [reflexivity|]);
    split; repeat first [ apply list_elem_of_here | apply list_elem_of_further ].
Qed.

Lemma append_empty (s : string) : s +:+ EmptyString = s.
Proof.
  induction s as [|c s IH]; [done|].
  change (String c (s +:+ EmptyString) = String c s). by rewrite IH.
Qed.

Lemma rangeServiceEndpoints_next index serviceEndpoint rest :
  quoted serviceEndpoint +:+ rangeServiceEndpoints (S index) rest
  = String.concat "," (quoted <$> serviceEndpoint :: rest).
Proof.
  revert index serviceEndpoint.
  induction rest as [|next rest IH]; intros index serviceEndpoint.
  - apply append_empty.
  - change (quoted serviceEndpoint +:+ "," +:+ quoted next
            +:+ rangeServiceEndpoints (S (S index)) rest
            = quoted serviceEndpoint +:+ ","
              +:+ String.concat "," (quoted <$> next :: rest)).
    by rewrite IH.
Qed.

(** X18. The service endpoints of the subnet are printed as one list:
    the endpoints in their order, each between two double quotes (the
    character 34), separated by commas, with no comma in front of the
    first or behind the last, and the empty list when there are none. *)
Theorem render_service_endpoints v blocks :
  render v = Ok blocks ->
  resourceNamed "azurerm_subnet" "workers" blocks ≫= attributeOf "service_endpoints"
  = Some (Raw ("[" +:+ String.concat ","
                         ((fun serviceEndpoint =>
                             String "034"%char
                               (serviceEndpoint +:+ String "034"%char EmptyString))
                            <$> resourceGroup_subnet_serviceEndpoints v) +:+ "]")).
Proof.
  intros Hrun.
  change (resourceNamed "azurerm_subnet" "workers" blocks ≫= attributeOf "service_endpoints"
          = Some (Raw ("[" +:+ String.concat ","
                                 (quoted <$> resourceGroup_subnet_serviceEndpoints v)
                       +:+ "]"))).
  assert (rangeServiceEndpoints 0 (resourceGroup_subnet_serviceEndpoints v)
          = String.concat "," (quoted <$> resourceGroup_subnet_serviceEndpoints v)) as <-.
  { destruct (resourceGroup_subnet_serviceEndpoints v) as [|serviceEndpoint rest]; [done|].
    apply (rangeServiceEndpoints_next 0). }
  run_render Hrun; reflexivity.
Qed.

End AzureInfra.

Section AzureInfraExamples.
Import azureinfra.


(** The zoned cluster: everything lies in the resource group [foo] and
    the region [eu-west-1], and the subnet in the virtual network [vnet],
    which this configuration does not create. *)
Lemma render_one_resource_group_witness :
  exists blocks,
    render (sampleInfra.zoned ["Microsoft.Test"]) = Ok blocks /\
    Forall (fun block =>
              (forall e, attributeOf "resource_group_name" block = Some e -> e = Str "foo") /\
              (forall e, attributeOf "location" block = Some e -> e = Str "eu-west-1"))
      blocks /\
    resourceNamed "azurerm_resource_group" "rg" blocks ≫= attributeOf "name"
    = Some (Str "foo") /\
    resourceNamed "azurerm_virtual_network" "vnet" blocks = None /\
    resourceNamed "azurerm_subnet" "workers" blocks ≫= attributeOf "virtual_network_name"
    = Some (Str "vnet").
Proof.
  assert (exists blocks, render (sampleInfra.zoned ["Microsoft.Test"]) = Ok blocks)
    as [blocks Hrun] by (eexists; vm_compute; reflexivity).
  destruct (render_one_resource_group _ _ Hrun)
    as (resourceGroupName & location & vnetName & [= <-] & [= <-] & [= <-]
        & Hblocks & Hgroup & _ & Hsubnet & _).
  exists blocks.
  split; [exact Hrun|]. split; [exact Hblocks|]. split; [by apply Hgroup|].
  split; [|exact Hsubnet].
  vm_compute in Hrun. by injection Hrun as <-.
Defined.

(** Two service endpoints, and none; [q] is the double quote. *)
Lemma render_service_endpoints_witness :
  let q := String "034"%char EmptyString in
  (exists blocks,
     render (sampleInfra.zoned ["Microsoft.Storage"; "Microsoft.Sql"]) = Ok blocks /\
     resourceNamed "azurerm_subnet" "workers" blocks ≫= attributeOf "service_endpoints"
     = Some (Raw ("[" +:+ q +:+ "Microsoft.Storage" +:+ q +:+ "," +:+ q +:+ "Microsoft.Sql"
                  +:+ q +:+ "]"))) /\
  (exists blocks,
     render (sampleInfra.zoned []) = Ok blocks /\
     resourceNamed "azurerm_subnet" "workers" blocks ≫= attributeOf "service_endpoints"
     = Some (Raw "[]")).
Proof.
  intros q. split.
  - assert (exists blocks,
              render (sampleInfra.zoned ["Microsoft.Storage"; "Microsoft.Sql"]) = Ok blocks)
      as [blocks Hrun] by (eexists; vm_compute; reflexivity).
    exists blocks. split; [assumption|].
    by rewrite (render_service_endpoints _ _ Hrun).
  - assert (exists blocks, render (sampleInfra.zoned []) = Ok blocks)
      as [blocks Hrun] by (eexists; vm_compute; reflexivity).
    exists blocks. split; [assumption|].
    by rewrite (render_service_endpoints _ _ Hrun).
Defined.

End AzureInfraExamples.
